(** * The WebSocket relay of deploy/lambda_handler.py

    A shallow embedding of [get_apigw_client], [send_message],
    [call_a2a_agent] and [lambda_handler], and the properties of the relay
    stated in the specification.

    Python values are modelled by [pyval] (the values [json.loads] can
    produce), Python exceptions by [exn], module-level state and the calls
    the handler makes to the outside by [world], and the behaviour of the
    outside (boto3 clients, [json.loads], [bytes.decode]) by an [Env] the
    development is parametric in.

    [print] writes to [sys.stdout], a strict UTF-8 text stream: it raises
    [UnicodeEncodeError] on a line that holds a lone surrogate, which a
    client can put in any string of a request.  The lines the handler
    prints are part of its control flow for that reason.

    The tools of agents/provisioning_agent.py ([deploy_cfn_stack],
    [get_stack_status], [request_design_from_onboarding_agent]) follow, each
    with the calls it makes and an environment of its own. *)

From Stdlib Require Import String Ascii List ZArith Lia Bool Arith.
From Stdlib Require Import Strings.Byte.
From Stdlib Require Import DecimalString.
Import ListNotations.
Local Open Scope string_scope.
#[local] Set Warnings "-register-all".

(** ** Python values *)

(** The values of the JSON data model.  A [str] is held as the bytes of its
    UTF-8 encoding, so a character takes one to four [ascii]; a lone
    surrogate, which [json.loads] makes of an escape such as [\ud800], is
    held as the three bytes the encoding scheme gives its code point.  A
    [float] is kept as its literal text, since the handler never computes
    with one; a [dict] with [str] keys is an association list read by first
    match. *)
Inductive pyval : Type :=
| PNone
| PBool (b : bool)
| PInt (z : Z)
| PFloat (literal : string)
| PStr (s : string)
| PList (l : list pyval)
| PDict (kvs : list (string * pyval)).

(** An exception of class [Exception]: its class name and [str(e)]. *)
Record exn : Type := Exn { exn_class : string; exn_str : string }.

Fixpoint assoc (key : string) (kvs : list (string * pyval)) : option pyval :=
  match kvs with
  | [] => None
  | (k, v) :: rest => if String.eqb k key then Some v else assoc key rest
  end.

Definition has_key (key : string) (kvs : list (string * pyval)) : bool :=
  match assoc key kvs with Some _ => true | None => false end.

Definition type_name (v : pyval) : string :=
  match v with
  | PNone => "NoneType"
  | PBool _ => "bool"
  | PInt _ => "int"
  | PFloat _ => "float"
  | PStr _ => "str"
  | PList _ => "list"
  | PDict _ => "dict"
  end.

Definition dict_get (key : string) (default : pyval)
  (kvs : list (string * pyval)) : pyval :=
  match assoc key kvs with
  | Some x => x
  | None => default
  end.

(** [v.get(key, default)]: only a dict has the method. *)
Definition py_get (v : pyval) (key : string) (default : pyval) : exn + pyval :=
  match v with
  | PDict kvs => inr (dict_get key default kvs)
  | _ => inl (Exn "AttributeError"
                  ("'" ++ type_name v ++ "' object has no attribute 'get'"))
  end.

(** [v[key]] for a [str] key. *)
Definition py_getitem (v : pyval) (key : string) : exn + pyval :=
  match v with
  | PDict kvs =>
      match assoc key kvs with
      | Some x => inr x
      | None => inl (Exn "KeyError" ("'" ++ key ++ "'"))
      end
  | PList _ =>
      inl (Exn "TypeError" "list indices must be integers or slices, not str")
  | PStr _ =>
      inl (Exn "TypeError" "string indices must be integers, not 'str'")
  | _ => inl (Exn "TypeError"
                  ("'" ++ type_name v ++ "' object is not subscriptable"))
  end.

(** [v == s] for a [str] literal [s]. *)
Definition py_eq_str (v : pyval) (s : string) : bool :=
  match v with
  | PStr t => String.eqb t s
  | _ => false
  end.

(** [key in v] for a [str] literal [key]. *)
Definition py_contains (key : string) (v : pyval) : exn + bool :=
  match v with
  | PDict kvs => inr (has_key key kvs)
  | PList l => inr (existsb (fun x => py_eq_str x key) l)
  | PStr s =>
      inr (match index 0 key s with Some _ => true | None => false end)
  | _ => inl (Exn "TypeError"
                  ("argument of type '" ++ type_name v ++ "' is not iterable"))
  end.

(** [s.split('/')], and [s.split('/')[-1]]. *)
Fixpoint split_slash (cur : string) (s : string) : list string :=
  match s with
  | EmptyString => [cur]
  | String c rest =>
      if Ascii.eqb c "/"%char then cur :: split_slash "" rest
      else split_slash (cur ++ String c "") rest
  end.

Definition last_segment (s : string) : string := last (split_slash "" s) "".

Definition str_of_nat (n : nat) : string :=
  NilZero.string_of_uint (Nat.to_uint n).

(** ** Characters, and what [print] can write *)

(** A byte [10xxxxxx] continues the character begun before it; every other
    byte begins one. *)
Definition continues (c : ascii) : bool :=
  match c with
  | Ascii _ _ _ _ _ _ b6 b7 => b7 && negb b6
  end.

(** [len(s)]: the characters of [s]. *)
Fixpoint py_len (s : string) : nat :=
  match s with
  | EmptyString => 0
  | String c rest => if continues c then py_len rest else S (py_len rest)
  end.

(** [s[:n]]: the first [n] characters of [s], each with the bytes that
    continue it. *)
Fixpoint py_prefix (n : nat) (s : string) : string :=
  match s with
  | EmptyString => EmptyString
  | String c rest =>
      if continues c then String c (py_prefix n rest)
      else
        match n with
        | O => EmptyString
        | S m => String c (py_prefix m rest)
        end
  end.

(** The code points U+D800 to U+DFFF, the surrogates, are those whose
    encoding begins with the byte [ED] followed by a byte [101xxxxx]. *)
Definition surrogate_lead : ascii := "237"%char.

Definition surrogate_second (c : ascii) : bool :=
  match c with
  | Ascii _ _ _ _ _ b5 b6 b7 => b7 && negb b6 && b5
  end.

Definition starts_second (s : string) : bool :=
  match s with
  | String d _ => surrogate_second d
  | EmptyString => false
  end.

Fixpoint has_surrogate (s : string) : bool :=
  match s with
  | EmptyString => false
  | String c rest =>
      (Ascii.eqb c surrogate_lead && starts_second rest) || has_surrogate rest
  end.

(** What [sys.stdout], a UTF-8 text stream, can encode: every [str] without
    a surrogate. *)
Definition printable (line : string) : bool := negb (has_surrogate line).

(** The characters before the first surrogate of [s]. *)
Fixpoint surrogate_position (s : string) : nat :=
  match s with
  | EmptyString => 0
  | String c rest =>
      if Ascii.eqb c surrogate_lead && starts_second rest then 0
      else (if continues c then 0 else 1) + surrogate_position rest
  end.

(** [s] from its first surrogate on. *)
Fixpoint from_surrogate (s : string) : string :=
  match s with
  | EmptyString => EmptyString
  | String c rest =>
      if Ascii.eqb c surrogate_lead && starts_second rest then s
      else from_surrogate rest
  end.

(** The surrogates [s] begins with. *)
Fixpoint surrogate_run (s : string) : nat :=
  match s with
  | String c (String d (String _ rest)) =>
      if Ascii.eqb c surrogate_lead && surrogate_second d
      then S (surrogate_run rest)
      else 0
  | _ => 0
  end.

Definition hex_digit (b3 b2 b1 b0 : bool) : ascii :=
  match b3, b2, b1, b0 with
  | false, false, false, false => "0"
  | false, false, false, true => "1"
  | false, false, true, false => "2"
  | false, false, true, true => "3"
  | false, true, false, false => "4"
  | false, true, false, true => "5"
  | false, true, true, false => "6"
  | false, true, true, true => "7"
  | true, false, false, false => "8"
  | true, false, false, true => "9"
  | true, false, true, false => "a"
  | true, false, true, true => "b"
  | true, true, false, false => "c"
  | true, true, false, true => "d"
  | true, true, true, false => "e"
  | true, true, true, true => "f"
  end%char.

(** The code point of the surrogate [s] begins with, in four hexadecimal
    digits: the bits [1101], the low six bits of the second byte, the low
    six bits of the third. *)
Definition surrogate_hex (s : string) : string :=
  match s with
  | String _ (String (Ascii d0 d1 d2 d3 d4 d5 _ _) rest) =>
      match rest with
      | String (Ascii e0 e1 e2 e3 e4 e5 _ _) _ =>
          String "d"
            (String (hex_digit d5 d4 d3 d2)
               (String (hex_digit d1 d0 e5 e4)
                  (String (hex_digit e3 e2 e1 e0) "")))
      | EmptyString =>
          String "d"
            (String (hex_digit d5 d4 d3 d2)
               (String (hex_digit d1 d0 false false) "0"))
      end
  | _ => "d800"
  end.

(** [str(e)] of the [UnicodeEncodeError] for [line]: one surrogate is
    named, a run of them is given by its first and last position. *)
Definition surrogates_not_allowed (line : string) : string :=
  let position := surrogate_position line in
  match surrogate_run (from_surrogate line) with
  | S (S more) =>
      "'utf-8' codec can't encode characters in position "
      ++ str_of_nat position ++ "-" ++ str_of_nat (position + S more)
      ++ ": surrogates not allowed"
  | _ =>
      "'utf-8' codec can't encode character '\u"
      ++ surrogate_hex (from_surrogate line) ++ "' in position "
      ++ str_of_nat position ++ ": surrogates not allowed"
  end.

(** What writing [line] to [sys.stdout] raises, if anything. *)
Definition encode_error (line : string) : option exn :=
  if printable line then None
  else Some (Exn "UnicodeEncodeError" (surrogates_not_allowed line)).

(** The exception of an outcome, and whether [print] can write its text. *)
Definition raised {A} (r : exn + A) : option exn :=
  match r with
  | inl e => Some e
  | inr _ => None
  end.

Definition legible (r : option exn) : Prop :=
  match r with
  | Some e => printable (exn_str e) = true
  | None => True
  end.

(** The characters of ASCII take one byte, below 128. *)
Definition is_plain (c : ascii) : bool :=
  match c with
  | Ascii _ _ _ _ _ _ _ b7 => negb b7
  end.

Fixpoint plain (s : string) : bool :=
  match s with
  | EmptyString => true
  | String c rest => is_plain c && plain rest
  end.

(** ** The world: module state and the calls made to the outside *)

(** A client object made by [boto3.client('apigatewaymanagementapi', ...)]:
    [client_serial] tells two objects with one endpoint apart. *)
Record client : Type := Client { client_serial : nat; endpoint_url : string }.

(** One fragment of the [completion] stream of [invoke_agent]. *)
Inductive fragment : Type :=
| NoChunk                                  (* an event without 'chunk' *)
| Chunk (payload : option (list byte)).    (* 'chunk', with or without 'bytes' *)

(** The stream: the fragments delivered, and the exception that ends the
    iteration when the transport fails in the middle. *)
Record agent_stream : Type :=
  Stream { fragments : list fragment; stream_error : option exn }.

Inductive io : Type :=
| Print (line : string)
| PrintExc (e : exn)                       (* traceback.print_exc() *)
| SendMessage (connection_id message : pyval)   (* send_message is entered *)
| NewClient (endpoint : string) (ok : bool)
| PostToConnection (c : client) (connection_id data : pyval) (ok : bool)
| InvokeAgent (agent_id : string) (session_id input : pyval) (ok : bool)
| LambdaInvoke (function_name : string) (payload : pyval) (ok : bool).

(** [apigw] is the module-level variable of that name; [log] holds the calls
    made so far, the latest first. *)
Record world : Type := World { apigw : option client; log : list io }.

Definition init_world : world := World None [].

Definition emit (e : io) (w : world) : world := World (apigw w) (e :: log w).

(** The events of a run from [w] to [w'], in the order they happened. *)
Definition events_since (w w' : world) : list io :=
  rev (firstn (length (log w') - length (log w)) (log w')).

(** What the code cannot decide: the environment variables, the version
    of the interpreter, the library functions and the outcome of every call
    that leaves the process.  Each outcome may depend on everything that
    happened before.

    Two assumptions about the libraries come with the functions.  [repr]
    escapes what cannot be written, so [print] can write the [repr] of any
    value.  And [print] can write the text of what [json.loads],
    [boto3.client], [post_to_connection] and [lambda_client.invoke] raise:
    these are the exceptions the handler prints outside every [try] of its
    own (lines 35 and 169), and their messages are taken to be plain text.
    Nothing is assumed of what [invoke_agent], its stream and
    [bytes.decode] raise. *)
Record Env : Type := {
  ONBOARDING_AGENT_ARN : string;
  PROVISIONING_AGENT_ARN : string;
  slices_are_hashable : bool;            (* Python 3.12 or later *)
  py_repr : pyval -> string;
  json_loads : string -> exn + pyval;
  decode_utf8 : list byte -> exn + string;
  boto3_client : world -> string -> option exn;
  post_to_connection : world -> client -> pyval -> pyval -> option exn;
  invoke_agent : world -> string -> pyval -> pyval -> exn + agent_stream;
  lambda_invoke : world -> string -> pyval -> option exn;
  py_repr_printable : forall v, printable (py_repr v) = true;
  json_loads_legible : forall s, legible (raised (json_loads s));
  boto3_client_legible : forall w endpoint, legible (boto3_client w endpoint);
  post_to_connection_legible :
    forall w c connection_id data,
      legible (post_to_connection w c connection_id data);
  lambda_invoke_legible :
    forall w fn payload, legible (lambda_invoke w fn payload)
}.

(** The [context] argument of the handler. *)
Record lambda_context : Type := Context { function_name : string }.

(** ** A state and exception monad *)

(** A computation runs in a world and either raises an [X] or returns an
    [A].  [X] is [exn], except inside the outer [try] of [lambda_handler],
    where a raise also tells whether the local [body] was bound yet. *)
Definition M (X A : Type) : Type := world -> (X + A) * world.

Definition ret {X A} (a : A) : M X A := fun w => (inr a, w).

Definition raise {X A} (x : X) : M X A := fun w => (inl x, w).

Definition bind {X A B} (m : M X A) (k : A -> M X B) : M X B :=
  fun w =>
    match m w with
    | (inr a, w') => k a w'
    | (inl x, w') => (inl x, w')
    end.

(** [try: m except Exception as e: h e]. *)
Definition try_except {X Y A} (m : M X A) (h : X -> M Y A) : M Y A :=
  fun w =>
    match m w with
    | (inr a, w') => (inr a, w')
    | (inl x, w') => h x w'
    end.

(** The value or exception of an expression without effects. *)
Definition lift {A} (r : exn + A) : M exn A := fun w => (r, w).

Definition map_raise {X Y A} (f : X -> Y) (m : M X A) : M Y A :=
  try_except m (fun x => raise (f x)).

Definition tell {X} (e : io) : M X unit := fun w => (inr tt, emit e w).

(** [print(line)]: the line is written, unless it cannot be encoded; then
    nothing is written and [UnicodeEncodeError] is raised. *)
Definition print (line : string) : M exn unit :=
  fun w =>
    match encode_error line with
    | Some e => (inl e, w)
    | None => (inr tt, emit (Print line) w)
    end.

Declare Scope py_scope.
Delimit Scope py_scope with py.
Notation "x <- m ;; k" := (bind m (fun x => k))
  (at level 61, m at next level, right associativity) : py_scope.
Notation "m ;; k" := (bind m (fun _ => k))
  (at level 61, right associativity) : py_scope.
Local Open Scope py_scope.

Definition status (code : Z) : pyval := PDict [("statusCode", PInt code)].

Section Handler.

Variable E : Env.

(** [str(v)], which is also what an f-string puts for [{v}]: a [str] is
    itself, every other value its [repr]. *)
Definition py_str (v : pyval) : string :=
  match v with
  | PStr s => s
  | _ => py_repr E v
  end.

(** [json.loads(v)]. *)
Definition py_json_loads (v : pyval) : exn + pyval :=
  match v with
  | PStr s => json_loads E s
  | _ => inl (Exn "TypeError"
                  ("the JSON object must be str, bytes or bytearray, not "
                   ++ type_name v))
  end.

(** [v[:100]]: the first hundred characters of a [str], the first hundred
    items of a list.  A dict takes the slice for a key: one it does not have
    where slices are hashable (Python 3.12 and later), and no key at all
    before. *)
Definition py_slice100 (v : pyval) : exn + pyval :=
  match v with
  | PStr s => inr (PStr (py_prefix 100 s))
  | PList l => inr (PList (firstn 100 l))
  | PDict _ =>
      inl (if slices_are_hashable E
           then Exn "KeyError" "slice(None, 100, None)"
           else Exn "TypeError" "unhashable type: 'slice'")
  | _ => inl (Exn "TypeError"
                  ("'" ++ type_name v ++ "' object is not subscriptable"))
  end.

(** [boto3.client('apigatewaymanagementapi', endpoint_url=endpoint)]. *)
Definition new_client (endpoint : string) : M exn client :=
  fun w =>
    match boto3_client E w endpoint with
    | Some e => (inl e, emit (NewClient endpoint false) w)
    | None =>
        (inr (Client (length (log w)) endpoint),
         emit (NewClient endpoint true) w)
    end.

Definition get_apigw_client (event : pyval) : M exn client :=
  fun w =>
    match apigw w with
    | None =>
        (rc <- lift (py_getitem event "requestContext") ;;
         domain <- lift (py_getitem rc "domainName") ;;
         rc' <- lift (py_getitem event "requestContext") ;;
         stage <- lift (py_getitem rc' "stage") ;;
         let endpoint := "https://" ++ py_str domain ++ "/" ++ py_str stage in
         c <- new_client endpoint ;;
         fun w' => (inr c, World (Some c) (log w'))) w
    | Some c => (inr c, w)
    end.

(** [client.post_to_connection(ConnectionId=connection_id, Data=json.dumps(message))].
    [json.dumps] is total on [pyval]; the log keeps the message itself. *)
Definition post (c : client) (connection_id message : pyval) : M exn unit :=
  fun w =>
    match post_to_connection E w c connection_id message with
    | Some e => (inl e, emit (PostToConnection c connection_id message false) w)
    | None => (inr tt, emit (PostToConnection c connection_id message true) w)
    end.

Definition send_message (connection_id message event : pyval) : M exn bool :=
  tell (SendMessage connection_id message) ;;
  try_except
    (c <- get_apigw_client event ;;
     post c connection_id message ;;
     ret true)
    (fun e =>
       print ("Error sending message: " ++ exn_str e) ;;
       ret false).

(** The loop over [response['completion']]: [response_text] grows by the
    decoded payload of every fragment that has a chunk with bytes. *)
Fixpoint collect (frags : list fragment) (response_text : string)
  : exn + string :=
  match frags with
  | [] => inr response_text
  | NoChunk :: rest => collect rest response_text
  | Chunk None :: rest => collect rest response_text
  | Chunk (Some bytes) :: rest =>
      match decode_utf8 E bytes with
      | inl e => inl e
      | inr text => collect rest (response_text ++ text)
      end
  end.

Definition read_completion (s : agent_stream) : exn + string :=
  match collect (fragments s) "" with
  | inl e => inl e
  | inr text =>
      match stream_error s with
      | Some e => inl e
      | None => inr text
      end
  end.

(** [bedrock_agent_runtime.invoke_agent(agentId=..., agentAliasId='DEFAULT',
    sessionId=..., inputText=...)]. *)
Definition call_invoke_agent (agent_id : string) (session_id message : pyval)
  : M exn agent_stream :=
  fun w =>
    match invoke_agent E w agent_id session_id message with
    | inl e => (inl e, emit (InvokeAgent agent_id session_id message false) w)
    | inr s => (inr s, emit (InvokeAgent agent_id session_id message true) w)
    end.

Definition call_a2a_agent (agent_arn : string) (message session_id : pyval)
  : M exn pyval :=
  print ("Calling agent: " ++ agent_arn) ;;
  print ("Session: " ++ py_str session_id) ;;
  head <- lift (py_slice100 message) ;;
  print ("Message: " ++ py_str head) ;;
  let agent_id := last_segment agent_arn in
  try_except
    (response <- call_invoke_agent agent_id session_id message ;;
     response_text <- lift (read_completion response) ;;
     print ("Response length: " ++ str_of_nat (py_len response_text)) ;;
     ret (PDict [("response", PStr response_text);
                 ("sessionId", session_id)]))
    (fun e =>
       print ("Error calling agent: " ++ exn_str e) ;;
       raise e).

(** [ONBOARDING_AGENT_ARN if agent_type == 'onboarding' else
    PROVISIONING_AGENT_ARN]. *)
Definition agent_arn_of (agent_type : pyval) : string :=
  if py_eq_str agent_type "onboarding" then ONBOARDING_AGENT_ARN E
  else PROVISIONING_AGENT_ARN E.

(** [lambda_client.invoke(FunctionName=..., InvocationType='Event',
    Payload=json.dumps(payload))].  The platform parses the payload back
    into the event of the scheduled invocation, so the log keeps the value. *)
Definition call_lambda_invoke (fn : string) (payload : pyval) : M exn unit :=
  fun w =>
    match lambda_invoke E w fn payload with
    | Some e => (inl e, emit (LambdaInvoke fn payload false) w)
    | None => (inr tt, emit (LambdaInvoke fn payload true) w)
    end.

(** Lines 88-118 of [lambda_handler]: the async branch once the six fields
    are read. *)
Definition async_body
  (agent_type message request_id session_id connection_id original_event
   : pyval) : M exn pyval :=
  print ("Async processing: " ++ py_str agent_type) ;;
  try_except
    (send_message connection_id
       (PDict [("type", PStr "progress");
               ("requestId", request_id);
               ("message", PStr "Agent is thinking...")])
       original_event ;;
     let agent_arn := agent_arn_of agent_type in
     result <- call_a2a_agent agent_arn message session_id ;;
     response <- lift (py_getitem result "response") ;;
     session <- lift (py_getitem result "sessionId") ;;
     send_message connection_id
       (PDict [("type", PStr "response");
               ("requestId", request_id);
               ("agentType", agent_type);
               ("response", response);
               ("sessionId", session)])
       original_event ;;
     ret tt)
    (fun e =>
       print ("Error: " ++ exn_str e) ;;
       tell (PrintExc e) ;;
       send_message connection_id
         (PDict [("type", PStr "error");
                 ("requestId", request_id);
                 ("error", PStr (exn_str e))])
         original_event ;;
       ret tt) ;;
  ret (status 200).

(** The branch of [lambda_handler] taken when the event has the
    [async_processing] field (lines 80-118). *)
Definition async_processing (event : pyval) : M exn pyval :=
  async_event <- lift (py_getitem event "async_processing") ;;
  agent_type <- lift (py_getitem async_event "agentType") ;;
  message <- lift (py_getitem async_event "message") ;;
  request_id <- lift (py_getitem async_event "requestId") ;;
  session_id <- lift (py_getitem async_event "sessionId") ;;
  connection_id <- lift (py_getitem async_event "connectionId") ;;
  original_event <- lift (py_getitem async_event "event") ;;
  async_body agent_type message request_id session_id connection_id
    original_event.

(** Inside the outer [try], a raise is paired with the local [body] as the
    [except] clause will find it: unbound, or bound to a value. *)
Definition body_unbound {A} (m : M exn A) : M (exn * option pyval) A :=
  map_raise (fun e => (e, None)) m.

Definition body_bound {A} (body : pyval) (m : M exn A)
  : M (exn * option pyval) A :=
  map_raise (fun e => (e, Some body)) m.

(** The body of the outer [try] of [lambda_handler]. *)
Definition routes (route_key connection_id event : pyval)
  (context : lambda_context) : M (exn * option pyval) pyval :=
  if py_eq_str route_key "$connect" then
    body_unbound
      (send_message connection_id
         (PDict [("type", PStr "connected");
                 ("message", PStr "Connected to Agentic-Architect")])
         event ;;
       ret (status 200))
  else if py_eq_str route_key "$disconnect" then
    body_unbound
      (print ("Disconnected: " ++ py_str connection_id) ;;
       ret (status 200))
  else if py_eq_str route_key "$default" then
    body <- body_unbound
              (text <- lift (py_get event "body" (PStr "{}")) ;;
               lift (py_json_loads text)) ;;
    body_bound body
      (request_id <- lift (py_get body "id" PNone) ;;
       agent_type <- lift (py_get body "agentType" (PStr "onboarding")) ;;
       message <- lift (py_get body "message" PNone) ;;
       session_id <- lift (py_get body "sessionId"
                             (PStr ("session-" ++ py_str request_id))) ;;
       print ("Agent: " ++ py_str agent_type
              ++ ", Request: " ++ py_str request_id) ;;
       send_message connection_id
         (PDict [("type", PStr "acknowledged");
                 ("requestId", request_id);
                 ("agentType", agent_type)])
         event ;;
       call_lambda_invoke (function_name context)
         (PDict [("async_processing",
                  PDict [("agentType", agent_type);
                         ("message", message);
                         ("requestId", request_id);
                         ("sessionId", session_id);
                         ("connectionId", connection_id);
                         ("event", event)])]) ;;
       ret (status 200))
  else ret (status 400).

(** The outer [except Exception as e] clause. *)
Definition on_exception (route_key connection_id event : pyval)
  (raised : exn * option pyval) : M exn pyval :=
  let (e, body) := raised in
  print ("Error: " ++ exn_str e) ;;
  tell (PrintExc e) ;;
  (if py_eq_str route_key "$default" then
     try_except
       (b <- match body with
             | Some b => ret b
             | None =>
                 raise (Exn "UnboundLocalError"
                          "cannot access local variable 'body' where it is not associated with a value")
             end ;;
        request_id <- lift (py_get b "id" PNone) ;;
        send_message connection_id
          (PDict [("type", PStr "error");
                  ("requestId", request_id);
                  ("error", PStr (exn_str e))])
          event ;;
        ret tt)
       (fun _ : exn => ret tt)
   else ret tt) ;;
  ret (status 500).

Definition lambda_handler (event : pyval) (context : lambda_context)
  : M exn pyval :=
  rc <- lift (py_get event "requestContext" (PDict [])) ;;
  route_key <- lift (py_get rc "routeKey" PNone) ;;
  rc' <- lift (py_get event "requestContext" (PDict [])) ;;
  connection_id <- lift (py_get rc' "connectionId" PNone) ;;
  marked <- lift (py_contains "async_processing" event) ;;
  if marked : bool then async_processing event
  else
    try_except (routes route_key connection_id event context)
               (on_exception route_key connection_id event).

End Handler.

(** ** Observing a run *)

(** The notifications of a list of events: the calls of [send_message],
    each with its connection id and message. *)
Fixpoint sends (evs : list io) : list (pyval * pyval) :=
  match evs with
  | [] => []
  | SendMessage c m :: rest => (c, m) :: sends rest
  | _ :: rest => sends rest
  end.

(** The payloads [lambda_client.invoke] accepted: the re-invocations the
    platform will run. *)
Fixpoint scheduled (evs : list io) : list pyval :=
  match evs with
  | [] => []
  | LambdaInvoke _ p true :: rest => p :: scheduled rest
  | _ :: rest => scheduled rest
  end.

(** Every call of [lambda_client.invoke], accepted or not: the function
    name and the payload. *)
Fixpoint invoke_calls (evs : list io) : list (string * pyval) :=
  match evs with
  | [] => []
  | LambdaInvoke fn p _ :: rest => (fn, p) :: invoke_calls rest
  | _ :: rest => invoke_calls rest
  end.

(** The attempts to deliver: the calls of [post_to_connection]. *)
Fixpoint posts (evs : list io) : list (client * pyval * pyval) :=
  match evs with
  | [] => []
  | PostToConnection c conn m _ :: rest => (c, conn, m) :: posts rest
  | _ :: rest => posts rest
  end.

(** The deliveries that succeeded. *)
Fixpoint delivered (evs : list io) : list (pyval * pyval) :=
  match evs with
  | [] => []
  | PostToConnection _ conn m true :: rest => (conn, m) :: delivered rest
  | _ :: rest => delivered rest
  end.

(** The clients [boto3.client] built. *)
Fixpoint constructions (evs : list io) : list string :=
  match evs with
  | [] => []
  | NewClient endpoint true :: rest => endpoint :: constructions rest
  | _ :: rest => constructions rest
  end.

(** The agents [invoke_agent] was called for. *)
Fixpoint agent_calls (evs : list io) : list string :=
  match evs with
  | [] => []
  | InvokeAgent agent_id _ _ _ :: rest => agent_id :: agent_calls rest
  | _ :: rest => agent_calls rest
  end.

Fixpoint prints (evs : list io) : list string :=
  match evs with
  | [] => []
  | Print line :: rest => line :: prints rest
  | _ :: rest => prints rest
  end.

(** The [type] field of a notification. *)
Definition notification_type (message : pyval) : string :=
  match py_get message "type" PNone with
  | inr (PStr t) => t
  | _ => ""
  end.

Definition count_type (t : string) (ns : list (pyval * pyval)) : nat :=
  length (filter (fun n => String.eqb (notification_type (snd n)) t) ns).


Definition acknowledged_msg (request_id agent_type : pyval) : pyval :=
  PDict [("type", PStr "acknowledged");
         ("requestId", request_id);
         ("agentType", agent_type)].

Definition progress_msg (request_id : pyval) : pyval :=
  PDict [("type", PStr "progress");
         ("requestId", request_id);
         ("message", PStr "Agent is thinking...")].

Definition response_msg (request_id agent_type response session_id : pyval)
  : pyval :=
  PDict [("type", PStr "response");
         ("requestId", request_id);
         ("agentType", agent_type);
         ("response", response);
         ("sessionId", session_id)].

Definition error_msg (request_id : pyval) (description : string) : pyval :=
  PDict [("type", PStr "error");
         ("requestId", request_id);
         ("error", PStr description)].

(** The run from [w] to [w'] made the calls [evs], in this order. *)
Definition extends (w w' : world) (evs : list io) : Prop :=
  log w' = (rev evs ++ log w)%list.

(** The same history seen from a process whose cached client is [c]: the
    scheduled invocation may run in the process that scheduled it or in
    another one. *)
Definition in_process (c : option client) (w : world) : world :=
  World c (log w).

(** The synchronous run on [event] followed by the run of every invocation
    it scheduled, each in a process whose cached client is [c]. *)
Definition serve (E : Env) (c : option client) (event : pyval)
  (context : lambda_context) (w : world) : world :=
  let w1 := snd (lambda_handler E event context w) in
  fold_left
    (fun w' payload =>
       snd (lambda_handler E payload context (in_process c w')))
    (scheduled (events_since w w1)) w1.

(** [event.get('requestContext', {}).get(key)] where it does not raise. *)
Definition context_field (event : pyval) (key : string) : option pyval :=
  match py_get event "requestContext" (PDict []) with
  | inr rc =>
      match py_get rc key PNone with
      | inr v => Some v
      | inl _ => None
      end
  | inl _ => None
  end.

(** The connection id [lambda_handler] reads from the event. *)
Definition connection_of (event : pyval) : pyval :=
  match context_field event "connectionId" with
  | Some v => v
  | None => PNone
  end.

(** The event [lambda_handler] schedules for a [$default] request. *)
Definition async_payload
  (agent_type message request_id session_id connection_id event : pyval)
  : pyval :=
  PDict [("async_processing",
          PDict [("agentType", agent_type);
                 ("message", message);
                 ("requestId", request_id);
                 ("sessionId", session_id);
                 ("connectionId", connection_id);
                 ("event", event)])].

(** An event of the gateway for the route [route]: it has no
    [async_processing] field and its route key is [route]. *)
Definition gateway_event (route : string) (event : pyval) : Prop :=
  context_field event "routeKey" = Some (PStr route)
  /\ py_contains "async_processing" event = inr false.

(** [json.loads(event.get('body', '{}'))]. *)
Definition request_body (E : Env) (event : pyval) : exn + pyval :=
  match py_get event "body" (PStr "{}") with
  | inr text => py_json_loads E text
  | inl e => inl e
  end.

(** The byte payloads of a completion stream: those of the fragments that
    have a chunk with bytes, in delivery order. *)
Fixpoint payloads (frags : list fragment) : list (list byte) :=
  match frags with
  | [] => []
  | Chunk (Some bytes) :: rest => bytes :: payloads rest
  | _ :: rest => payloads rest
  end.

Fixpoint concat_texts (texts : list string) : string :=
  match texts with
  | [] => ""
  | t :: rest => t ++ concat_texts rest
  end.

(** The world in which [call_a2a_agent] reaches [invoke_agent], when
    [message[:100]] is [head]. *)
Definition at_invoke (E : Env) (agent_arn : string) (session_id head : pyval)
  (w : world) : world :=
  emit (Print ("Message: " ++ py_str E head))
    (emit (Print ("Session: " ++ py_str E session_id))
       (emit (Print ("Calling agent: " ++ agent_arn)) w)).

(** The world in which [async_body] calls [call_a2a_agent]: after the
    line it prints and the [progress] notification. *)
Definition after_progress (E : Env)
  (agent_type request_id connection_id original_event : pyval) (w : world)
  : world :=
  snd (send_message E connection_id (progress_msg request_id) original_event
         (emit (Print ("Async processing: " ++ py_str E agent_type)) w)).

(** Lines 40-42 of [call_a2a_agent], which come before its [try]: the
    three lines print in this order, [message[:100]] being taken for the
    third.  The value is that slice when all three print, and otherwise what
    the first of them to fail raises. *)
Definition announce (E : Env) (agent_arn : string)
  (message session_id : pyval) : exn + pyval :=
  match encode_error ("Calling agent: " ++ agent_arn) with
  | Some e => inl e
  | None =>
      match encode_error ("Session: " ++ py_str E session_id) with
      | Some e => inl e
      | None =>
          match py_slice100 E message with
          | inl e => inl e
          | inr head =>
              match encode_error ("Message: " ++ py_str E head) with
              | Some e => inl e
              | None => inr head
              end
          end
      end
  end.

(** What the [except] clause of [call_a2a_agent] leaves when the [try] raised
    [e] in the world [w]: [e] again once its line is printed, and what
    [print] raises when it is not. *)
Definition reraised (e : exn) (w : world) : (exn + pyval) * world :=
  match encode_error ("Error calling agent: " ++ exn_str e) with
  | None => (inl e, emit (Print ("Error calling agent: " ++ exn_str e)) w)
  | Some e' => (inl e', w)
  end.

(** Whether the async entry, given these fields, gets as far as calling
    [invoke_agent]: line 88 and lines 40-42 have to print. *)
Definition reaches_agent (E : Env) (agent_type message session_id : pyval)
  : bool :=
  printable (py_str E agent_type)
  && match announce E (agent_arn_of E agent_type) message session_id with
     | inr _ => true
     | inl _ => false
     end.

(** Whatever [m] raises satisfies [P]. *)
Definition raises_only {X A} (P : X -> Prop) (m : M X A) : Prop :=
  forall w x w', m w = (inl x, w') -> P x.

(** [print] can write [str(e)]. *)
Definition can_print (e : exn) : Prop := printable (exn_str e) = true.


(** The six fields [lambda_handler] reads from the [async_processing]
    value, in the order it reads them. *)
Definition async_fields : list string :=
  ["agentType"; "message"; "requestId"; "sessionId"; "connectionId"; "event"].

(** The shape of the events [lambda_handler] schedules for itself: an
    object whose [requestContext], if any, is an object, and whose
    [async_processing] is an object with the six fields. *)
Definition async_marker_ok (event : pyval) : bool :=
  match event with
  | PDict top =>
      match assoc "requestContext" top with
      | None | Some (PDict _) => true
      | Some _ => false
      end
      && match assoc "async_processing" top with
         | Some (PDict fields) =>
             forallb (fun key => has_key key fields) async_fields
         | _ => false
         end
  | _ => false
  end.

(** [event['async_processing'][key]], [None] where it is not defined. *)
Definition async_field (event : pyval) (key : string) : pyval :=
  match py_getitem event "async_processing" with
  | inr async_event =>
      match py_getitem async_event key with
      | inr v => v
      | inl _ => PNone
      end
  | inl _ => PNone
  end.

(** The field [key] of every payload given to [lambda_client.invoke]. *)
Definition scheduled_field (key : string) (evs : list io) : list pyval :=
  map (fun call => async_field (snd call) key) (invoke_calls evs).



(** The invocations one process serves, one after the other. *)
Definition process (E : Env) (invocations : list (pyval * lambda_context))
  (w : world) : world :=
  fold_left
    (fun w' inv => snd (lambda_handler E (fst inv) (snd inv) w'))
    invocations w.

(** Everything that happened in the process so far, in order. *)
Definition history (w : world) : list io := rev (log w).

Definition posted_with (c : client) (p : client * pyval * pyval) : Prop :=
  fst (fst p) = c.

(** How the cached client may change over calls [evs]: it is never dropped
    nor replaced, it is built at most once, when there was none, and every
    delivery goes through it. *)
Definition cache_step (before after : option client) (evs : list io) : Prop :=
  match before, after with
  | Some a, Some b =>
      a = b /\ constructions evs = [] /\ Forall (posted_with a) (posts evs)
  | None, None => constructions evs = [] /\ posts evs = []
  | None, Some b =>
      constructions evs = [endpoint_url b]
      /\ Forall (posted_with b) (posts evs)
  | Some _, None => False
  end.

(** [m] changes the cache by a [cache_step] in every world. *)
Definition tracks {X A} (m : M X A) : Prop :=
  forall w, exists evs,
    extends w (snd (m w)) evs
    /\ cache_step (apigw w) (apigw (snd (m w))) evs.

(** ** A sample environment *)

Module Sample.

Definition quoted (s : string) : string :=
  String "034"%char s ++ String "034"%char "".

(** The text of the request [{id: r1, agentType: onboarding, message:
    hello}], every key and value in double quotes. *)
Definition body_r1 : string :=
  "{" ++ quoted "id" ++ ": " ++ quoted "r1" ++ ", "
      ++ quoted "agentType" ++ ": " ++ quoted "onboarding" ++ ", "
      ++ quoted "message" ++ ": " ++ quoted "hello" ++ "}".

Definition fields_r1 : list (string * pyval) :=
  [("id", PStr "r1"); ("agentType", PStr "onboarding");
   ("message", PStr "hello")].

(** The text of the request [{id: r3, message: deploy}], which names
    no agent type. *)
Definition body_r3 : string :=
  "{" ++ quoted "id" ++ ": " ++ quoted "r3" ++ ", "
      ++ quoted "message" ++ ": " ++ quoted "deploy" ++ "}".

Definition fields_r3 : list (string * pyval) :=
  [("id", PStr "r3"); ("message", PStr "deploy")].

(** [json.loads] on the texts used below; it refuses every other text. *)
Definition loads (s : string) : exn + pyval :=
  if String.eqb s body_r1 then inr (PDict fields_r1)
  else if String.eqb s body_r3 then inr (PDict fields_r3)
  else if String.eqb s "{}" then inr (PDict [])
  else inl (Exn "JSONDecodeError" "Expecting value").

(** [repr], in full for [None] and the booleans; [print] can write it. *)
Definition repr (v : pyval) : string :=
  match v with
  | PNone => "None"
  | PBool true => "True"
  | PBool false => "False"
  | _ => "<" ++ type_name v ++ ">"
  end.

Definition repr_printable (v : pyval) : printable (repr v) = true :=
  match v with
  | PBool true => eq_refl
  | PBool false => eq_refl
  | _ => eq_refl
  end.

Definition loads_legible (s : string) : legible (raised (loads s)).
Proof.
  unfold loads.
  repeat (destruct (String.eqb s _); [exact I|]).
  reflexivity.
Defined.

Definition decode (bytes : list byte) : exn + string :=
  if forallb (fun b => Nat.ltb (Byte.to_nat b) 128) bytes
  then inr (string_of_list_byte bytes)
  else inl (Exn "UnicodeDecodeError" "'utf-8' codec can't decode byte").

(** Every call out of the process succeeds; the agent answers in two
    chunks around an event without one. *)
Definition env : Env := {|
  ONBOARDING_AGENT_ARN := "arn:aws:bedrock:us-east-1:1:agent/ONBOARD";
  PROVISIONING_AGENT_ARN := "arn:aws:bedrock:us-east-1:1:agent/PROVISION";
  slices_are_hashable := true;
  py_repr := repr;
  json_loads := loads;
  decode_utf8 := decode;
  boto3_client := fun _ _ => None;
  post_to_connection := fun _ _ _ _ => None;
  invoke_agent := fun _ _ _ _ =>
    inr (Stream [Chunk (Some [x48; x69]); NoChunk; Chunk None;
                 Chunk (Some [x21])] None);
  lambda_invoke := fun _ _ _ => None;
  py_repr_printable := repr_printable;
  json_loads_legible := loads_legible;
  boto3_client_legible := fun _ _ => I;
  post_to_connection_legible := fun _ _ _ _ => I;
  lambda_invoke_legible := fun _ _ _ => I
|}.

(** The agent endpoint times out, and so does every delivery. *)
Definition failing_env : Env := {|
  ONBOARDING_AGENT_ARN := ONBOARDING_AGENT_ARN env;
  PROVISIONING_AGENT_ARN := PROVISIONING_AGENT_ARN env;
  slices_are_hashable := false;
  py_repr := repr;
  json_loads := loads;
  decode_utf8 := decode;
  boto3_client := fun _ _ => None;
  post_to_connection := fun _ _ _ _ => Some (Exn "GoneException" "410");
  invoke_agent := fun _ _ _ _ => inl (Exn "TimeoutError" "TimeoutError");
  lambda_invoke := fun _ _ _ => None;
  py_repr_printable := repr_printable;
  json_loads_legible := loads_legible;
  boto3_client_legible := fun _ _ => I;
  post_to_connection_legible := fun _ _ _ _ => eq_refl;
  lambda_invoke_legible := fun _ _ _ => I
|}.

Definition request_context (route : string) : pyval :=
  PDict [("routeKey", PStr route); ("connectionId", PStr "c-1");
         ("domainName", PStr "ws.example.com"); ("stage", PStr "prod")].

Definition default_event : pyval :=
  PDict [("requestContext", request_context "$default");
         ("body", PStr body_r1)].

Definition default_event_r3 : pyval :=
  PDict [("requestContext", request_context "$default");
         ("body", PStr body_r3)].

Definition connect_event : pyval :=
  PDict [("requestContext", request_context "$connect")].


Definition context : lambda_context := Context "relay".

(** A request that reaches the same process through another domain. *)
Definition default_event_elsewhere : pyval :=
  PDict [("requestContext",
          PDict [("routeKey", PStr "$default");
                 ("connectionId", PStr "c-2");
                 ("domainName", PStr "other.example.com");
                 ("stage", PStr "dev")]);
         ("body", PStr body_r3)].

(** What one process is given: a connection, then two requests. *)
Definition invocations : list (pyval * lambda_context) :=
  [(connect_event, context); (default_event, context);
   (default_event_elsewhere, context)].

(** The event [lambda_handler] schedules for [default_event]. *)
Definition async_event : pyval :=
  PDict [("async_processing",
          PDict [("agentType", PStr "onboarding");
                 ("message", PStr "hello");
                 ("requestId", PStr "r1");
                 ("sessionId", PStr "session-r1");
                 ("connectionId", PStr "c-1");
                 ("event", default_event)])].

(** The same event for an agent type that is not one of the two. *)
Definition async_event_other_agent : pyval :=
  PDict [("async_processing",
          PDict [("agentType", PStr "billing");
                 ("message", PStr "hello");
                 ("requestId", PStr "r2");
                 ("sessionId", PStr "session-r2");
                 ("connectionId", PStr "c-1");
                 ("event", default_event)])].


End Sample.

(** ** Vocabulary for the paths the relay takes on bad input *)



(** What a [$default] request with body [kvs] is acknowledged with, and
    what it schedules. *)
Definition request_ack (kvs : list (string * pyval)) : pyval :=
  acknowledged_msg (dict_get "id" PNone kvs)
    (dict_get "agentType" (PStr "onboarding") kvs).

Definition request_payload (E : Env) (event : pyval)
  (kvs : list (string * pyval)) : pyval :=
  async_payload
    (dict_get "agentType" (PStr "onboarding") kvs)
    (dict_get "message" PNone kvs)
    (dict_get "id" PNone kvs)
    (dict_get "sessionId"
       (PStr ("session-" ++ py_str E (dict_get "id" PNone kvs))) kvs)
    (connection_of event) event.

(** Line 140: what the handler of a [$default] request with body [kvs]
    prints before it acknowledges the request. *)
Definition request_line (E : Env) (kvs : list (string * pyval)) : string :=
  "Agent: " ++ py_str E (dict_get "agentType" (PStr "onboarding") kvs)
  ++ ", Request: " ++ py_str E (dict_get "id" PNone kvs).

(** The world in which the handler of a [$default] request with body [kvs]
    calls [lambda_client.invoke]: after the line it prints and the
    [acknowledged] notification. *)
Definition after_acknowledged (E : Env) (event : pyval)
  (kvs : list (string * pyval)) (w : world) : world :=
  snd (send_message E (connection_of event) (request_ack kvs) event
         (emit (Print (request_line E kvs)) w)).

(** The session id of the payload scheduled for a [$default] request with
    body [kvs]. *)
Definition request_session (E : Env) (kvs : list (string * pyval)) : pyval :=
  dict_get "sessionId"
    (PStr ("session-" ++ py_str E (dict_get "id" PNone kvs))) kvs.

(** [v[key]], [None] where it is not defined. *)
Definition py_item (v : pyval) (key : string) : pyval :=
  match py_getitem v key with
  | inr x => x
  | inl _ => PNone
  end.

(** The notification [async_body] ends with, given how [call_a2a_agent]
    ended. *)
Definition terminal_for (request_id agent_type : pyval)
  (outcome : exn + pyval) : pyval :=
  match outcome with
  | inr result =>
      response_msg request_id agent_type (py_item result "response")
        (py_item result "sessionId")
  | inl e => error_msg request_id (exn_str e)
  end.

(** No character of [s] is a slash. *)
Fixpoint no_slash (s : string) : bool :=
  match s with
  | EmptyString => true
  | String c rest => negb (Ascii.eqb c "/"%char) && no_slash rest
  end.

(** Whenever [m] returns, what it returns satisfies [Q]. *)
Definition yields {X A} (Q : A -> Prop) (m : M X A) : Prop :=
  forall w a w', m w = (inr a, w') -> Q a.

(** The status codes of the relay. *)
Definition is_status (codes : list Z) (v : pyval) : Prop :=
  exists code, In code codes /\ v = status code.

(** [m] makes, in every world, no call that [observe] retains. *)
Definition never {T X A} (observe : list io -> list T) (m : M X A) : Prop :=
  forall w, exists evs,
    extends w (snd (m w)) evs /\ observe evs = [].

(** Environments and events for the paths above. *)
Module Cases.

(** As [Sample.env], but [lambda_client.invoke] is throttled. *)
Definition throttled_env : Env := {|
  ONBOARDING_AGENT_ARN := ONBOARDING_AGENT_ARN Sample.env;
  PROVISIONING_AGENT_ARN := PROVISIONING_AGENT_ARN Sample.env;
  slices_are_hashable := true;
  py_repr := Sample.repr;
  json_loads := Sample.loads;
  decode_utf8 := Sample.decode;
  boto3_client := fun _ _ => None;
  post_to_connection := fun _ _ _ _ => None;
  invoke_agent := invoke_agent Sample.env;
  lambda_invoke := fun _ _ _ =>
    Some (Exn "TooManyRequestsException" "Rate Exceeded.");
  py_repr_printable := Sample.repr_printable;
  json_loads_legible := Sample.loads_legible;
  boto3_client_legible := fun _ _ => I;
  post_to_connection_legible := fun _ _ _ _ => I;
  lambda_invoke_legible := fun _ _ _ => eq_refl
|}.


(** As [Sample.env], but the second payload of the stream is not UTF-8. *)
Definition garbled_env : Env := {|
  ONBOARDING_AGENT_ARN := ONBOARDING_AGENT_ARN Sample.env;
  PROVISIONING_AGENT_ARN := PROVISIONING_AGENT_ARN Sample.env;
  slices_are_hashable := true;
  py_repr := Sample.repr;
  json_loads := Sample.loads;
  decode_utf8 := Sample.decode;
  boto3_client := fun _ _ => None;
  post_to_connection := fun _ _ _ _ => None;
  invoke_agent := fun _ _ _ _ =>
    inr (Stream [Chunk (Some [x48; x69]); Chunk (Some [xff])] None);
  lambda_invoke := fun _ _ _ => None;
  py_repr_printable := Sample.repr_printable;
  json_loads_legible := Sample.loads_legible;
  boto3_client_legible := fun _ _ => I;
  post_to_connection_legible := fun _ _ _ _ => I;
  lambda_invoke_legible := fun _ _ _ => I
|}.

(** An event for a route the relay does not know. *)
Definition ping_event : pyval :=
  PDict [("requestContext", Sample.request_context "$ping")].

(** A [$default] event whose body is not JSON. *)
Definition garbage_event : pyval :=
  PDict [("requestContext", Sample.request_context "$default");
         ("body", PStr "hello")].

(** The text of a request that brings its own session id, and its fields. *)
Definition body_r4 : string :=
  "{" ++ Sample.quoted "id" ++ ": " ++ Sample.quoted "r4" ++ ", "
      ++ Sample.quoted "message" ++ ": " ++ Sample.quoted "hello" ++ ", "
      ++ Sample.quoted "sessionId" ++ ": " ++ Sample.quoted "mine" ++ "}".

Definition fields_r4 : list (string * pyval) :=
  [("id", PStr "r4"); ("message", PStr "hello"); ("sessionId", PStr "mine")].

Definition session_loads (s : string) : exn + pyval :=
  if String.eqb s body_r4 then inr (PDict fields_r4) else Sample.loads s.

Definition session_loads_legible (s : string)
  : legible (raised (session_loads s)).
Proof.
  unfold session_loads.
  destruct (String.eqb s body_r4); [exact I | apply Sample.loads_legible].
Defined.

(** As [Sample.env], with a [json.loads] that knows [body_r4]. *)
Definition session_env : Env := {|
  ONBOARDING_AGENT_ARN := ONBOARDING_AGENT_ARN Sample.env;
  PROVISIONING_AGENT_ARN := PROVISIONING_AGENT_ARN Sample.env;
  slices_are_hashable := true;
  py_repr := Sample.repr;
  json_loads := session_loads;
  decode_utf8 := Sample.decode;
  boto3_client := fun _ _ => None;
  post_to_connection := fun _ _ _ _ => None;
  invoke_agent := invoke_agent Sample.env;
  lambda_invoke := fun _ _ _ => None;
  py_repr_printable := Sample.repr_printable;
  json_loads_legible := session_loads_legible;
  boto3_client_legible := fun _ _ => I;
  post_to_connection_legible := fun _ _ _ _ => I;
  lambda_invoke_legible := fun _ _ _ => I
|}.

Definition session_event : pyval :=
  PDict [("requestContext", Sample.request_context "$default");
         ("body", PStr body_r4)].

(** A [$default] event with no body. *)
Definition empty_event : pyval :=
  PDict [("requestContext", Sample.request_context "$default")].

(** An event that says nothing about where it came from. *)
Definition bare_event : pyval := PDict [("body", PStr Sample.body_r1)].

(** The event scheduled for a request that has no message. *)
Definition async_event_no_message : pyval :=
  PDict [("async_processing",
          PDict [("agentType", PStr "onboarding");
                 ("message", PNone);
                 ("requestId", PStr "r3");
                 ("sessionId", PStr "session-r3");
                 ("connectionId", PStr "c-1");
                 ("event", Sample.default_event)])].

(** The [str] [json.loads] makes of the escape [\ud800]: one character, a
    lone surrogate. *)
Definition lone_surrogate : string :=
  String "237"%char (String "160"%char (String "128"%char "")).


(** An event with the marker and the six fields, whose agent type holds
    that character. *)
Definition async_event_odd_agent : pyval :=
  PDict [("async_processing",
          PDict [("agentType", PStr lone_surrogate);
                 ("message", PStr "hello");
                 ("requestId", PStr "r1");
                 ("sessionId", PStr "session-r1");
                 ("connectionId", PStr "c-1");
                 ("event", Sample.default_event)])].

(** The text of a request whose id is given by that escape, and its
    fields. *)
Definition body_r5 : string :=
  "{" ++ Sample.quoted "id" ++ ": " ++ Sample.quoted "\ud800" ++ ", "
      ++ Sample.quoted "message" ++ ": " ++ Sample.quoted "hi" ++ "}".

Definition fields_r5 : list (string * pyval) :=
  [("id", PStr lone_surrogate); ("message", PStr "hi")].

(** The text of a request whose session id is given by that escape. *)
Definition body_r6 : string :=
  "{" ++ Sample.quoted "id" ++ ": " ++ Sample.quoted "r6" ++ ", "
      ++ Sample.quoted "sessionId" ++ ": " ++ Sample.quoted "\ud800" ++ "}".

Definition fields_r6 : list (string * pyval) :=
  [("id", PStr "r6"); ("sessionId", PStr lone_surrogate)].

Definition escaped_loads (s : string) : exn + pyval :=
  if String.eqb s body_r5 then inr (PDict fields_r5)
  else if String.eqb s body_r6 then inr (PDict fields_r6)
  else Sample.loads s.

Definition escaped_loads_legible (s : string)
  : legible (raised (escaped_loads s)).
Proof.
  unfold escaped_loads.
  repeat (destruct (String.eqb s _); [exact I|]).
  apply Sample.loads_legible.
Defined.

(** As [Sample.env], with a [json.loads] that knows these two texts. *)
Definition escaped_env : Env := {|
  ONBOARDING_AGENT_ARN := ONBOARDING_AGENT_ARN Sample.env;
  PROVISIONING_AGENT_ARN := PROVISIONING_AGENT_ARN Sample.env;
  slices_are_hashable := false;
  py_repr := Sample.repr;
  json_loads := escaped_loads;
  decode_utf8 := Sample.decode;
  boto3_client := fun _ _ => None;
  post_to_connection := fun _ _ _ _ => None;
  invoke_agent := invoke_agent Sample.env;
  lambda_invoke := fun _ _ _ => None;
  py_repr_printable := Sample.repr_printable;
  json_loads_legible := escaped_loads_legible;
  boto3_client_legible := fun _ _ => I;
  post_to_connection_legible := fun _ _ _ _ => I;
  lambda_invoke_legible := fun _ _ _ => I
|}.

Definition odd_id_event : pyval :=
  PDict [("requestContext", Sample.request_context "$default");
         ("body", PStr body_r5)].

Definition odd_session_event : pyval :=
  PDict [("requestContext", Sample.request_context "$default");
         ("body", PStr body_r6)].

End Cases.

(** ** The CloudFormation tools of agents/provisioning_agent.py *)

(** The calls the tools make, each with whether it returned. *)
Inductive cfn_call : Type :=
| CfnClient (region : string) (ok : bool)
| DescribeStacks (stack_name : pyval) (ok : bool)
| UpdateStack (params : list (string * pyval)) (ok : bool)
| CreateStack (params : list (string * pyval)) (ok : bool).

(** The calls made so far, the latest first. *)
Definition cfn_log : Type := list cfn_call.

(** What the tools cannot decide: the region, [str] on the values of a
    response (a [datetime] among them) and the outcome of every call to
    CloudFormation, which may depend on the calls made before. *)
Record CfnEnv : Type := {
  AWS_REGION : string;
  str_of : pyval -> string;
  cloudformation_client : cfn_log -> option exn;
  describe_stacks : cfn_log -> pyval -> exn + pyval;
  update_stack : cfn_log -> list (string * pyval) -> exn + pyval;
  create_stack : cfn_log -> list (string * pyval) -> exn + pyval
}.

(** A tool's computation: it runs on the calls made so far and raises or
    returns. *)
Definition Cfn (A : Type) : Type := cfn_log -> (exn + A) * cfn_log.

Definition cfn_ret {A} (a : A) : Cfn A := fun l => (inr a, l).

Definition cfn_bind {A B} (m : Cfn A) (k : A -> Cfn B) : Cfn B :=
  fun l =>
    match m l with
    | (inr a, l') => k a l'
    | (inl e, l') => (inl e, l')
    end.

Definition cfn_try {A} (m : Cfn A) (h : exn -> Cfn A) : Cfn A :=
  fun l =>
    match m l with
    | (inr a, l') => (inr a, l')
    | (inl e, l') => h e l'
    end.

Definition cfn_lift {A} (r : exn + A) : Cfn A := fun l => (r, l).

Declare Scope cfn_scope.
Delimit Scope cfn_scope with cfn.
Notation "x <- m ;; k" := (cfn_bind m (fun x => k))
  (at level 61, m at next level, right associativity) : cfn_scope.
Notation "m ;; k" := (cfn_bind m (fun _ => k))
  (at level 61, right associativity) : cfn_scope.

(** [v[0]]. *)
Definition py_first (v : pyval) : exn + pyval :=
  match v with
  | PList (x :: _) => inr x
  | PList [] => inl (Exn "IndexError" "list index out of range")
  | PStr (String c rest) => inr (PStr (py_prefix 1 (String c rest)))
  | PStr EmptyString => inl (Exn "IndexError" "string index out of range")
  | PDict _ => inl (Exn "KeyError" "0")
  | _ => inl (Exn "TypeError"
                  ("'" ++ type_name v ++ "' object is not subscriptable"))
  end.

(** The characters of [s], each a [str] of its own: [current] holds the
    bytes of the character being read. *)
Fixpoint chars_after (current s : string) : list pyval :=
  match s with
  | EmptyString =>
      match current with
      | EmptyString => []
      | _ => [PStr current]
      end
  | String c rest =>
      if continues c then chars_after (current ++ String c "") rest
      else
        match current with
        | EmptyString => chars_after (String c "") rest
        | _ => PStr current :: chars_after (String c "") rest
        end
  end.

Definition chars (s : string) : list pyval := chars_after "" s.

(** What [for x in v] goes through. *)
Definition py_iter (v : pyval) : exn + list pyval :=
  match v with
  | PList l => inr l
  | PDict kvs => inr (map (fun kv => PStr (fst kv)) kvs)
  | PStr s => inr (chars s)
  | _ => inl (Exn "TypeError"
                  ("'" ++ type_name v ++ "' object is not iterable"))
  end.

(** The default of [deploy_cfn_stack] for [Capabilities]. *)
Definition default_capabilities : list pyval :=
  [PStr "CAPABILITY_IAM"; PStr "CAPABILITY_NAMED_IAM"].

(** [{"success": False, "error": str(e)}]. *)
Definition tool_failure (e : exn) : pyval :=
  PDict [("success", PBool false); ("error", PStr (exn_str e))].

Section CfnTools.

Variable C : CfnEnv.
Local Open Scope cfn_scope.

(** [boto3.client('cloudformation', region_name=AWS_REGION)]. *)
Definition new_cfn_client : Cfn unit :=
  fun l =>
    match cloudformation_client C l with
    | Some e => (inl e, CfnClient (AWS_REGION C) false :: l)
    | None => (inr tt, CfnClient (AWS_REGION C) true :: l)
    end.

(** [cfn.describe_stacks(StackName=stack_name)]. *)
Definition call_describe_stacks (stack_name : pyval) : Cfn pyval :=
  fun l =>
    match describe_stacks C l stack_name with
    | inl e => (inl e, DescribeStacks stack_name false :: l)
    | inr response => (inr response, DescribeStacks stack_name true :: l)
    end.

(** [cfn.update_stack] and [cfn.create_stack], each given [params] as its
    keyword arguments. *)
Definition call_update_stack (params : list (string * pyval)) : Cfn pyval :=
  fun l =>
    match update_stack C l params with
    | inl e => (inl e, UpdateStack params false :: l)
    | inr response => (inr response, UpdateStack params true :: l)
    end.

Definition call_create_stack (params : list (string * pyval)) : Cfn pyval :=
  fun l =>
    match create_stack C l params with
    | inl e => (inl e, CreateStack params false :: l)
    | inr response => (inr response, CreateStack params true :: l)
    end.

(** [deploy_cfn_stack(stack_name, template_body, capabilities=None)];
    [capabilities] is a list or [None], as declared. *)
Definition deploy_cfn_stack (stack_name template_body : pyval)
  (capabilities : option (list pyval)) : Cfn pyval :=
  cfn_try
    (new_cfn_client ;;
     stack_exists <- cfn_try (call_describe_stacks stack_name ;; cfn_ret true)
                       (fun _ => cfn_ret false) ;;
     let params := [("StackName", stack_name);
                    ("TemplateBody", template_body)] in
     let params :=
       match capabilities with
       | Some (c :: cs) =>
           (params ++ [("Capabilities", PList (c :: cs))])%list
       | _ => (params ++ [("Capabilities", PList default_capabilities)])%list
       end in
     result <- (if stack_exists : bool
                then response <- call_update_stack params ;;
                     cfn_ret (response, "updated")
                else response <- call_create_stack params ;;
                     cfn_ret (response, "created")) ;;
     stack_id <- cfn_lift (py_getitem (fst result) "StackId") ;;
     cfn_ret (PDict [("success", PBool true);
                     ("action", PStr (snd result));
                     ("stack_id", stack_id);
                     ("stack_name", stack_name)]))
    (fun e => cfn_ret (tool_failure e)).

(** One turn of the loop of [get_stack_status]. *)
Definition output_entry (output : pyval) : exn + pyval :=
  match py_getitem output "OutputKey" with
  | inl e => inl e
  | inr key =>
      match py_getitem output "OutputValue" with
      | inl e => inl e
      | inr value =>
          match py_get output "Description" (PStr "") with
          | inl e => inl e
          | inr description =>
              inr (PDict [("key", key); ("value", value);
                          ("description", description)])
          end
      end
  end.

(** The loop: [outputs] grows by one entry per output, in order. *)
Fixpoint collect_outputs (todo : list pyval) (outputs : list pyval)
  : exn + list pyval :=
  match todo with
  | [] => inr outputs
  | output :: rest =>
      match output_entry output with
      | inl e => inl e
      | inr entry => collect_outputs rest (outputs ++ [entry])%list
      end
  end.

(** [get_stack_status(stack_name)]. *)
Definition get_stack_status (stack_name : pyval) : Cfn pyval :=
  cfn_try
    (new_cfn_client ;;
     response <- call_describe_stacks stack_name ;;
     stacks <- cfn_lift (py_getitem response "Stacks") ;;
     stack <- cfn_lift (py_first stacks) ;;
     listed <- cfn_lift (py_get stack "Outputs" (PList [])) ;;
     todo <- cfn_lift (py_iter listed) ;;
     outputs <- cfn_lift (collect_outputs todo []) ;;
     status_value <- cfn_lift (py_getitem stack "StackStatus") ;;
     reason <- cfn_lift (py_get stack "StackStatusReason" (PStr "")) ;;
     created <- cfn_lift (py_getitem stack "CreationTime") ;;
     cfn_ret (PDict [("success", PBool true);
                     ("stack_name", stack_name);
                     ("status", status_value);
                     ("status_reason", reason);
                     ("outputs", PList outputs);
                     ("creation_time", PStr (str_of C created))]))
    (fun e => cfn_ret (tool_failure e)).

End CfnTools.

(** The mutations attempted: which call, and the [StackName] it was
    given. *)
Fixpoint mutations (calls : list cfn_call) : list (string * pyval) :=
  match calls with
  | [] => []
  | UpdateStack params _ :: rest =>
      ("update", dict_get "StackName" PNone params) :: mutations rest
  | CreateStack params _ :: rest =>
      ("create", dict_get "StackName" PNone params) :: mutations rest
  | _ :: rest => mutations rest
  end.

(** The mutations that returned: what each did, and to which stack. *)
Fixpoint changed (calls : list cfn_call) : list (string * pyval) :=
  match calls with
  | [] => []
  | UpdateStack params true :: rest =>
      ("updated", dict_get "StackName" PNone params) :: changed rest
  | CreateStack params true :: rest =>
      ("created", dict_get "StackName" PNone params) :: changed rest
  | _ :: rest => changed rest
  end.

(** The calls of a run from [l] to [l'], in the order they were made. *)
Definition calls_since (l l' : cfn_log) : list cfn_call :=
  rev (firstn (length l' - length l) l').

(** The [Capabilities] [deploy_cfn_stack] sends for its argument. *)
Definition effective_capabilities (capabilities : option (list pyval))
  : list pyval :=
  match capabilities with
  | Some (c :: cs) => c :: cs
  | _ => default_capabilities
  end.

(** The [Capabilities] a stack was changed or made with. *)
Fixpoint capabilities_sent (calls : list cfn_call) : list pyval :=
  match calls with
  | [] => []
  | UpdateStack params _ :: rest =>
      dict_get "Capabilities" PNone params :: capabilities_sent rest
  | CreateStack params _ :: rest =>
      dict_get "Capabilities" PNone params :: capabilities_sent rest
  | _ :: rest => capabilities_sent rest
  end.

(** A stack as [describe_stacks] gives it, good enough for
    [get_stack_status]: an object with a status and a creation time, whose
    outputs, if any, are objects with a key and a value. *)
Definition output_ok (output : pyval) : bool :=
  match output with
  | PDict fields => has_key "OutputKey" fields && has_key "OutputValue" fields
  | _ => false
  end.

(** The entry [get_stack_status] makes of an output. *)
Definition entry_of (output : pyval) : pyval :=
  PDict [("key", py_item output "OutputKey");
         ("value", py_item output "OutputValue");
         ("description",
          match output with
          | PDict fields => dict_get "Description" (PStr "") fields
          | _ => PNone
          end)].

(** What [deploy_cfn_stack] reports for the mutation it attempted: the
    error of the call, or of reading [StackId] from its response, or the
    success with that id. *)
Definition deploy_report (stack_name : pyval) (action : string)
  (attempt : exn + pyval) : pyval :=
  match attempt with
  | inl e => tool_failure e
  | inr response =>
      match py_getitem response "StackId" with
      | inl e => tool_failure e
      | inr stack_id =>
          PDict [("success", PBool true);
                 ("action", PStr action);
                 ("stack_id", stack_id);
                 ("stack_name", stack_name)]
      end
  end.

(** What that mutation did to the stack. *)
Definition deploy_effect (stack_name : pyval) (action : string)
  (attempt : exn + pyval) : list (string * pyval) :=
  match attempt with
  | inl _ => []
  | inr _ => [(action, stack_name)]
  end.

(** The keyword arguments of the mutation. *)
Definition deploy_params (stack_name template_body : pyval)
  (capabilities : option (list pyval)) : list (string * pyval) :=
  [("StackName", stack_name);
   ("TemplateBody", template_body);
   ("Capabilities", PList (effective_capabilities capabilities))].

(** A CloudFormation that knows one stack, [web], and refuses to update
    it. *)
Module Stacks.

Definition web_stack : pyval :=
  PDict [("StackName", PStr "web");
         ("StackStatus", PStr "CREATE_COMPLETE");
         ("CreationTime", PStr "2024-05-01 10:00:00+00:00");
         ("Outputs",
          PList [PDict [("OutputKey", PStr "Url");
                        ("OutputValue", PStr "https://web.example.com");
                        ("Description", PStr "Site")];
                 PDict [("OutputKey", PStr "Bucket");
                        ("OutputValue", PStr "web-assets")]])].

Definition is_web (stack_name : pyval) : bool := py_eq_str stack_name "web".

Definition env : CfnEnv := {|
  AWS_REGION := "us-east-1";
  str_of := fun v => match v with PStr s => s | _ => "?" end;
  cloudformation_client := fun _ => None;
  describe_stacks := fun _ stack_name =>
    if is_web stack_name then inr (PDict [("Stacks", PList [web_stack])])
    else inl (Exn "ClientError" "Stack does not exist");
  update_stack := fun _ _ =>
    inl (Exn "ClientError" "No updates are to be performed.");
  create_stack := fun _ params =>
    inr (PDict [("StackId", PStr "arn:aws:cloudformation:stack/new/1")])
|}.

(** A CloudFormation whose [describe_stacks] is denied although the stack
    is there. *)
Definition denied_env : CfnEnv := {|
  AWS_REGION := "us-east-1";
  str_of := str_of env;
  cloudformation_client := fun _ => None;
  describe_stacks := fun _ _ => inl (Exn "ClientError" "AccessDenied");
  update_stack := update_stack env;
  create_stack := fun _ _ =>
    inl (Exn "ClientError" "Stack [web] already exists")
|}.

(** A CloudFormation that answers with no stack at all. *)
Definition empty_env : CfnEnv := {|
  AWS_REGION := "us-east-1";
  str_of := str_of env;
  cloudformation_client := fun _ => None;
  describe_stacks := fun _ _ => inr (PDict [("Stacks", PList [])]);
  update_stack := update_stack env;
  create_stack := create_stack env
|}.

End Stacks.

(** ** The hand-over tool of agents/provisioning_agent.py *)

(** A part of an A2A message: its [text], when it has the attribute. *)
Definition a2a_part : Type := option string.

(** What [client.send_message] yields: a [Message] with its parts, or
    something else (a task, an update). *)
Inductive a2a_event : Type :=
| A2AMessage (parts : list a2a_part)
| A2AOther.

(** The events the iteration would deliver, and the exception that ends
    it, if one does. *)
Record a2a_stream : Type :=
  A2AStream { a2a_events : list a2a_event; a2a_error : option exn }.

Inductive a2a_call : Type :=
| Logged (level line : string)
| GetAgentCard (base_url : string) (ok : bool)
| CreateClient (ok : bool)
| SendA2A (text message_id : string).

Definition a2a_log : Type := list a2a_call.

(** The environment variable, and what the A2A library and the other agent
    do: resolving the card, making the client, drawing a message id,
    answering. *)
Record A2AEnv : Type := {
  ONBOARDING_AGENT_URL : option string;
  get_agent_card : a2a_log -> string -> option exn;
  create_client : a2a_log -> option exn;
  uuid4_hex : a2a_log -> string;
  a2a_send_message : a2a_log -> string -> string -> a2a_stream
}.

Definition newline : string := String "010"%char "".

(** The f-string of lines 184-193. *)
Definition design_request (requirements : string) : string :=
  "Design an AWS architecture and generate a CloudFormation template for:"
  ++ newline ++ newline ++ requirements ++ newline ++ newline
  ++ "Please provide:" ++ newline
  ++ "1. Architecture overview with reasoning" ++ newline
  ++ "2. CloudFormation template in YAML format" ++ newline
  ++ "3. Validation confirmation" ++ newline ++ newline
  ++ "I'll handle the deployment once you provide the template.".

(** The inner loop: [response_text] grows by the text of every part that
    has one. *)
Fixpoint collect_text (parts : list a2a_part) (response_text : string)
  : string :=
  match parts with
  | [] => response_text
  | Some text :: rest => collect_text rest (response_text ++ text)
  | None :: rest => collect_text rest response_text
  end.

(** The outer loop: the parts of the first [Message] it meets, if any. *)
Fixpoint first_message (events : list a2a_event) : option (list a2a_part) :=
  match events with
  | [] => None
  | A2AMessage parts :: _ => Some parts
  | A2AOther :: rest => first_message rest
  end.

(** The [except] clause: the error is logged and returned. *)
Definition design_failed (e : exn) (l : a2a_log) : pyval * a2a_log :=
  (tool_failure e,
   Logged "ERROR" ("❌ Error calling Onboarding Agent: " ++ exn_str e) :: l).

(** [request_design_from_onboarding_agent(requirements)].  The calls kept
    are those that reach the other agent or the log: constructors that only
    keep their arguments, and the opening and closing of the HTTP client
    around the body, are not recorded.  Every place the [try] can be left
    through the [except] clause is a [design_failed]. *)
Definition request_design_from_onboarding_agent (A : A2AEnv)
  (requirements : string) (l : a2a_log) : pyval * a2a_log :=
  match ONBOARDING_AGENT_URL A with
  | None | Some EmptyString =>
      (PDict [("success", PBool false);
              ("error",
               PStr "Onboarding Agent not configured. Deploy Onboarding Agent first.")],
       l)
  | Some url =>
      let l0 :=
        Logged "INFO" "🤝 Calling Onboarding Agent via A2A for design" :: l in
      match get_agent_card A l0 url with
      | Some e => design_failed e (GetAgentCard url false :: l0)
      | None =>
          let l1 := GetAgentCard url true :: l0 in
          match create_client A l1 with
          | Some e => design_failed e (CreateClient false :: l1)
          | None =>
              let l2 := CreateClient true :: l1 in
              let message_text := design_request requirements in
              let message_id := uuid4_hex A l2 in
              let l3 := SendA2A message_text message_id :: l2 in
              let answer := a2a_send_message A l3 message_text message_id in
              match first_message (a2a_events answer) with
              | Some parts =>
                  (PDict [("success", PBool true);
                          ("design_response",
                           PStr (collect_text parts ""))],
                   Logged "INFO" "✅ Received design from Onboarding Agent"
                   :: l3)
              | None =>
                  match a2a_error answer with
                  | Some e => design_failed e l3
                  | None =>
                      (PDict [("success", PBool false);
                              ("error",
                               PStr "No response from Onboarding Agent")],
                       l3)
                  end
              end
          end
      end
  end.

(** The calls made when the request is about to go out: the line logged,
    the card fetched, the client made. *)
Definition ready_to_send (url : string) (l : a2a_log) : a2a_log :=
  CreateClient true
  :: GetAgentCard url true
  :: Logged "INFO" "🤝 Calling Onboarding Agent via A2A for design" :: l.

(** What the other agent answers to the request for [requirements], sent
    when the calls made are [l2]. *)
Definition design_answer (A : A2AEnv) (requirements : string) (l2 : a2a_log)
  : a2a_stream :=
  a2a_send_message A
    (SendA2A (design_request requirements) (uuid4_hex A l2) :: l2)
    (design_request requirements) (uuid4_hex A l2).

(** The variable is set, and not to the empty string. *)
Definition configured (A : A2AEnv) (url : string) : Prop :=
  ONBOARDING_AGENT_URL A = Some url /\ url <> ""%string.

(** The calls of a run of the tool, in the order they were made. *)
Definition a2a_since (l l' : a2a_log) : list a2a_call :=
  rev (firstn (length l' - length l) l').

(** The requests that went out to the other agent. *)
Fixpoint a2a_sent (calls : list a2a_call) : list string :=
  match calls with
  | [] => []
  | SendA2A text _ :: rest => text :: a2a_sent rest
  | _ :: rest => a2a_sent rest
  end.

(** The texts of the parts that have one. *)
Fixpoint texts_of (parts : list a2a_part) : list string :=
  match parts with
  | [] => []
  | Some text :: rest => text :: texts_of rest
  | None :: rest => texts_of rest
  end.

Definition is_other (event : a2a_event) : bool :=
  match event with
  | A2AOther => true
  | A2AMessage _ => false
  end.

(** An onboarding agent that works on the task and then answers in two
    text parts around a file. *)
Module Peer.

Definition answer : a2a_stream :=
  A2AStream [A2AOther; A2AOther;
             A2AMessage [Some "Here is "; None; Some "the design."];
             A2AMessage [Some "Anything else?"]]
            (Some (Exn "ReadTimeout" "timed out")).

Definition env : A2AEnv := {|
  ONBOARDING_AGENT_URL := Some "http://onboarding:9000/";
  get_agent_card := fun _ _ => None;
  create_client := fun _ => None;
  uuid4_hex := fun _ => "0f8fad5bd9cb469fa16570867728950e";
  a2a_send_message := fun _ _ _ => answer
|}.

(** The same agent with the variable set to the empty string. *)
Definition unset_env : A2AEnv := {|
  ONBOARDING_AGENT_URL := Some "";
  get_agent_card := get_agent_card env;
  create_client := create_client env;
  uuid4_hex := uuid4_hex env;
  a2a_send_message := a2a_send_message env
|}.

(** An agent whose card cannot be fetched. *)
Definition unreachable_env : A2AEnv := {|
  ONBOARDING_AGENT_URL := Some "http://onboarding:9000/";
  get_agent_card := fun _ _ => Some (Exn "ConnectError" "connection refused");
  create_client := create_client env;
  uuid4_hex := uuid4_hex env;
  a2a_send_message := a2a_send_message env
|}.

End Peer.

(** ** Runs and their events *)

Local Open Scope list_scope.

Lemma firstn_prefix {A : Type} (l r : list A) :
  firstn (length (l ++ r) - length r) (l ++ r) = l.
Proof.
  rewrite List.length_app, Nat.add_sub.
  induction l as [|x l IH]; simpl.
  - destruct r; reflexivity.
  - rewrite IH. reflexivity.
Qed.

Lemma events_since_extends (w w' : world) (evs : list io) :
  extends w w' evs -> events_since w w' = evs.
Proof.
  unfold extends, events_since. intros ->.
  rewrite firstn_prefix. apply List.rev_involutive.
Qed.

Lemma events_since_same (w : world) : events_since w w = [].
Proof. unfold events_since. now rewrite Nat.sub_diag. Qed.

Lemma extends_refl (w : world) : extends w w [].
Proof. reflexivity. Qed.

Lemma extends_trans (w w1 w2 : world) (a b : list io) :
  extends w w1 a -> extends w1 w2 b -> extends w w2 (a ++ b).
Proof.
  unfold extends. intros H1 H2. rewrite H2, H1, List.rev_app_distr.
  apply List.app_assoc.
Qed.

Lemma extends_emit (w w1 : world) (a : list io) (e : io) :
  extends w w1 a -> extends w (emit e w1) (a ++ [e]).
Proof.
  unfold extends. intros H. cbn. rewrite H, List.rev_app_distr. reflexivity.
Qed.

Lemma extends_same_log (w w1 w2 : world) (a : list io) :
  log w2 = log w1 -> extends w w1 a -> extends w w2 a.
Proof. unfold extends. intros ->. trivial. Qed.

Lemma extends_from_same_log (w0 w w1 : world) (a : list io) :
  log w0 = log w -> extends w w1 a -> extends w0 w1 a.
Proof. unfold extends. intros ->. trivial. Qed.

Lemma sends_app (a b : list io) : sends (a ++ b) = sends a ++ sends b.
Proof.
  induction a as [|e a IH]; [reflexivity|].
  destruct e; simpl; rewrite IH; reflexivity.
Qed.

Lemma scheduled_app (a b : list io) :
  scheduled (a ++ b) = scheduled a ++ scheduled b.
Proof.
  induction a as [|e a IH]; [reflexivity|].
  destruct e as [| | | | | |fn p []]; simpl; rewrite IH; reflexivity.
Qed.

Lemma agent_calls_app (a b : list io) :
  agent_calls (a ++ b) = agent_calls a ++ agent_calls b.
Proof.
  induction a as [|e a IH]; [reflexivity|].
  destruct e; simpl; rewrite IH; reflexivity.
Qed.

Lemma posts_app (a b : list io) : posts (a ++ b) = posts a ++ posts b.
Proof.
  induction a as [|e a IH]; [reflexivity|].
  destruct e; simpl; rewrite IH; reflexivity.
Qed.

Lemma delivered_app (a b : list io) :
  delivered (a ++ b) = delivered a ++ delivered b.
Proof.
  induction a as [|e a IH]; [reflexivity|].
  destruct e as [| | | |c i m []| |]; simpl; rewrite IH; reflexivity.
Qed.

Lemma invoke_calls_app (a b : list io) :
  invoke_calls (a ++ b) = invoke_calls a ++ invoke_calls b.
Proof.
  induction a as [|e a IH]; [reflexivity|].
  destruct e; simpl; rewrite IH; reflexivity.
Qed.

Lemma constructions_app (a b : list io) :
  constructions (a ++ b) = constructions a ++ constructions b.
Proof.
  induction a as [|e a IH]; [reflexivity|].
  destruct e as [| | |ep []| | |]; simpl; rewrite IH; reflexivity.
Qed.

Lemma prints_app (a b : list io) : prints (a ++ b) = prints a ++ prints b.
Proof.
  induction a as [|e a IH]; [reflexivity|].
  destruct e; simpl; rewrite IH; reflexivity.
Qed.

Create Rewrite HintDb observe.
#[local] Hint Rewrite sends_app scheduled_app agent_calls_app posts_app
  constructions_app prints_app delivered_app invoke_calls_app : observe.

(** Builds the events of a run whose end world is written from its start
    world by [emit]s and by runs already described in the context. *)
Ltac chain :=
  match goal with
  | |- extends ?w ?w _ => apply extends_refl
  | |- extends ?w (emit _ _) _ => apply extends_emit; chain
  | H : extends ?w1 ?w2 _ |- extends ?w ?w2 _ =>
      eapply extends_trans; [|exact H]; chain
  | |- extends ?w (World _ (log ?w1)) _ =>
      apply (@extends_same_log w w1); [reflexivity | chain]
  | |- extends ?w (in_process _ ?w1) _ =>
      apply (@extends_same_log w w1); [reflexivity | chain]
  end.

Lemma apigw_emit (e : io) (w : world) : apigw (emit e w) = apigw w.
Proof. reflexivity. Qed.

Arguments emit : simpl never.

Ltac observe :=
  autorewrite with observe; cbn [sends scheduled agent_calls posts
                                 constructions prints delivered invoke_calls app].

(** ** What [print] can write *)

Lemma append_assoc (a b c : string) : ((a ++ b) ++ c = a ++ (b ++ c))%string.
Proof. induction a as [|ch a IH]; simpl; [reflexivity | now rewrite IH]. Qed.

Lemma append_empty_r (a : string) : (a ++ "" = a)%string.
Proof. induction a as [|ch a IH]; simpl; [reflexivity | now rewrite IH]. Qed.

Lemma plain_is_no_lead (c : ascii) :
  is_plain c = true -> Ascii.eqb c surrogate_lead = false.
Proof.
  destruct c as [b0 b1 b2 b3 b4 b5 b6 b7]. cbn.
  destruct b7; [discriminate|]. intros _.
  destruct b0, b1, b2, b3, b4, b5, b6; reflexivity.
Qed.

Lemma plain_is_no_second (c : ascii) :
  is_plain c = true -> surrogate_second c = false.
Proof.
  destruct c as [b0 b1 b2 b3 b4 b5 b6 b7]. cbn.
  destruct b7; [discriminate|reflexivity].
Qed.

Lemma plain_app (a b : string) : plain (a ++ b)%string = plain a && plain b.
Proof.
  induction a as [|c a IH]; cbn; [reflexivity|].
  rewrite IH. apply andb_assoc.
Qed.

(** ASCII text before a [str] decides nothing. *)
Lemma has_surrogate_plain_app (a s : string) :
  plain a = true -> has_surrogate (a ++ s)%string = has_surrogate s.
Proof.
  induction a as [|c a IH]; cbn [append plain has_surrogate]; intros H;
    [reflexivity|].
  apply andb_prop in H. destruct H as [Hc Ha].
  rewrite (plain_is_no_lead c Hc). cbn. apply IH, Ha.
Qed.

Lemma printable_plain_app (a s : string) :
  plain a = true -> printable (a ++ s)%string = printable s.
Proof. intros H. unfold printable. now rewrite has_surrogate_plain_app. Qed.

Lemma printable_plain_cons (c : ascii) (s : string) :
  is_plain c = true -> printable (String c s) = printable s.
Proof.
  intros H. unfold printable. cbn [has_surrogate].
  now rewrite (plain_is_no_lead c H).
Qed.

Lemma plain_printable (s : string) : plain s = true -> printable s = true.
Proof.
  intros H. rewrite <- (append_empty_r s).
  now rewrite printable_plain_app.
Qed.

Lemma starts_second_app (a b : string) :
  starts_second b = false -> starts_second (a ++ b)%string = starts_second a.
Proof. destruct a; cbn; auto. Qed.

(** Text that begins a character of its own adds no surrogate to what
    comes before it. *)
Lemma has_surrogate_app (a b : string) :
  starts_second b = false ->
  has_surrogate (a ++ b)%string = has_surrogate a || has_surrogate b.
Proof.
  intros Hb. induction a as [|c a IH]; cbn [append has_surrogate];
    [reflexivity|].
  rewrite (starts_second_app a b Hb), IH. apply orb_assoc.
Qed.

Lemma printable_app (a b : string) :
  starts_second b = false ->
  printable (a ++ b)%string = printable a && printable b.
Proof.
  intros Hb. unfold printable. rewrite (has_surrogate_app a b Hb).
  apply negb_orb.
Qed.

Lemma plain_string_of_uint (d : Decimal.uint) :
  plain (NilEmpty.string_of_uint d) = true.
Proof. induction d; cbn; auto. Qed.

Lemma plain_str_of_nat (n : nat) : plain (str_of_nat n) = true.
Proof.
  unfold str_of_nat, NilZero.string_of_uint.
  destruct (Nat.to_uint n) eqn:H; try reflexivity;
    rewrite <- H; apply plain_string_of_uint.
Qed.

Lemma plain_hex_digit (b3 b2 b1 b0 : bool) :
  is_plain (hex_digit b3 b2 b1 b0) = true.
Proof. destruct b3, b2, b1, b0; reflexivity. Qed.

Lemma plain_surrogate_hex (s : string) : plain (surrogate_hex s) = true.
Proof.
  destruct s as [|c [|[d0 d1 d2 d3 d4 d5 d6 d7] [|[e0 e1 e2 e3 e4 e5 e6 e7] s]]];
    cbn; rewrite ?plain_hex_digit; reflexivity.
Qed.

Lemma plain_surrogates_not_allowed (line : string) :
  plain (surrogates_not_allowed line) = true.
Proof.
  unfold surrogates_not_allowed.
  destruct (surrogate_run (from_surrogate line)) as [|[|more]];
    repeat rewrite plain_app;
    rewrite ?plain_str_of_nat, ?plain_surrogate_hex; reflexivity.
Qed.

(** [print] can write the text of the exception it raises. *)
Lemma encode_error_legible (line : string) : legible (encode_error line).
Proof.
  unfold encode_error. destruct (printable line); [exact I|].
  apply plain_printable, plain_surrogates_not_allowed.
Qed.

Lemma encode_error_printable (line : string) :
  printable line = true -> encode_error line = None.
Proof. unfold encode_error. now intros ->. Qed.

Lemma encode_error_none (line : string) :
  encode_error line = None -> printable line = true.
Proof. unfold encode_error. destruct (printable line); [auto|discriminate]. Qed.

Lemma encode_error_some (line : string) (e : exn) :
  encode_error line = Some e -> printable line = false.
Proof. unfold encode_error. destruct (printable line); [discriminate|auto]. Qed.

Lemma encode_error_unprintable (line : string) :
  printable line = false -> exists e, encode_error line = Some e.
Proof. unfold encode_error. intros ->. eauto. Qed.

Lemma print_ok (line : string) (w : world) :
  printable line = true -> print line w = (inr tt, emit (Print line) w).
Proof. intros H. unfold print. now rewrite (encode_error_printable line H). Qed.

Lemma print_raises (line : string) (e : exn) (w : world) :
  encode_error line = Some e -> print line w = (inl e, w).
Proof. intros H. unfold print. now rewrite H. Qed.

Arguments printable : simpl never.
Arguments encode_error : simpl never.
Arguments print : simpl never.

(** The exceptions of the operations on values have texts of ASCII, apart
    from the key in a [KeyError]. *)
Lemma py_getitem_legible (v : pyval) (key : string) :
  plain key = true -> legible (raised (py_getitem v key)).
Proof.
  intros Hkey. destruct v as [| | | | | |kvs]; cbn; try reflexivity.
  destruct (assoc key kvs); cbn; [exact I|].
  apply plain_printable. cbn. rewrite plain_app, Hkey. reflexivity.
Qed.


Lemma py_json_loads_legible (E : Env) (v : pyval) :
  legible (raised (py_json_loads E v)).
Proof.
  destruct v; cbn; first [reflexivity | apply json_loads_legible].
Qed.

Lemma py_slice100_legible (E : Env) (v : pyval) :
  legible (raised (py_slice100 E v)).
Proof.
  destruct v; cbn; try first [reflexivity | exact I].
  destruct (slices_are_hashable E); reflexivity.
Qed.

(** Line 140 prints exactly when the agent type and the request id do. *)
Lemma request_line_printable (E : Env) (kvs : list (string * pyval)) :
  printable (request_line E kvs)
  = printable (py_str E (dict_get "agentType" (PStr "onboarding") kvs))
    && printable (py_str E (dict_get "id" PNone kvs)).
Proof.
  unfold request_line.
  rewrite printable_plain_app by reflexivity.
  rewrite printable_app by reflexivity.
  rewrite printable_plain_app by reflexivity. reflexivity.
Qed.

(** Discharges [printable line = true] for a line made of ASCII text and of
    texts known to be printable. *)
Ltac legibly :=
  first
    [ assumption
    | repeat (rewrite printable_plain_app by reflexivity);
      repeat (rewrite printable_plain_cons by reflexivity);
      first
        [ assumption
        | reflexivity
        | apply plain_printable; rewrite ?plain_app, ?plain_str_of_nat;
          reflexivity ] ].

(** Runs the [print] the goal has reached, when its line can be written,
    and when it raises [H]. *)
Ltac printed :=
  match goal with
  | |- context [print ?line ?w0] =>
      rewrite (print_ok line w0) by legibly; cbn
  end.

Ltac unprinted H :=
  match goal with
  | |- context [print ?line ?w0] =>
      rewrite (print_raises line _ w0 H); cbn
  end.

(** Case analysis on the next call that leaves the process; for the calls
    whose errors the handler prints, with what is known of the text. *)
Ltac outside :=
  match goal with
  | |- context [post_to_connection ?E ?w ?c ?i ?m] =>
      let L := fresh "Hlegible" in
      pose proof (post_to_connection_legible E w c i m) as L;
      destruct (post_to_connection E w c i m); cbn in L |- *
  | |- context [boto3_client ?E ?w ?u] =>
      let L := fresh "Hlegible" in
      pose proof (boto3_client_legible E w u) as L;
      destruct (boto3_client E w u); cbn in L |- *
  | |- context [lambda_invoke ?E ?w ?f ?p] =>
      let L := fresh "Hlegible" in
      pose proof (lambda_invoke_legible E w f p) as L;
      destruct (lambda_invoke E w f p); cbn in L |- *
  | |- context [invoke_agent ?E ?w ?a ?s ?m] =>
      destruct (invoke_agent E w a s m); cbn
  end.

(** Case analysis on the next item read for a client. *)
Ltac reading :=
  match goal with
  | |- context [py_getitem ?v ?key] =>
      let L := fresh "Hlegible" in
      pose proof (py_getitem_legible v key eq_refl) as L;
      destruct (py_getitem v key); cbn in L |- *
  end.

(** Closes a goal [exists r w' evs, m w = (r, w') /\ extends w w' evs /\ ...]
    once [m w] is evaluated. *)
Ltac describe_run :=
  do 3 eexists; (split; [reflexivity|]); (split; [chain|]); observe;
  eauto 10.

(** ** The notifier *)

Section Notifier.

Variable E : Env.

(** [send_message] returns a boolean in every world.  Its calls are the
    entry itself and calls that neither notify, nor schedule, nor invoke an
    agent; it returns [True] exactly when the delivery went through, and
    prints the exception otherwise. *)
Lemma send_message_runs (connection_id message event : pyval) (w : world) :
  exists b w' evs,
    send_message E connection_id message event w = (inr b, w')
    /\ extends w w' evs
    /\ sends evs = [(connection_id, message)]
    /\ scheduled evs = [] /\ agent_calls evs = []
    /\ invoke_calls evs = []
    /\ if b then
         delivered evs = [(connection_id, message)] /\ prints evs = []
       else
         delivered evs = []
         /\ exists e,
              prints evs = [("Error sending message: " ++ exn_str e)%string].
Proof.
  unfold send_message, get_apigw_client, new_client, post, tell,
    try_except, bind, ret, lift, raise.
  cbn. rewrite apigw_emit.
  destruct (apigw w) as [c|]; cbn.
  - outside; [printed|]; describe_run.
  - reading; [printed; describe_run|].
    reading; [printed; describe_run|].
    reading; [printed; describe_run|].
    outside; [printed; describe_run|].
    outside; [printed|]; describe_run.
Qed.

(** With a client in the cache, a call of [send_message] is one call of
    [post_to_connection], through that client, for the same connection and
    message, whatever the event says. *)
Lemma send_message_posts_once (c : client)
  (connection_id message event : pyval) (w : world) :
  apigw w = Some c ->
  posts (events_since w
           (snd (send_message E connection_id message event w)))
  = [(c, connection_id, message)].
Proof.
  intros Hcached.
  unfold send_message, get_apigw_client, post, tell, try_except,
    bind, ret.
  cbn. rewrite apigw_emit, Hcached. cbn.
  outside; [printed|]; (erewrite events_since_extends by chain); reflexivity.
Qed.

End Notifier.

(** ** Computations that never raise *)







(** ** What a computation can raise *)


Lemma raises_only_raise {X A} (P : X -> Prop) (x : X) :
  P x -> raises_only P (@raise X A x).
Proof. intros H w y w' [= <- _]. exact H. Qed.





Lemma raises_only_try_except {X Y A} (P : Y -> Prop) (m : M X A)
  (h : X -> M Y A) :
  (forall x, raises_only P (h x)) -> raises_only P (try_except m h).
Proof.
  intros Hh w y w'. unfold try_except.
  destruct (m w) as [[x|a] w1]; [apply Hh | discriminate].
Qed.




(** ** The agent invocation client *)

Section AgentClient.

Variable E : Env.

(** The loop returns exactly when every payload decodes, and then it has
    appended the decoded payloads in order. *)
Lemma collect_decodes (frags : list fragment) (acc text : string) :
  collect E frags acc = inr text <->
  exists texts,
    map (decode_utf8 E) (payloads frags) = map inr texts
    /\ text = (acc ++ concat_texts texts)%string.
Proof.
  revert acc. induction frags as [|[|[bytes|]] rest IH]; intros acc; simpl.
  - split.
    + intros [= <-]. exists []. now rewrite append_empty_r.
    + intros ([|t ts] & Hmap & ->); [|discriminate].
      simpl. now rewrite append_empty_r.
  - apply IH.
  - destruct (decode_utf8 E bytes) as [e|t] eqn:Hdec.
    + split; [discriminate|].
      intros ([|t ts] & Hmap & _); discriminate.
    + rewrite IH. split.
      * intros (ts & Hmap & ->). exists (t :: ts). simpl.
        rewrite Hmap, append_assoc. auto.
      * intros ([|t' ts] & Hmap & ->); [discriminate|].
        injection Hmap as <- Hmap. exists ts.
        simpl. now rewrite append_assoc.
  - apply IH.
Qed.

Lemma announce_legible (agent_arn : string) (message session_id : pyval) :
  legible (raised (announce E agent_arn message session_id)).
Proof.
  unfold announce.
  pose proof (encode_error_legible ("Calling agent: " ++ agent_arn)) as H1.
  destruct (encode_error ("Calling agent: " ++ agent_arn)); [exact H1|].
  pose proof (encode_error_legible ("Session: " ++ py_str E session_id))
    as H2.
  destruct (encode_error ("Session: " ++ py_str E session_id)); [exact H2|].
  pose proof (py_slice100_legible E message) as H3.
  destruct (py_slice100 E message) as [e|head]; [exact H3|].
  pose proof (encode_error_legible ("Message: " ++ py_str E head)) as H4.
  destruct (encode_error ("Message: " ++ py_str E head)); [exact H4|exact I].
Qed.

(** Announcing needs the slice. *)
Lemma announce_slices (agent_arn : string) (message session_id head : pyval) :
  announce E agent_arn message session_id = inr head ->
  py_slice100 E message = inr head.
Proof.
  unfold announce.
  destruct (encode_error ("Calling agent: " ++ agent_arn)); [discriminate|].
  destruct (encode_error ("Session: " ++ py_str E session_id));
    [discriminate|].
  destruct (py_slice100 E message) as [e|h]; [discriminate|].
  destruct (encode_error ("Message: " ++ py_str E h)); [discriminate|].
  intros [= ->]. reflexivity.
Qed.

(** When the slice raises and the two lines before it print, the slice is
    what announcing raises. *)
Lemma announce_slice_raises (agent_arn : string) (message session_id : pyval)
  (e : exn) :
  py_slice100 E message = inl e ->
  exists raised,
    announce E agent_arn message session_id = inl raised
    /\ (printable agent_arn = true ->
        printable (py_str E session_id) = true -> raised = e).
Proof.
  intros Hslice. unfold announce. rewrite Hslice.
  destruct (encode_error ("Calling agent: " ++ agent_arn)) as [e1|] eqn:H1.
  { exists e1. split; [reflexivity|]. intros Harn _.
    apply encode_error_some in H1.
    rewrite printable_plain_app in H1 by reflexivity. congruence. }
  destruct (encode_error ("Session: " ++ py_str E session_id)) as [e2|] eqn:H2.
  { exists e2. split; [reflexivity|]. intros _ Hsession.
    apply encode_error_some in H2.
    rewrite printable_plain_app in H2 by reflexivity. congruence. }
  exists e. auto.
Qed.

(** When one of the three opening lines does not print, or the slice
    raises, [call_a2a_agent] raises that and has called nothing. *)
Lemma call_a2a_agent_stops (agent_arn : string) (message session_id : pyval)
  (w : world) (e : exn) :
  announce E agent_arn message session_id = inl e ->
  exists w' evs,
    call_a2a_agent E agent_arn message session_id w = (inl e, w')
    /\ extends w w' evs
    /\ apigw w' = apigw w
    /\ sends evs = [] /\ scheduled evs = []
    /\ posts evs = [] /\ constructions evs = []
    /\ agent_calls evs = [] /\ invoke_calls evs = [].
Proof.
  unfold announce, call_a2a_agent, print, bind, lift.
  destruct (encode_error ("Calling agent: " ++ agent_arn)).
  { intros [= <-]. do 2 eexists. split; [reflexivity|]. split; [chain|].
    observe. auto 10. }
  destruct (encode_error ("Session: " ++ py_str E session_id)).
  { intros [= <-]. do 2 eexists. split; [reflexivity|]. split; [chain|].
    observe. auto 10. }
  destruct (py_slice100 E message) as [e0|head].
  { intros [= <-]. do 2 eexists. split; [reflexivity|]. split; [chain|].
    observe. auto 10. }
  destruct (encode_error ("Message: " ++ py_str E head)); [|discriminate].
  intros [= <-]. do 2 eexists. split; [reflexivity|]. split; [chain|].
  observe. auto 10.
Qed.

(** Past the three lines, the three ways the [try] can go. *)
Lemma call_a2a_agent_cases (agent_arn : string)
  (message session_id head : pyval) (w : world) :
  announce E agent_arn message session_id = inr head ->
  let w0 := at_invoke E agent_arn session_id head w in
  let agent_id := last_segment agent_arn in
  match invoke_agent E w0 agent_id session_id message with
  | inl e =>
      call_a2a_agent E agent_arn message session_id w
      = reraised e (emit (InvokeAgent agent_id session_id message false) w0)
  | inr stream =>
      match read_completion E stream with
      | inl e =>
          call_a2a_agent E agent_arn message session_id w
          = reraised e
              (emit (InvokeAgent agent_id session_id message true) w0)
      | inr text =>
          call_a2a_agent E agent_arn message session_id w
          = (inr (PDict [("response", PStr text);
                         ("sessionId", session_id)]),
             emit (Print ("Response length: " ++ str_of_nat (py_len text)))
               (emit (InvokeAgent agent_id session_id message true) w0))
      end
  end.
Proof.
  unfold announce.
  destruct (encode_error ("Calling agent: " ++ agent_arn)) eqn:H1;
    [discriminate|].
  destruct (encode_error ("Session: " ++ py_str E session_id)) eqn:H2;
    [discriminate|].
  destruct (py_slice100 E message) as [e|h] eqn:H3; [discriminate|].
  destruct (encode_error ("Message: " ++ py_str E h)) eqn:H4;
    [discriminate|].
  intros [= ->]. cbv zeta.
  unfold call_a2a_agent, call_invoke_agent, at_invoke, reraised, try_except,
    bind, ret, lift, raise, print.
  rewrite H1, H2, H3, H4.
  destruct (invoke_agent E _ (last_segment agent_arn) session_id message)
    as [e|stream].
  { destruct (encode_error ("Error calling agent: " ++ exn_str e));
      reflexivity. }
  destruct (read_completion E stream) as [e|text].
  { destruct (encode_error ("Error calling agent: " ++ exn_str e));
      reflexivity. }
  rewrite encode_error_printable by legibly. reflexivity.
Qed.

Lemma reraised_legible (e : exn) (w w' : world) (e' : exn) :
  reraised e w = (inl e', w') -> can_print e'.
Proof.
  unfold reraised, can_print.
  pose proof (encode_error_legible ("Error calling agent: " ++ exn_str e))
    as Hlegible.
  destruct (encode_error ("Error calling agent: " ++ exn_str e)) eqn:Hline.
  - intros [= <- _]. exact Hlegible.
  - intros [= <- _]. apply encode_error_none in Hline.
    now rewrite printable_plain_app in Hline by reflexivity.
Qed.

Lemma reraised_extends (e : exn) (w : world) :
  exists e' w' evs,
    reraised e w = (inl e', w')
    /\ extends w w' evs
    /\ apigw w' = apigw w
    /\ sends evs = [] /\ scheduled evs = []
    /\ posts evs = [] /\ constructions evs = []
    /\ agent_calls evs = [] /\ invoke_calls evs = [].
Proof.
  unfold reraised.
  destruct (encode_error ("Error calling agent: " ++ exn_str e));
    do 3 eexists; (split; [reflexivity|]); (split; [chain|]); observe;
    auto 10.
Qed.

(** [call_a2a_agent] touches neither the connection nor the scheduler; it
    calls [invoke_agent] once, for the last segment of the ARN, unless one
    of its opening lines fails first; what it returns is a dict of a text
    and the session id it was given, and what it raises has a text that
    [print] can write. *)
Lemma call_a2a_agent_runs (agent_arn : string) (message session_id : pyval)
  (w : world) :
  exists r w' evs,
    call_a2a_agent E agent_arn message session_id w = (r, w')
    /\ extends w w' evs
    /\ apigw w' = apigw w
    /\ sends evs = [] /\ scheduled evs = []
    /\ posts evs = [] /\ constructions evs = []
    /\ agent_calls evs
       = match announce E agent_arn message session_id with
         | inr _ => [last_segment agent_arn]
         | inl _ => []
         end
    /\ match r with
       | inr v =>
           exists text,
             v = PDict [("response", PStr text); ("sessionId", session_id)]
       | inl e => can_print e
       end.
Proof.
  pose proof (announce_legible agent_arn message session_id) as Hlegible.
  destruct (announce E agent_arn message session_id) as [e|head] eqn:Hannounce.
  { destruct (call_a2a_agent_stops agent_arn message session_id w e Hannounce)
      as (w' & evs & Hrun & Hext & Hcache & Hs & Hsch & Hp & Hc & Hag & _).
    exists (inl e), w', evs. auto 10. }
  pose proof (call_a2a_agent_cases agent_arn message session_id head w
                Hannounce) as Hcases.
  cbv zeta in Hcases. unfold at_invoke in Hcases.
  destruct (invoke_agent E _ (last_segment agent_arn) session_id message)
    as [e|stream].
  { rewrite Hcases.
    match goal with
    | |- context [reraised e ?w0] =>
        destruct (reraised_extends e w0)
          as (e' & w' & evs & Hrun & Hext & Hcache & Hs & Hsch & Hp & Hc
              & Hag & _);
        pose proof (reraised_legible e w0 w' e' Hrun) as He'
    end.
    rewrite Hrun. do 3 eexists. split; [reflexivity|]. split; [chain|].
    observe. rewrite Hcache, Hs, Hsch, Hp, Hc, Hag. auto 10. }
  destruct (read_completion E stream) as [e|text].
  { rewrite Hcases.
    match goal with
    | |- context [reraised e ?w0] =>
        destruct (reraised_extends e w0)
          as (e' & w' & evs & Hrun & Hext & Hcache & Hs & Hsch & Hp & Hc
              & Hag & _);
        pose proof (reraised_legible e w0 w' e' Hrun) as He'
    end.
    rewrite Hrun. do 3 eexists. split; [reflexivity|]. split; [chain|].
    observe. rewrite Hcache, Hs, Hsch, Hp, Hc, Hag. auto 10. }
  rewrite Hcases. do 3 eexists. split; [reflexivity|]. split; [chain|].
  observe. repeat (split; [reflexivity|]). eauto.
Qed.

End AgentClient.

(** C6.  [call_a2a_agent] returns a value exactly when its three opening
    lines print ([message[:100]] being defined for the third),
    [invoke_agent] answers with a stream that ends without an error, and
    every byte payload of that stream decodes; the value is then the dict
    whose [response] is the concatenation, in delivery order, of the decoded
    payloads of the fragments that have a chunk with bytes (the other
    fragments add nothing), and whose [sessionId] is the session id that was
    passed in. *)
Theorem call_a2a_agent_concatenates_payloads (E : Env) (agent_arn : string)
  (message session_id : pyval) (w : world) (v : pyval) :
  fst (call_a2a_agent E agent_arn message session_id w) = inr v <->
  exists head stream texts,
    announce E agent_arn message session_id = inr head
    /\ invoke_agent E (at_invoke E agent_arn session_id head w)
         (last_segment agent_arn) session_id message = inr stream
    /\ stream_error stream = None
    /\ map (decode_utf8 E) (payloads (fragments stream)) = map inr texts
    /\ v = PDict [("response", PStr (concat_texts texts));
                  ("sessionId", session_id)].
Proof.
  destruct (announce E agent_arn message session_id) as [e|head] eqn:Hannounce.
  { destruct (call_a2a_agent_stops E agent_arn message session_id w e
                Hannounce) as (w' & evs & Hrun & _).
    rewrite Hrun. split; [discriminate|]. intros (? & ? & ? & [=] & _). }
  pose proof (call_a2a_agent_cases E agent_arn message session_id head w
                Hannounce) as Hcases.
  cbv zeta in Hcases.
  destruct (invoke_agent E _ (last_segment agent_arn) session_id message)
    as [e|stream] eqn:Hinvoke.
  { rewrite Hcases.
    destruct (reraised_extends e
                (emit (InvokeAgent (last_segment agent_arn) session_id
                         message false)
                   (at_invoke E agent_arn session_id head w)))
      as (e' & w' & evs & Hrun & _).
    rewrite Hrun. split; [discriminate|].
    intros (h & s & ts & [= <-] & Hs & _). rewrite Hinvoke in Hs.
    discriminate. }
  unfold read_completion in Hcases.
  destruct (collect E (fragments stream) "") as [e|text] eqn:Hcollect.
  { rewrite Hcases.
    destruct (reraised_extends e
                (emit (InvokeAgent (last_segment agent_arn) session_id
                         message true)
                   (at_invoke E agent_arn session_id head w)))
      as (e' & w' & evs & Hrun & _).
    rewrite Hrun. split; [discriminate|].
    intros (h & s & ts & [= <-] & Hs & _ & Hmap & _).
    rewrite Hinvoke in Hs. injection Hs as <-.
    assert (Hok : collect E (fragments stream) "" = inr (concat_texts ts))
      by (apply collect_decodes; eauto).
    rewrite Hok in Hcollect. discriminate. }
  apply collect_decodes in Hcollect. destruct Hcollect as (ts & Hmap & ->).
  simpl in Hcases.
  destruct (stream_error stream) as [e|] eqn:Herr.
  { rewrite Hcases.
    destruct (reraised_extends e
                (emit (InvokeAgent (last_segment agent_arn) session_id
                         message true)
                   (at_invoke E agent_arn session_id head w)))
      as (e' & w' & evs & Hrun & _).
    rewrite Hrun. split; [discriminate|].
    intros (h & s & ts' & [= <-] & Hs & Hnone & _).
    rewrite Hinvoke in Hs. injection Hs as <-. congruence. }
  rewrite Hcases. cbn [fst]. split.
  - intros [= <-]. exists head, stream, ts. auto.
  - intros (h & s & ts' & [= <-] & Hs & _ & Hmap' & ->).
    rewrite Hinvoke in Hs. injection Hs as <-.
    rewrite Hmap in Hmap'.
    assert (ts = ts') as ->; [|reflexivity].
    clear - Hmap'. revert ts' Hmap'.
    induction ts as [|t ts IH]; intros [|t' ts'] H; try discriminate; auto.
    simpl in H. injection H as -> H. f_equal. auto.
Qed.

Lemma call_a2a_agent_concatenates_payloads_witness :
  fst (call_a2a_agent Sample.env (ONBOARDING_AGENT_ARN Sample.env)
         (PStr "hello") (PStr "session-r1") init_world)
  = inr (PDict [("response", PStr "Hi!");
                ("sessionId", PStr "session-r1")]).
Proof.
  apply (call_a2a_agent_concatenates_payloads Sample.env
           (ONBOARDING_AGENT_ARN Sample.env) (PStr "hello")
           (PStr "session-r1") init_world).
  exists (PStr "hello"),
    (Stream [Chunk (Some [x48; x69]); NoChunk; Chunk None;
             Chunk (Some [x21])] None),
    ["Hi"%string; "!"%string].
  repeat split.
Defined.

(** ** The asynchronous entry *)

Arguments send_message : simpl never.
Arguments call_a2a_agent : simpl never.

(** Runs the [send_message] call the goal has reached, naming what is
    known of its events. *)
Ltac step_send E Hext Hs Hsch Hag Hinv :=
  match goal with
  | |- context [send_message E ?c ?m ?o ?w0] =>
      let b := fresh "b" in
      let w1 := fresh "w" in
      let evs := fresh "evs" in
      let Hrun := fresh "Hrun" in
      destruct (send_message_runs E c m o w0)
        as (b & w1 & evs & Hrun & Hext & Hs & Hsch & Hag & Hinv & _);
      rewrite Hrun; cbn
  end.

Section AsyncEntry.

Variable E : Env.

(** Line 88 is outside the [try]: when the agent type cannot be printed,
    the async branch raises before it has called anything. *)
Lemma async_body_stops
  (agent_type message request_id session_id connection_id original_event
   : pyval) (w : world) (e : exn) :
  encode_error ("Async processing: " ++ py_str E agent_type) = Some e ->
  async_body E agent_type message request_id session_id connection_id
    original_event w = (inl e, w).
Proof.
  intros Hline. unfold async_body, bind.
  now rewrite (print_raises _ e w Hline).
Qed.

(** Once that line is printed the async branch returns 200.  It sends
    [progress], then one more notification: [response] when
    [call_a2a_agent] returned, [error] with the exception's text when it
    raised.  It schedules nothing. *)
Lemma async_body_runs
  (agent_type message request_id session_id connection_id original_event
   : pyval) (w : world) :
  printable (py_str E agent_type) = true ->
  let outcome :=
    fst (call_a2a_agent E (agent_arn_of E agent_type) message session_id
           (after_progress E agent_type request_id connection_id
              original_event w)) in
  exists w' evs,
    async_body E agent_type message request_id session_id connection_id
      original_event w = (inr (status 200), w')
    /\ extends w w' evs
    /\ scheduled evs = []
    /\ sends evs
       = [(connection_id, progress_msg request_id);
          (connection_id, terminal_for request_id agent_type outcome)]
    /\ agent_calls evs
       = match
           announce E (agent_arn_of E agent_type) message session_id
         with
         | inr _ => [last_segment (agent_arn_of E agent_type)]
         | inl _ => []
         end
    /\ match outcome with
       | inr v =>
           exists text,
             v = PDict [("response", PStr text); ("sessionId", session_id)]
       | inl e => can_print e
       end.
Proof.
  intros Htype. cbv zeta.
  unfold after_progress, async_body, try_except, bind, ret, lift,
    progress_msg, tell.
  rewrite print_ok by legibly.
  step_send E Hext1 Hs1 Hsch1 Hag1 Hinv1.
  match goal with
  | |- context [call_a2a_agent E ?a ?m ?s ?w0] =>
      destruct (call_a2a_agent_runs E a m s w0)
        as (r & w2 & evs2 & Hrun2 & Hext2 & _
            & Hs2 & Hsch2 & _ & _ & Hag2 & Hr)
  end.
  rewrite Hrun2. cbn.
  destruct r as [e|v].
  - unfold can_print in Hr. rewrite print_ok by legibly. cbn.
    step_send E Hext3 Hs3 Hsch3 Hag3 Hinv3.
    do 2 eexists. split; [reflexivity|]. split; [chain|].
    observe. rewrite Hs1, Hs2, Hs3, Hsch1, Hsch2, Hsch3, Hag1, Hag2, Hag3.
    cbn. rewrite !List.app_nil_r. repeat (split; [reflexivity|]).
    exact Hr.
  - destruct Hr as (text & ->). cbn.
    step_send E Hext3 Hs3 Hsch3 Hag3 Hinv3.
    do 2 eexists. split; [reflexivity|]. split; [chain|].
    observe. rewrite Hs1, Hs2, Hs3, Hsch1, Hsch2, Hsch3, Hag1, Hag2, Hag3.
    cbn. rewrite !List.app_nil_r. repeat (split; [reflexivity|]).
    eexists. reflexivity.
Qed.

End AsyncEntry.

Arguments async_body : simpl never.

Section AsyncDispatch.

Variable E : Env.

(** On an event of the shape it schedules, [lambda_handler] is
    [async_body] on the six fields. *)
Lemma lambda_handler_async (event : pyval) (context : lambda_context)
  (w : world) :
  async_marker_ok event = true ->
  lambda_handler E event context w
  = async_body E (async_field event "agentType")
      (async_field event "message") (async_field event "requestId")
      (async_field event "sessionId") (async_field event "connectionId")
      (async_field event "event") w.
Proof.
  destruct event as [| | | | | |top]; try discriminate.
  unfold async_marker_ok, async_field, lambda_handler, async_processing,
    bind, lift, py_contains, has_key, py_get, dict_get, py_getitem,
    async_fields, forallb.
  intros H. apply andb_prop in H. destruct H as [Hrc Hmarker].
  destruct (assoc "async_processing" top) as [[| | | | | |fields]|];
    try discriminate.
  destruct (assoc "agentType" fields); [|discriminate].
  destruct (assoc "message" fields); [|discriminate].
  destruct (assoc "requestId" fields); [|discriminate].
  destruct (assoc "sessionId" fields); [|discriminate].
  destruct (assoc "connectionId" fields); [|discriminate].
  destruct (assoc "event" fields); [|discriminate].
  destruct (assoc "requestContext" top) as [[| | | | | |rc]|];
    try discriminate; reflexivity.
Qed.

End AsyncDispatch.




(** The other way out of the async entry: an agent type that holds a lone
    surrogate.  Line 88 prints it before the [try], and what [print] raises
    leaves the handler. *)
Example async_entry_unprintable_agent_type_raises :
  async_marker_ok Cases.async_event_odd_agent = true
  /\ lambda_handler Sample.env Cases.async_event_odd_agent Sample.context
       init_world
     = (inl (Exn "UnicodeEncodeError"
               "'utf-8' codec can't encode character '\ud800' in position 18: surrogates not allowed"),
        init_world).
Proof. split; reflexivity. Qed.

(** C3.  On an event of the async shape, once line 88 has printed the
    agent type, when [call_a2a_agent] raises [e], [lambda_handler] sends
    the [progress] notification and then exactly one [error] notification,
    whose [requestId] is the request id of the event and whose [error] is
    [str(e)]; it sends no [response]. *)
Theorem agent_failure_sends_one_error (E : Env) (event : pyval)
  (context : lambda_context) (w : world) (e : exn) :
  async_marker_ok event = true ->
  printable (py_str E (async_field event "agentType")) = true ->
  fst (call_a2a_agent E (agent_arn_of E (async_field event "agentType"))
         (async_field event "message") (async_field event "sessionId")
         (after_progress E (async_field event "agentType")
            (async_field event "requestId")
            (async_field event "connectionId")
            (async_field event "event") w))
  = inl e ->
  let notifications :=
    sends (events_since w (snd (lambda_handler E event context w))) in
  notifications
  = [(async_field event "connectionId",
      progress_msg (async_field event "requestId"));
     (async_field event "connectionId",
      error_msg (async_field event "requestId") (exn_str e))]
  /\ count_type "error" notifications = 1
  /\ count_type "response" notifications = 0.
Proof.
  intros Hok Htype Hcall notifications. subst notifications.
  rewrite (lambda_handler_async E event context w Hok).
  destruct (async_body_runs E (async_field event "agentType")
              (async_field event "message") (async_field event "requestId")
              (async_field event "sessionId")
              (async_field event "connectionId")
              (async_field event "event") w Htype)
    as (w' & evs & Hrun & Hext & _ & Hsends & _).
  rewrite Hrun. cbn [snd].
  rewrite (events_since_extends _ _ _ Hext), Hsends, Hcall.
  repeat split.
Qed.

Lemma agent_failure_sends_one_error_witness :
  async_marker_ok Sample.async_event = true
  /\ fst (call_a2a_agent Sample.failing_env
            (ONBOARDING_AGENT_ARN Sample.failing_env) (PStr "hello")
            (PStr "session-r1")
            (after_progress Sample.failing_env (PStr "onboarding")
               (PStr "r1") (PStr "c-1") Sample.default_event init_world))
     = inl (Exn "TimeoutError" "TimeoutError")
  /\ sends (events_since init_world
              (snd (lambda_handler Sample.failing_env Sample.async_event
                      Sample.context init_world)))
     = [(PStr "c-1", progress_msg (PStr "r1"));
        (PStr "c-1", error_msg (PStr "r1") "TimeoutError")].
Proof.
  split; [reflexivity|]. split; [reflexivity|].
  apply (agent_failure_sends_one_error Sample.failing_env Sample.async_event
           Sample.context init_world (Exn "TimeoutError" "TimeoutError"));
    reflexivity.
Defined.

Lemma py_eq_str_spec (v : pyval) (s : string) :
  py_eq_str v s = true <-> v = PStr s.
Proof.
  destruct v; simpl; try (split; [discriminate | intros [=]]).
  rewrite String.eqb_eq. split; [intros ->; reflexivity | intros [= ->]].
  reflexivity.
Qed.

(** The agent the async entry invokes, if it gets that far. *)
Lemma async_entry_agent_calls (E : Env) (event : pyval)
  (context : lambda_context) (w : world) :
  async_marker_ok event = true ->
  agent_calls (events_since w (snd (lambda_handler E event context w)))
  = if reaches_agent E (async_field event "agentType")
         (async_field event "message") (async_field event "sessionId")
    then [last_segment (agent_arn_of E (async_field event "agentType"))]
    else [].
Proof.
  intros Hok. rewrite (lambda_handler_async E event context w Hok).
  unfold reaches_agent.
  destruct (printable (py_str E (async_field event "agentType"))) eqn:Htype.
  - destruct (async_body_runs E (async_field event "agentType")
                (async_field event "message") (async_field event "requestId")
                (async_field event "sessionId")
                (async_field event "connectionId")
                (async_field event "event") w Htype)
      as (w' & evs & Hrun & Hext & _ & _ & Hcalls & _).
    rewrite Hrun. cbn [snd andb].
    rewrite (events_since_extends _ _ _ Hext), Hcalls.
    destruct (announce E _ _ _); reflexivity.
  - destruct (encode_error_unprintable
                ("Async processing: "
                 ++ py_str E (async_field event "agentType")))
      as (e & Hline).
    { rewrite printable_plain_app by reflexivity. exact Htype. }
    rewrite (async_body_stops E _ _ _ _ _ _ w e Hline).
    cbn [snd andb]. now rewrite events_since_same.
Qed.

(** C4.  In the async entry the agent type ['onboarding'] resolves to
    [ONBOARDING_AGENT_ARN]; ['provisioning'] and every other value, of any
    type, resolve to [PROVISIONING_AGENT_ARN]; and the entry invokes no
    agent but the one resolved: it calls [invoke_agent] at most once, for
    the last segment of that ARN, and it does call it when line 88 and the
    three opening lines of [call_a2a_agent] print. *)
Theorem agent_type_resolution (E : Env) :
  agent_arn_of E (PStr "onboarding") = ONBOARDING_AGENT_ARN E
  /\ agent_arn_of E (PStr "provisioning") = PROVISIONING_AGENT_ARN E
  /\ (forall agent_type,
        agent_type <> PStr "onboarding" ->
        agent_arn_of E agent_type = PROVISIONING_AGENT_ARN E)
  /\ (forall event context w,
        async_marker_ok event = true ->
        agent_calls
          (events_since w (snd (lambda_handler E event context w)))
        = if reaches_agent E (async_field event "agentType")
               (async_field event "message") (async_field event "sessionId")
          then
            [last_segment (agent_arn_of E (async_field event "agentType"))]
          else []).
Proof.
  repeat split.
  - intros agent_type Hother. unfold agent_arn_of.
    destruct (py_eq_str agent_type "onboarding") eqn:Heq; [|reflexivity].
    apply py_eq_str_spec in Heq. contradiction.
  - intros event context w. apply async_entry_agent_calls.
Qed.

Lemma agent_type_resolution_witness :
  PStr "billing" <> PStr "onboarding"
  /\ agent_arn_of Sample.env (PStr "billing")
     = PROVISIONING_AGENT_ARN Sample.env
  /\ agent_calls
       (events_since init_world
          (snd (lambda_handler Sample.env Sample.async_event_other_agent
                  Sample.context init_world)))
     = ["PROVISION"%string].
Proof.
  destruct (agent_type_resolution Sample.env) as (_ & _ & Hother & Hcalls).
  split; [discriminate|]. split.
  - apply Hother. discriminate.
  - apply (Hcalls Sample.async_event_other_agent Sample.context init_world).
    reflexivity.
Defined.

(** ** The synchronous entry *)

Section SyncEntry.

Variable E : Env.

(** On an event of the gateway, [lambda_handler] is the outer [try] for the
    route key and connection id of the event. *)
Lemma lambda_handler_sync (route : string) (event : pyval)
  (context : lambda_context) (w : world) :
  gateway_event route event ->
  lambda_handler E event context w
  = try_except
      (routes E (PStr route) (connection_of event) event context)
      (on_exception E (PStr route) (connection_of event) event) w.
Proof.
  intros [Hroute Hmarker].
  unfold connection_of, context_field in *.
  unfold lambda_handler, bind, lift.
  destruct (py_get event "requestContext" (PDict [])) as [e|rc];
    [discriminate|].
  destruct rc as [| | | | | |fields]; try discriminate.
  cbn in *. injection Hroute as ->. rewrite Hmarker. reflexivity.
Qed.

(** A [$default] request whose body is an object, once line 140 is
    printed: the handler sends [acknowledged] and calls
    [lambda_client.invoke] with the payload built from the body.  When the
    call is accepted the handler returns 200 and the payload is scheduled;
    when it raises, the handler sends [error] for the request id and
    returns 500. *)
Lemma default_request_outcome (event : pyval) (context : lambda_context)
  (w : world) (kvs : list (string * pyval)) :
  gateway_event "$default" event ->
  request_body E event = inr (PDict kvs) ->
  printable (request_line E kvs) = true ->
  let conn := connection_of event in
  let run := lambda_handler E event context w in
  exists evs,
    extends w (snd run) evs
    /\ agent_calls evs = []
    /\ invoke_calls evs
       = [(function_name context, request_payload E event kvs)]
    /\ match
         lambda_invoke E (after_acknowledged E event kvs w)
           (function_name context) (request_payload E event kvs)
       with
       | None =>
           fst run = inr (status 200)
           /\ sends evs = [(conn, request_ack kvs)]
           /\ scheduled evs = [request_payload E event kvs]
       | Some e =>
           fst run = inr (status 500)
           /\ sends evs
              = [(conn, request_ack kvs);
                 (conn, error_msg (dict_get "id" PNone kvs) (exn_str e))]
           /\ scheduled evs = []
       end.
Proof.
  intros Hgw Hbody Hline. cbv zeta.
  rewrite (lambda_handler_sync "$default" event context w Hgw).
  unfold after_acknowledged, request_ack, request_payload, acknowledged_msg,
    async_payload.
  generalize (connection_of event). intros conn.
  unfold request_body in Hbody.
  unfold routes, on_exception, body_unbound, body_bound, map_raise,
    call_lambda_invoke, tell, try_except, bind, ret, lift, raise.
  cbn.
  destruct (py_get event "body" (PStr "{}")) as [e|text]; [discriminate|].
  rewrite Hbody. cbn.
  printed.
  step_send E Hext1 Hs1 Hsch1 Hag1 Hinv1.
  outside.
  - printed.
    step_send E Hext2 Hs2 Hsch2 Hag2 Hinv2.
    eexists. split; [chain|].
    observe. rewrite Hs1, Hs2, Hsch1, Hsch2, Hag1, Hag2, Hinv1, Hinv2. cbn.
    auto 10.
  - eexists. split; [chain|].
    observe. rewrite Hs1, Hsch1, Hag1, Hinv1. cbn. auto 10.
Qed.

(** The same request when line 140 cannot be printed: what [print] raises
    is caught by the outer [except], which reports it to the connection.
    Nothing is acknowledged and [lambda_client.invoke] is not called. *)
Lemma default_request_unprinted (event : pyval) (context : lambda_context)
  (w : world) (kvs : list (string * pyval)) (e : exn) :
  gateway_event "$default" event ->
  request_body E event = inr (PDict kvs) ->
  encode_error (request_line E kvs) = Some e ->
  let run := lambda_handler E event context w in
  exists evs,
    extends w (snd run) evs
    /\ fst run = inr (status 500)
    /\ sends evs
       = [(connection_of event,
           error_msg (dict_get "id" PNone kvs) (exn_str e))]
    /\ agent_calls evs = [] /\ invoke_calls evs = [] /\ scheduled evs = [].
Proof.
  intros Hgw Hbody Hline. cbv zeta.
  rewrite (lambda_handler_sync "$default" event context w Hgw).
  generalize (connection_of event). intros conn.
  unfold request_body in Hbody.
  pose proof (encode_error_legible (request_line E kvs)) as Hlegible.
  rewrite Hline in Hlegible. cbn in Hlegible.
  unfold routes, on_exception, body_unbound, body_bound, map_raise,
    call_lambda_invoke, tell, try_except, bind, ret, lift, raise.
  cbn.
  destruct (py_get event "body" (PStr "{}")) as [e0|text]; [discriminate|].
  rewrite Hbody. cbn.
  unprinted Hline. printed.
  step_send E Hext1 Hs1 Hsch1 Hag1 Hinv1.
  eexists. split; [chain|].
  observe. rewrite Hs1, Hsch1, Hag1, Hinv1. cbn. auto 10.
Qed.

(** The payloads given to [lambda_client.invoke] for such a request: the
    one built from the body when line 140 is printed, none otherwise. *)
Lemma default_request_invokes (event : pyval) (context : lambda_context)
  (w : world) (kvs : list (string * pyval)) :
  gateway_event "$default" event ->
  request_body E event = inr (PDict kvs) ->
  invoke_calls (events_since w (snd (lambda_handler E event context w)))
  = if printable (request_line E kvs)
    then [(function_name context, request_payload E event kvs)]
    else [].
Proof.
  intros Hgw Hbody.
  destruct (printable (request_line E kvs)) eqn:Hline.
  - destruct (default_request_outcome event context w kvs Hgw Hbody Hline)
      as (evs & Hext & _ & Hinv & _).
    now rewrite (events_since_extends _ _ _ Hext).
  - destruct (encode_error_unprintable _ Hline) as (e & He).
    destruct (default_request_unprinted event context w kvs e Hgw Hbody He)
      as (evs & Hext & _ & _ & _ & Hinv & _).
    now rewrite (events_since_extends _ _ _ Hext).
Qed.

(** A request that was scheduled had its line printed and its
    re-invocation accepted. *)
Lemma scheduled_was_accepted (event : pyval) (context : lambda_context)
  (w : world) (kvs : list (string * pyval)) :
  gateway_event "$default" event ->
  request_body E event = inr (PDict kvs) ->
  scheduled (events_since w (snd (lambda_handler E event context w))) <> [] ->
  printable (request_line E kvs) = true
  /\ lambda_invoke E (after_acknowledged E event kvs w)
       (function_name context) (request_payload E event kvs) = None.
Proof.
  intros Hgw Hbody Hscheduled.
  destruct (printable (request_line E kvs)) eqn:Hline.
  - split; [reflexivity|].
    destruct (default_request_outcome event context w kvs Hgw Hbody Hline)
      as (evs & Hext & _ & _ & Hcases).
    rewrite (events_since_extends _ _ _ Hext) in Hscheduled.
    destruct (lambda_invoke E _ (function_name context) _); [|reflexivity].
    destruct Hcases as (_ & _ & Hnone). contradiction.
  - destruct (encode_error_unprintable _ Hline) as (e & He).
    destruct (default_request_unprinted event context w kvs e Hgw Hbody He)
      as (evs & Hext & _ & _ & _ & _ & Hnone).
    rewrite (events_since_extends _ _ _ Hext) in Hscheduled. contradiction.
Qed.

End SyncEntry.

Lemma async_payload_ok
  (agent_type message request_id session_id connection_id event : pyval) :
  async_marker_ok
    (async_payload agent_type message request_id session_id connection_id
       event) = true.
Proof. reflexivity. Qed.

(** A [$default] request whose body is an object, end to end: the
    notifications of the handler and of the re-invocation it scheduled, if
    it did, run in a process whose cached client is [c]. *)
Lemma serve_runs (E : Env) (c : option client) (event : pyval)
  (context : lambda_context) (w : world) (kvs : list (string * pyval)) :
  gateway_event "$default" event ->
  request_body E event = inr (PDict kvs) ->
  printable (request_line E kvs) = true ->
  let request_id := dict_get "id" PNone kvs in
  let agent_type := dict_get "agentType" (PStr "onboarding") kvs in
  let message := dict_get "message" PNone kvs in
  let conn := connection_of event in
  let evs := events_since w (serve E c event context w) in
  let outcome :=
    fst (call_a2a_agent E (agent_arn_of E agent_type) message
           (request_session E kvs)
           (after_progress E agent_type request_id conn event
              (in_process c (snd (lambda_handler E event context w))))) in
  match
    lambda_invoke E (after_acknowledged E event kvs w)
      (function_name context) (request_payload E event kvs)
  with
  | None =>
      sends evs
      = [(conn, request_ack kvs);
         (conn, progress_msg request_id);
         (conn, terminal_for request_id agent_type outcome)]
      /\ agent_calls evs
         = match
             announce E (agent_arn_of E agent_type) message
               (request_session E kvs)
           with
           | inr _ => [last_segment (agent_arn_of E agent_type)]
           | inl _ => []
           end
      /\ match outcome with
         | inr v =>
             exists text,
               v = PDict [("response", PStr text);
                          ("sessionId", request_session E kvs)]
         | inl e => can_print e
         end
  | Some e =>
      sends evs
      = [(conn, request_ack kvs);
         (conn, error_msg request_id (exn_str e))]
      /\ agent_calls evs = []
  end.
Proof.
  intros Hgw Hbody Hline. cbv zeta. unfold serve.
  destruct (default_request_outcome E event context w kvs Hgw Hbody Hline)
    as (evs1 & Hext1 & Hag1 & _ & Hcases).
  cbv zeta in Hcases.
  assert (Htype : printable
                    (py_str E (dict_get "agentType" (PStr "onboarding") kvs))
                  = true).
  { rewrite request_line_printable in Hline.
    apply andb_prop in Hline. apply Hline. }
  rewrite (events_since_extends _ _ _ Hext1).
  destruct (lambda_invoke E _ (function_name context) _) as [e|].
  - destruct Hcases as (_ & Hs1 & Hsch1).
    rewrite Hsch1. cbn [fold_left].
    rewrite (events_since_extends _ _ _ Hext1). auto.
  - destruct Hcases as (_ & Hs1 & Hsch1).
    rewrite Hsch1. cbn [fold_left].
    rewrite lambda_handler_async by apply async_payload_ok.
    unfold request_payload.
    cbn [async_field async_payload py_getitem assoc String.eqb Ascii.eqb
         Bool.eqb].
    fold (request_session E kvs).
    match goal with
    | |- context [async_body E ?a ?m ?r ?s ?i ?o ?w0] =>
        destruct (async_body_runs E a m r s i o w0 Htype)
          as (w2 & evs2 & Hrun2 & Hext2 & _ & Hs2 & Hag2 & Hshape)
    end.
    rewrite Hrun2. cbn [snd].
    assert (Hext : extends w w2 (evs1 ++ evs2)).
    { eapply extends_trans; [exact Hext1|].
      eapply extends_from_same_log; [|exact Hext2]. reflexivity. }
    rewrite (events_since_extends _ _ _ Hext).
    rewrite sends_app, agent_calls_app, Hs1, Hs2, Hag1, Hag2.
    split; [reflexivity|]. split; [reflexivity|]. exact Hshape.
Qed.

(** The same for a request known to have been scheduled. *)
Lemma serve_scheduled (E : Env) (c : option client) (event : pyval)
  (context : lambda_context) (w : world) (kvs : list (string * pyval)) :
  gateway_event "$default" event ->
  request_body E event = inr (PDict kvs) ->
  scheduled (events_since w (snd (lambda_handler E event context w))) <> [] ->
  let request_id := dict_get "id" PNone kvs in
  let agent_type := dict_get "agentType" (PStr "onboarding") kvs in
  let message := dict_get "message" PNone kvs in
  let conn := connection_of event in
  let evs := events_since w (serve E c event context w) in
  let outcome :=
    fst (call_a2a_agent E (agent_arn_of E agent_type) message
           (request_session E kvs)
           (after_progress E agent_type request_id conn event
              (in_process c (snd (lambda_handler E event context w))))) in
  sends evs
  = [(conn, request_ack kvs);
     (conn, progress_msg request_id);
     (conn, terminal_for request_id agent_type outcome)]
  /\ agent_calls evs
     = match
         announce E (agent_arn_of E agent_type) message
           (request_session E kvs)
       with
       | inr _ => [last_segment (agent_arn_of E agent_type)]
       | inl _ => []
       end
  /\ match outcome with
     | inr v =>
         exists text,
           v = PDict [("response", PStr text);
                      ("sessionId", request_session E kvs)]
     | inl e => can_print e
     end.
Proof.
  intros Hgw Hbody Hscheduled. cbv zeta.
  destruct (scheduled_was_accepted E event context w kvs Hgw Hbody
              Hscheduled) as [Hline Haccepted].
  pose proof (serve_runs E c event context w kvs Hgw Hbody Hline) as Hruns.
  cbv zeta in Hruns. rewrite Haccepted in Hruns. exact Hruns.
Qed.

(** The last notification of a request that reached [call_a2a_agent]: a
    [response] or an [error], for the request id. *)
Lemma terminal_for_shape (request_id agent_type session_id : pyval)
  (outcome : exn + pyval) :
  match outcome with
  | inr v =>
      exists text,
        v = PDict [("response", PStr text); ("sessionId", session_id)]
  | inl e => can_print e
  end ->
  (exists text,
     terminal_for request_id agent_type outcome
     = response_msg request_id agent_type (PStr text) session_id)
  \/ (exists description,
        terminal_for request_id agent_type outcome
        = error_msg request_id description).
Proof.
  destruct outcome as [e|v].
  - intros _. right. eexists. reflexivity.
  - intros (text & ->). left. exists text. reflexivity.
Qed.

(** C1, as the code has it.  For every [$default] event of the gateway
    whose body parses to an object (a well-formed body is one) and whose
    line 140, which names the agent type and the request id, [print] can
    write, the notifications sent by [lambda_handler] and by the
    re-invocation it schedules, in whatever process that one runs, begin
    with the one [acknowledged] and end with the one terminal notification,
    a [response] or else an [error], each for the request id of the body.
    When [lambda_client.invoke] accepts the re-invocation there is one
    [progress] between the two; when it raises, the handler itself sends
    the [error] right after [acknowledged], and there is no [progress]. *)
Theorem request_lifecycle (E : Env) (c : option client) (event : pyval)
  (context : lambda_context) (w : world) (kvs : list (string * pyval)) :
  gateway_event "$default" event ->
  request_body E event = inr (PDict kvs) ->
  printable (request_line E kvs) = true ->
  let request_id := dict_get "id" PNone kvs in
  let agent_type := dict_get "agentType" (PStr "onboarding") kvs in
  let conn := connection_of event in
  let notifications := sends (events_since w (serve E c event context w)) in
  count_type "acknowledged" notifications = 1
  /\ count_type "response" notifications
     + count_type "error" notifications = 1
  /\ match
       lambda_invoke E (after_acknowledged E event kvs w)
         (function_name context) (request_payload E event kvs)
     with
     | None =>
         exists terminal,
           notifications
           = [(conn, acknowledged_msg request_id agent_type);
              (conn, progress_msg request_id);
              (conn, terminal)]
           /\ ((exists text session_id,
                  terminal
                  = response_msg request_id agent_type (PStr text) session_id)
               \/ (exists description,
                     terminal = error_msg request_id description))
           /\ count_type "progress" notifications = 1
     | Some e =>
         notifications
         = [(conn, acknowledged_msg request_id agent_type);
            (conn, error_msg request_id (exn_str e))]
         /\ count_type "progress" notifications = 0
     end.
Proof.
  intros Hgw Hbody Hline. cbv zeta.
  pose proof (serve_runs E c event context w kvs Hgw Hbody Hline) as Hruns.
  cbv zeta in Hruns. unfold request_ack in Hruns.
  destruct (lambda_invoke E _ (function_name context) _) as [e|].
  - destruct Hruns as [-> _]. repeat split.
  - destruct Hruns as (-> & _ & Hshape).
    apply (terminal_for_shape (dict_get "id" PNone kvs)
             (dict_get "agentType" (PStr "onboarding") kvs)) in Hshape.
    destruct Hshape as [(text & ->) | (description & ->)].
    + repeat split. eexists. repeat split. left. eauto.
    + repeat split. eexists. repeat split. right. eauto.
Qed.

Lemma request_lifecycle_witness :
  gateway_event "$default" Sample.default_event
  /\ request_body Sample.env Sample.default_event
     = inr (PDict Sample.fields_r1)
  /\ printable (request_line Sample.env Sample.fields_r1) = true
  /\ exists terminal,
       sends (events_since init_world
                (serve Sample.env None Sample.default_event Sample.context
                   init_world))
       = [(PStr "c-1", acknowledged_msg (PStr "r1") (PStr "onboarding"));
          (PStr "c-1", progress_msg (PStr "r1"));
          (PStr "c-1", terminal)].
Proof.
  split; [split; reflexivity|]. split; [reflexivity|].
  split; [reflexivity|].
  destruct (request_lifecycle Sample.env None Sample.default_event
              Sample.context init_world Sample.fields_r1)
    as (_ & _ & terminal & Hsends & _).
  - split; reflexivity.
  - reflexivity.
  - reflexivity.
  - exists terminal. exact Hsends.
Defined.

(** C1, as stated, fails: when [lambda_client.invoke] raises (here it is
    throttled), nothing is scheduled, and the notifications of a
    well-formed request are [acknowledged] and [error], with no
    [progress]. *)
Lemma request_without_progress :
  gateway_event "$default" Sample.default_event
  /\ request_body Cases.throttled_env Sample.default_event
     = inr (PDict Sample.fields_r1)
  /\ sends (events_since init_world
              (serve Cases.throttled_env None Sample.default_event
                 Sample.context init_world))
     = [(PStr "c-1", acknowledged_msg (PStr "r1") (PStr "onboarding"));
        (PStr "c-1", error_msg (PStr "r1") "Rate Exceeded.")].
Proof. split; [split; reflexivity|]. split; reflexivity. Qed.

(** A request id that holds a lone surrogate: line 140 raises inside the
    outer [try], so the request is not acknowledged and not scheduled; its
    one notification is the [error] of the outer [except], which carries
    what [print] raised. *)
Example unprintable_id_is_not_acknowledged :
  request_body Cases.escaped_env Cases.odd_id_event
  = inr (PDict Cases.fields_r5)
  /\ lambda_handler Cases.escaped_env Cases.odd_id_event Sample.context
       init_world
     = (inr (status 500),
        snd (lambda_handler Cases.escaped_env Cases.odd_id_event
               Sample.context init_world))
  /\ sends (events_since init_world
              (serve Cases.escaped_env None Cases.odd_id_event
                 Sample.context init_world))
     = [(PStr "c-1",
         error_msg (PStr Cases.lone_surrogate)
           "'utf-8' codec can't encode character '\ud800' in position 28: surrogates not allowed")]
  /\ invoke_calls
       (events_since init_world
          (snd (lambda_handler Cases.escaped_env Cases.odd_id_event
                  Sample.context init_world))) = [].
Proof. repeat split. Qed.

(** The session id in the payloads of a [$default] request whose body has
    no [sessionId]. *)
Lemma scheduled_session_id (E : Env) (event : pyval)
  (context : lambda_context) (w : world) (kvs : list (string * pyval)) :
  gateway_event "$default" event ->
  request_body E event = inr (PDict kvs) ->
  has_key "sessionId" kvs = false ->
  scheduled_field "sessionId"
    (events_since w (snd (lambda_handler E event context w)))
  = if printable (request_line E kvs)
    then [PStr ("session-" ++ py_str E (dict_get "id" PNone kvs))]
    else [].
Proof.
  intros Hgw Hbody Hnone.
  unfold scheduled_field.
  rewrite (default_request_invokes E event context w kvs Hgw Hbody).
  destruct (printable (request_line E kvs)); [|reflexivity].
  cbn. unfold has_key in Hnone. unfold dict_get at 1.
  destruct (assoc "sessionId" kvs); [discriminate|reflexivity].
Qed.

(** C5.  When the body of a [$default] request has no [sessionId], the
    session id of the payload the handler gives to [lambda_client.invoke]
    is ['session-'] followed by [str] of the request id, which for a string
    id is the id itself.  (The handler gives that one payload when line 140
    is printed, and none when it is not.)  The derived id depends on the
    request id alone: whatever request has the same id, every payload made
    for it carries the same session id. *)
Theorem derived_session_id (E : Env) (event : pyval)
  (context : lambda_context) (w : world) (kvs : list (string * pyval)) :
  gateway_event "$default" event ->
  request_body E event = inr (PDict kvs) ->
  has_key "sessionId" kvs = false ->
  let request_id := dict_get "id" PNone kvs in
  let expected := PStr ("session-" ++ py_str E request_id) in
  let derived :=
    scheduled_field "sessionId"
      (events_since w (snd (lambda_handler E event context w))) in
  derived = (if printable (request_line E kvs) then [expected] else [])
  /\ (forall id, request_id = PStr id -> expected = PStr ("session-" ++ id))
  /\ (forall event' context' w' kvs',
        gateway_event "$default" event' ->
        request_body E event' = inr (PDict kvs') ->
        has_key "sessionId" kvs' = false ->
        dict_get "id" PNone kvs' = request_id ->
        Forall (eq expected)
          (scheduled_field "sessionId"
             (events_since w' (snd (lambda_handler E event' context' w'))))).
Proof.
  intros Hgw Hbody Hnone. cbv zeta.
  split; [now apply scheduled_session_id|]. split.
  - intros id ->. reflexivity.
  - intros event' context' w' kvs' Hgw' Hbody' Hnone' Hid.
    rewrite (scheduled_session_id E event' context' w' kvs' Hgw' Hbody'
               Hnone'), Hid.
    destruct (printable (request_line E kvs')); repeat constructor.
Qed.

Lemma derived_session_id_witness :
  has_key "sessionId" Sample.fields_r1 = false
  /\ scheduled_field "sessionId"
       (events_since init_world
          (snd (lambda_handler Sample.env Sample.default_event Sample.context
                  init_world)))
     = [PStr "session-r1"].
Proof.
  split; [reflexivity|].
  destruct (derived_session_id Sample.env Sample.default_event Sample.context
              init_world Sample.fields_r1) as (Hderived & _).
  - split; reflexivity.
  - reflexivity.
  - reflexivity.
  - exact Hderived.
Defined.

(** C10.  When the body of a [$default] request has no [agentType], the
    handler takes ['onboarding'] for it.  Whatever [acknowledged]
    notification it sends carries [agentType] ['onboarding'], and so does
    whatever payload it gives to [lambda_client.invoke]; when the request
    id can be printed, that notification is the first one sent and there is
    one such payload.  ['onboarding'] resolves to the onboarding agent, and
    the re-invocation, once scheduled, invokes that agent and no other:
    once, when the opening lines of [call_a2a_agent] print. *)
Theorem missing_agent_type_is_onboarding (E : Env) (c : option client)
  (event : pyval) (context : lambda_context) (w : world)
  (kvs : list (string * pyval)) :
  gateway_event "$default" event ->
  request_body E event = inr (PDict kvs) ->
  has_key "agentType" kvs = false ->
  let request_id := dict_get "id" PNone kvs in
  let acknowledged :=
    (connection_of event, acknowledged_msg request_id (PStr "onboarding")) in
  let evs := events_since w (snd (lambda_handler E event context w)) in
  (forall n,
     In n (sends evs) ->
     notification_type (snd n) = "acknowledged"%string -> n = acknowledged)
  /\ Forall (eq (PStr "onboarding")) (scheduled_field "agentType" evs)
  /\ (printable (py_str E request_id) = true ->
      hd_error (sends evs) = Some acknowledged
      /\ scheduled_field "agentType" evs = [PStr "onboarding"])
  /\ agent_arn_of E (PStr "onboarding") = ONBOARDING_AGENT_ARN E
  /\ (scheduled evs <> [] ->
      agent_calls (events_since w (serve E c event context w))
      = match
          announce E (ONBOARDING_AGENT_ARN E) (dict_get "message" PNone kvs)
            (request_session E kvs)
        with
        | inr _ => [last_segment (ONBOARDING_AGENT_ARN E)]
        | inl _ => []
        end).
Proof.
  intros Hgw Hbody Hnone. cbv zeta.
  assert (Htype : dict_get "agentType" (PStr "onboarding") kvs
                  = PStr "onboarding").
  { unfold has_key in Hnone. unfold dict_get.
    destruct (assoc "agentType" kvs); [discriminate|reflexivity]. }
  assert (Hline : printable (request_line E kvs)
                  = printable (py_str E (dict_get "id" PNone kvs))).
  { rewrite request_line_printable, Htype. reflexivity. }
  assert (Hfield : scheduled_field "agentType"
                     (events_since w (snd (lambda_handler E event context w)))
                   = if printable (request_line E kvs)
                     then [PStr "onboarding"] else []).
  { unfold scheduled_field.
    rewrite (default_request_invokes E event context w kvs Hgw Hbody).
    destruct (printable (request_line E kvs)); [|reflexivity].
    cbn. now rewrite Htype. }
  split; [|split; [|split; [|split; [reflexivity|]]]].
  - intros n Hin Hack.
    destruct (printable (request_line E kvs)) eqn:Hprinted.
    + destruct (default_request_outcome E event context w kvs Hgw Hbody
                  Hprinted) as (evs & Hext & _ & _ & Hcases).
      cbv zeta in Hcases. unfold request_ack in Hcases.
      rewrite (events_since_extends _ _ _ Hext), Htype in *.
      destruct (lambda_invoke E _ (function_name context) _);
        destruct Hcases as (_ & Hsends & _); rewrite Hsends in Hin;
        cbn in Hin; intuition (subst; cbn in *; congruence).
    + destruct (encode_error_unprintable _ Hprinted) as (e & He).
      destruct (default_request_unprinted E event context w kvs e Hgw Hbody
                  He) as (evs & Hext & _ & Hsends & _).
      rewrite (events_since_extends _ _ _ Hext) in Hin.
      rewrite Hsends in Hin. cbn in Hin.
      intuition (subst; cbn in *; congruence).
  - rewrite Hfield.
    destruct (printable (request_line E kvs)); repeat constructor.
  - intros Hid. rewrite Hfield, Hline, Hid. split; [|reflexivity].
    rewrite <- Hline in Hid.
    destruct (default_request_outcome E event context w kvs Hgw Hbody Hid)
      as (evs & Hext & _ & _ & Hcases).
    cbv zeta in Hcases. unfold request_ack in Hcases.
    rewrite (events_since_extends _ _ _ Hext), Htype in *.
    destruct (lambda_invoke E _ (function_name context) _);
      destruct Hcases as (_ & -> & _); reflexivity.
  - intros Hscheduled.
    destruct (serve_scheduled E c event context w kvs Hgw Hbody Hscheduled)
      as (_ & Hcalls & _).
    cbv zeta in Hcalls. rewrite Htype in Hcalls. exact Hcalls.
Qed.

Lemma missing_agent_type_is_onboarding_witness :
  has_key "agentType" Sample.fields_r3 = false
  /\ hd_error
       (sends (events_since init_world
                 (snd (lambda_handler Sample.env Sample.default_event_r3
                         Sample.context init_world))))
     = Some (PStr "c-1", acknowledged_msg (PStr "r3") (PStr "onboarding"))
  /\ agent_calls
       (events_since init_world
          (serve Sample.env None Sample.default_event_r3 Sample.context
             init_world))
     = ["ONBOARD"%string].
Proof.
  split; [reflexivity|].
  destruct (missing_agent_type_is_onboarding Sample.env None
              Sample.default_event_r3 Sample.context init_world
              Sample.fields_r3) as (_ & _ & Hack & _ & Hcalls).
  - split; reflexivity.
  - reflexivity.
  - reflexivity.
  - split; [apply Hack; reflexivity|]. apply Hcalls. vm_compute. discriminate.
Defined.




(** ** What can raise out of the handler *)

Section Raising.

Variable E : Env.


Lemma raises_only_send_message {X} (P : X -> Prop)
  (connection_id message event : pyval) (f : exn -> X) :
  raises_only P (map_raise f (send_message E connection_id message event)).
Proof.
  intros w x w'. unfold map_raise, try_except.
  destruct (send_message_runs E connection_id message event w)
    as (b & w1 & evs & Hrun & _).
  rewrite Hrun. discriminate.
Qed.






End Raising.



(** ** The cached client *)

Lemma cache_step_refl (c : option client) : cache_step c c [].
Proof. destruct c; simpl; auto. Qed.

Lemma cache_step_trans (a b c : option client) (evs1 evs2 : list io) :
  cache_step a b evs1 -> cache_step b c evs2 ->
  cache_step a c (evs1 ++ evs2).
Proof.
  unfold cache_step.
  destruct a as [a|], b as [b|], c as [c|]; try tauto;
    rewrite constructions_app, posts_app.
  - intros (-> & -> & H1) (-> & -> & H2).
    repeat split. apply Forall_app. auto.
  - intros (-> & H1) (-> & -> & H2). split; [reflexivity|].
    apply Forall_app. auto.
  - intros (-> & ->) (-> & H2). auto.
  - intros (-> & ->) (-> & ->). auto.
Qed.

(** A call that is neither a client construction nor a delivery leaves the
    cache as it is. *)
Lemma cache_step_other (c : option client) (e : io) :
  constructions [e] = [] -> posts [e] = [] -> cache_step c c [e].
Proof. intros H1 H2. destruct c; unfold cache_step; rewrite H1, H2; auto. Qed.

Section Cache.

Variable E : Env.

Lemma tracks_ret {X A} (a : A) : tracks (@ret X A a).
Proof. intros w. exists []. split; [apply extends_refl|apply cache_step_refl]. Qed.

Lemma tracks_raise {X A} (x : X) : tracks (@raise X A x).
Proof. intros w. exists []. split; [apply extends_refl|apply cache_step_refl]. Qed.

Lemma tracks_lift {A} (r : exn + A) : tracks (lift r).
Proof. intros w. exists []. split; [apply extends_refl|apply cache_step_refl]. Qed.

Lemma tracks_tell {X} (e : io) :
  constructions [e] = [] -> posts [e] = [] -> tracks (@tell X e).
Proof.
  intros H1 H2 w. exists [e]. split.
  - apply (extends_emit w w [] e), extends_refl.
  - now apply cache_step_other.
Qed.

Lemma tracks_print (line : string) : tracks (print line).
Proof.
  intros w. unfold print.
  destruct (encode_error line); cbn [snd].
  - exists []. split; [apply extends_refl|apply cache_step_refl].
  - exists [Print line]. split.
    + apply (extends_emit w w [] (Print line)), extends_refl.
    + now apply cache_step_other.
Qed.

Lemma tracks_bind {X A B} (m : M X A) (k : A -> M X B) :
  tracks m -> (forall a, tracks (k a)) -> tracks (bind m k).
Proof.
  intros Hm Hk w. unfold bind.
  destruct (Hm w) as (evs1 & Hext1 & Hstep1).
  destruct (m w) as [[x|a] w1]; cbn [snd] in *; [eauto|].
  destruct (Hk a w1) as (evs2 & Hext2 & Hstep2).
  exists (evs1 ++ evs2). split.
  - eapply extends_trans; eassumption.
  - eapply cache_step_trans; eassumption.
Qed.

Lemma tracks_try_except {X Y A} (m : M X A) (h : X -> M Y A) :
  tracks m -> (forall x, tracks (h x)) -> tracks (try_except m h).
Proof.
  intros Hm Hh w. unfold try_except.
  destruct (Hm w) as (evs1 & Hext1 & Hstep1).
  destruct (m w) as [[x|a] w1]; cbn [snd] in *; [|eauto].
  destruct (Hh x w1) as (evs2 & Hext2 & Hstep2).
  exists (evs1 ++ evs2). split.
  - eapply extends_trans; eassumption.
  - eapply cache_step_trans; eassumption.
Qed.

Lemma tracks_call_invoke_agent (agent_id : string)
  (session_id message : pyval) :
  tracks (call_invoke_agent E agent_id session_id message).
Proof.
  intros w. unfold call_invoke_agent.
  destruct (invoke_agent E w agent_id session_id message); cbn [snd];
    eexists; (split; [chain | now apply cache_step_other]).
Qed.

Lemma tracks_call_lambda_invoke (fn : string) (payload : pyval) :
  tracks (call_lambda_invoke E fn payload).
Proof.
  intros w. unfold call_lambda_invoke.
  destruct (lambda_invoke E w fn payload); cbn [snd];
    eexists; (split; [chain | now apply cache_step_other]).
Qed.

(** Closes [cache_step (apigw w) (apigw w') evs] once [w'] and [evs] are
    explicit. *)
Ltac settle_cache H :=
  rewrite ?apigw_emit; cbn [apigw]; rewrite ?apigw_emit, ?H;
  unfold cache_step, posted_with; observe;
  repeat split; repeat constructor.

Lemma tracks_send_message (connection_id message event : pyval) :
  tracks (send_message E connection_id message event).
Proof.
  intros w.
  unfold send_message, get_apigw_client, new_client, post, tell,
    try_except, bind, ret, lift, raise.
  cbn. rewrite apigw_emit.
  destruct (apigw w) as [c|] eqn:Hcache; cbn.
  - outside; [printed|]; eexists; (split; [chain | settle_cache Hcache]).
  - reading; [printed; eexists; (split; [chain | settle_cache Hcache])|].
    reading; [printed; eexists; (split; [chain | settle_cache Hcache])|].
    reading; [printed; eexists; (split; [chain | settle_cache Hcache])|].
    outside; [printed; eexists; (split; [chain | settle_cache Hcache])|].
    outside; [printed|]; eexists; (split; [chain | settle_cache Hcache]).
Qed.

(** Walks through a computation built from the pieces above. *)
Ltac track :=
  repeat first
    [ apply tracks_ret
    | apply tracks_raise
    | apply tracks_lift
    | apply tracks_send_message
    | apply tracks_call_invoke_agent
    | apply tracks_call_lambda_invoke
    | apply tracks_tell; reflexivity
    | apply tracks_print
    | apply tracks_bind
    | apply tracks_try_except
    | lazymatch goal with |- forall _, _ => intro end
    | match goal with
      | |- tracks (if ?b then _ else _) => destruct b
      | |- tracks (match ?x with _ => _ end) => destruct x
      | |- tracks (let (_, _) := ?x in _) => destruct x
      end ].

Lemma tracks_call_a2a_agent (agent_arn : string)
  (message session_id : pyval) :
  tracks (call_a2a_agent E agent_arn message session_id).
Proof. unfold call_a2a_agent. track. Qed.

Lemma tracks_async_body
  (agent_type message request_id session_id connection_id original_event
   : pyval) :
  tracks (async_body E agent_type message request_id session_id
            connection_id original_event).
Proof.
  unfold async_body. track.
  all: try apply tracks_call_a2a_agent.
  all: track.
Qed.

Lemma tracks_lambda_handler (event : pyval) (context : lambda_context) :
  tracks (lambda_handler E event context).
Proof.
  unfold lambda_handler, async_processing, routes, on_exception,
    body_unbound, body_bound, map_raise.
  track.
  all: try apply tracks_async_body.
  all: track.
Qed.

(** Serving any invocations in one process changes the cache by a
    [cache_step]. *)
Lemma process_tracks (invocations : list (pyval * lambda_context))
  (w : world) :
  exists evs,
    extends w (process E invocations w) evs
    /\ cache_step (apigw w) (apigw (process E invocations w)) evs.
Proof.
  revert w. induction invocations as [|[event context] rest IH]; intros w.
  - exists []. split; [apply extends_refl|apply cache_step_refl].
  - cbn [process fold_left fst snd].
    destruct (tracks_lambda_handler event context w)
      as (evs1 & Hext1 & Hstep1).
    destruct (IH (snd (lambda_handler E event context w)))
      as (evs2 & Hext2 & Hstep2).
    exists (evs1 ++ evs2). split.
    + eapply extends_trans; eassumption.
    + eapply cache_step_trans; eassumption.
Qed.

End Cache.

Lemma history_extends (w : world) (evs : list io) :
  extends init_world w evs -> history w = evs.
Proof.
  unfold extends, history. intros ->. cbn [log init_world].
  rewrite List.app_nil_r. apply List.rev_involutive.
Qed.

(** C8.  In a process that starts with no client and serves any
    invocations, [boto3.client] builds a connection-management client at
    most once.  While the module-level [apigw] is [None] nothing was built
    and nothing delivered; once it holds a client, that client is the one
    that was built, every delivery went through it, [get_apigw_client]
    returns it for every event without building anything, and it stays
    cached over everything the process serves later.  With [apigw] at
    [None], [get_apigw_client] builds the client for the endpoint made of
    the [domainName] and [stage] of the event at hand and caches it. *)
Theorem client_constructed_at_most_once (E : Env)
  (invocations : list (pyval * lambda_context)) :
  let w := process E invocations init_world in
  length (constructions (history w)) <= 1
  /\ match apigw w with
     | Some c =>
         constructions (history w) = [endpoint_url c]
         /\ Forall (posted_with c) (posts (history w))
     | None => constructions (history w) = [] /\ posts (history w) = []
     end
  /\ (forall c event w0,
        apigw w0 = Some c -> get_apigw_client E event w0 = (inr c, w0))
  /\ (forall c more w0,
        apigw w0 = Some c ->
        apigw (process E more w0) = Some c
        /\ constructions (events_since w0 (process E more w0)) = []
        /\ Forall (posted_with c)
             (posts (events_since w0 (process E more w0))))
  /\ (forall event w0 rc domain stage,
        apigw w0 = None ->
        py_getitem event "requestContext" = inr rc ->
        py_getitem rc "domainName" = inr domain ->
        py_getitem rc "stage" = inr stage ->
        boto3_client E w0
          ("https://" ++ py_str E domain ++ "/" ++ py_str E stage)%string
        = None ->
        exists c,
          get_apigw_client E event w0
          = (inr c, World (Some c) (log (emit (NewClient (endpoint_url c) true) w0)))
          /\ endpoint_url c
             = ("https://" ++ py_str E domain ++ "/" ++ py_str E stage)%string).
Proof.
  cbv zeta.
  destruct (process_tracks E invocations init_world)
    as (evs & Hext & Hstep).
  rewrite (history_extends _ _ Hext).
  cbn [apigw init_world] in Hstep. unfold cache_step in Hstep.
  split; [|split; [|split; [|split]]].
  - destruct (apigw (process E invocations init_world));
      destruct Hstep as [-> _]; cbn; lia.
  - destruct (apigw (process E invocations init_world)); exact Hstep.
  - intros c event w0 Hcached. unfold get_apigw_client.
    rewrite Hcached. reflexivity.
  - intros c more w0 Hcached.
    destruct (process_tracks E more w0) as (evs' & Hext' & Hstep').
    rewrite (events_since_extends _ _ _ Hext').
    rewrite Hcached in Hstep'. unfold cache_step in Hstep'.
    destruct (apigw (process E more w0)); [|contradiction].
    destruct Hstep' as (<- & Hnone & Hposts). auto.
  - intros event w0 rc domain stage Hnone Hrc Hdomain Hstage Hbuilt.
    unfold get_apigw_client, new_client, bind, lift.
    rewrite Hnone, Hrc, Hdomain, Hstage, Hbuilt.
    exists (Client (length (log w0))
              ("https://" ++ py_str E domain ++ "/" ++ py_str E stage)).
    split; reflexivity.
Qed.

Lemma client_constructed_at_most_once_witness :
  length (constructions
            (history (process Sample.env Sample.invocations init_world)))
  <= 1
  /\ constructions
       (history (process Sample.env Sample.invocations init_world))
     = ["https://ws.example.com/prod"%string]
  /\ map (fun p => endpoint_url (fst (fst p)))
       (posts (history (process Sample.env Sample.invocations init_world)))
     = ["https://ws.example.com/prod"%string;
        "https://ws.example.com/prod"%string;
        "https://ws.example.com/prod"%string].
Proof.
  split; [|split; reflexivity].
  apply (client_constructed_at_most_once Sample.env Sample.invocations).
Defined.

(** ** The other paths of the synchronous entry *)

(** On an event without the marker, [lambda_handler] is the outer [try]
    for whatever the route key is, a string or not. *)
Lemma lambda_handler_routes (E : Env) (route_key event : pyval)
  (context : lambda_context) (w : world) :
  context_field event "routeKey" = Some route_key ->
  py_contains "async_processing" event = inr false ->
  lambda_handler E event context w
  = try_except
      (routes E route_key (connection_of event) event context)
      (on_exception E route_key (connection_of event) event) w.
Proof.
  intros Hroute Hmarker.
  unfold connection_of, context_field in *.
  unfold lambda_handler, bind, lift.
  destruct (py_get event "requestContext" (PDict [])) as [e|rc];
    [discriminate|].
  destruct rc as [| | | | | |fields]; try discriminate.
  cbn in *. injection Hroute as ->. rewrite Hmarker. reflexivity.
Qed.

(** X1.  An event without the marker whose route key is none of
    [$connect], [$disconnect] and [$default] (any other string, a value
    that is no string, or no route key at all) gets status 400, and the
    handler does nothing else: no notification, no call, no line printed. *)
Theorem unknown_route_is_rejected (E : Env) (route_key event : pyval)
  (context : lambda_context) (w : world) :
  context_field event "routeKey" = Some route_key ->
  py_contains "async_processing" event = inr false ->
  py_eq_str route_key "$connect" = false ->
  py_eq_str route_key "$disconnect" = false ->
  py_eq_str route_key "$default" = false ->
  lambda_handler E event context w = (inr (status 400), w).
Proof.
  intros Hroute Hmarker Hconnect Hdisconnect Hdefault.
  rewrite (lambda_handler_routes E route_key event context w Hroute Hmarker).
  unfold routes, try_except.
  rewrite Hconnect, Hdisconnect, Hdefault. reflexivity.
Qed.

Lemma unknown_route_is_rejected_witness :
  lambda_handler Sample.env Cases.ping_event Sample.context init_world
  = (inr (status 400), init_world)
  /\ lambda_handler Sample.env Cases.bare_event Sample.context init_world
     = (inr (status 400), init_world).
Proof.
  split.
  - apply (unknown_route_is_rejected Sample.env (PStr "$ping")
             Cases.ping_event Sample.context init_world); reflexivity.
  - apply (unknown_route_is_rejected Sample.env PNone Cases.bare_event
             Sample.context init_world); reflexivity.
Defined.

(** X2.  A [$default] request whose body does not parse, or parses to
    something that is no object, gets status 500 and no notification at all:
    the handler prints the exception and its traceback, and the [error]
    notification it then tries to build raises in turn (the local [body] is
    unbound, or has no [get]) and is given up.  Nothing is scheduled. *)
Theorem unreadable_body_is_silent (E : Env) (event : pyval)
  (context : lambda_context) (w : world) :
  gateway_event "$default" event ->
  (forall kvs, request_body E event <> inr (PDict kvs)) ->
  exists e,
    match request_body E event with
    | inl raised => e = raised
    | inr body => py_get body "id" PNone = inl e
    end
    /\ lambda_handler E event context w
       = (inr (status 500),
          emit (PrintExc e) (emit (Print ("Error: " ++ exn_str e)) w)).
Proof.
  intros Hgw Hbody.
  rewrite (lambda_handler_sync E "$default" event context w Hgw).
  destruct Hgw as [Hroute _]. unfold context_field in Hroute.
  destruct event as [| | | | | |top]; try discriminate.
  unfold request_body in *. cbn [py_get] in *.
  unfold routes, on_exception, body_unbound, body_bound, map_raise,
    tell, try_except, bind, ret, lift, raise.
  cbn.
  pose proof (py_json_loads_legible E (dict_get "body" (PStr "{}") top))
    as Hlegible.
  destruct (py_json_loads E (dict_get "body" (PStr "{}") top)) as [e|body];
    cbn in Hlegible.
  - exists e. split; [reflexivity|]. printed. reflexivity.
  - destruct body as [| | | | | |kvs];
      [| | | | | |exfalso; apply (Hbody kvs); reflexivity];
      cbn; (eexists; split; [reflexivity|]; printed; reflexivity).
Qed.

Lemma unreadable_body_is_silent_witness :
  gateway_event "$default" Cases.garbage_event
  /\ exists e,
       lambda_handler Sample.env Cases.garbage_event Sample.context
         init_world
       = (inr (status 500),
          emit (PrintExc e) (emit (Print ("Error: " ++ exn_str e))
                               init_world)).
Proof.
  split; [split; reflexivity|].
  destruct (unreadable_body_is_silent Sample.env Cases.garbage_event
              Sample.context init_world) as (e & _ & Hrun).
  - split; reflexivity.
  - intros kvs. discriminate.
  - exists e. exact Hrun.
Defined.

(** X3.  A [$default] request whose body is an object and whose line
    140 is printed is acknowledged first, and then everything hangs on
    [lambda_client.invoke].  Accepted: status 200, the payload is scheduled,
    and [acknowledged] is all the handler sends.  Raising [e]: status 500,
    nothing is scheduled, and the handler itself sends [error] with the
    request id and [str(e)]. *)
Theorem default_route_outcome (E : Env) (event : pyval)
  (context : lambda_context) (w : world) (kvs : list (string * pyval)) :
  gateway_event "$default" event ->
  request_body E event = inr (PDict kvs) ->
  printable (request_line E kvs) = true ->
  let conn := connection_of event in
  let run := lambda_handler E event context w in
  let evs := events_since w (snd run) in
  match
    lambda_invoke E (after_acknowledged E event kvs w)
      (function_name context) (request_payload E event kvs)
  with
  | None =>
      fst run = inr (status 200)
      /\ sends evs = [(conn, request_ack kvs)]
      /\ scheduled evs = [request_payload E event kvs]
  | Some e =>
      fst run = inr (status 500)
      /\ sends evs
         = [(conn, request_ack kvs);
            (conn, error_msg (dict_get "id" PNone kvs) (exn_str e))]
      /\ scheduled evs = []
  end.
Proof.
  intros Hgw Hbody Hline. cbv zeta.
  destruct (default_request_outcome E event context w kvs Hgw Hbody Hline)
    as (evs & Hext & _ & _ & Hcases).
  cbv zeta in Hcases.
  rewrite (events_since_extends _ _ _ Hext). exact Hcases.
Qed.

Lemma default_route_outcome_witness :
  fst (lambda_handler Cases.throttled_env Sample.default_event Sample.context
         init_world) = inr (status 500)
  /\ sends (events_since init_world
              (snd (lambda_handler Cases.throttled_env Sample.default_event
                      Sample.context init_world)))
     = [(PStr "c-1", acknowledged_msg (PStr "r1") (PStr "onboarding"));
        (PStr "c-1", error_msg (PStr "r1") "Rate Exceeded.")]
  /\ scheduled (events_since init_world
                  (snd (lambda_handler Cases.throttled_env
                          Sample.default_event Sample.context init_world)))
     = [].
Proof.
  apply (default_route_outcome Cases.throttled_env Sample.default_event
           Sample.context init_world Sample.fields_r1).
  - split; reflexivity.
  - reflexivity.
  - reflexivity.
Defined.

(** ** Every way [call_a2a_agent] can end *)

(** One payload that does not decode is enough for the whole stream to be
    lost, whatever was decoded before it. *)
Lemma read_completion_needs_every_payload (E : Env) (stream : agent_stream)
  (bytes : list byte) (e : exn) :
  In bytes (payloads (fragments stream)) ->
  decode_utf8 E bytes = inl e ->
  exists e', read_completion E stream = inl e'.
Proof.
  intros Hin Hbad. unfold read_completion.
  destruct (collect E (fragments stream) "") as [e'|text] eqn:Hcollect;
    [eauto|].
  apply collect_decodes in Hcollect. destruct Hcollect as (texts & Hmap & _).
  exfalso.
  apply (in_map (decode_utf8 E)) in Hin. rewrite Hmap, Hbad in Hin.
  apply in_map_iff in Hin. destruct Hin as (t & Ht & _). discriminate.
Qed.

(** X4.  Once [call_a2a_agent] has printed its three opening lines,
    whatever [invoke_agent], the stream or the decoding of a payload raises
    goes through the [except] clause: it is printed after
    ["Error calling agent: "] and raised again unchanged (when that line
    cannot be printed, what [print] raises takes its place); otherwise the
    length of the text, in characters, is printed and the dict of the text
    and the session id is returned.  No text is returned in part: one
    payload that does not decode loses the stream. *)
Theorem call_a2a_agent_reraises (E : Env) (agent_arn : string)
  (message session_id head : pyval) (w : world) :
  announce E agent_arn message session_id = inr head ->
  let w0 := at_invoke E agent_arn session_id head w in
  let agent_id := last_segment agent_arn in
  match invoke_agent E w0 agent_id session_id message with
  | inl e =>
      call_a2a_agent E agent_arn message session_id w
      = reraised e (emit (InvokeAgent agent_id session_id message false) w0)
  | inr stream =>
      match read_completion E stream with
      | inl e =>
          call_a2a_agent E agent_arn message session_id w
          = reraised e
              (emit (InvokeAgent agent_id session_id message true) w0)
      | inr text =>
          call_a2a_agent E agent_arn message session_id w
          = (inr (PDict [("response", PStr text);
                         ("sessionId", session_id)]),
             emit (Print ("Response length: " ++ str_of_nat (py_len text)))
               (emit (InvokeAgent agent_id session_id message true) w0))
      end
      /\ (forall bytes e,
            In bytes (payloads (fragments stream)) ->
            decode_utf8 E bytes = inl e ->
            exists e', read_completion E stream = inl e')
  end
  /\ (forall e w1,
        printable (exn_str e) = true ->
        reraised e w1
        = (inl e, emit (Print ("Error calling agent: " ++ exn_str e)) w1))
  /\ (forall e w1 e' w2,
        reraised e w1 = (inl e', w2) -> printable (exn_str e') = true).
Proof.
  intros Hannounce. cbv zeta.
  pose proof (call_a2a_agent_cases E agent_arn message session_id head w
                Hannounce) as Hcases.
  cbv zeta in Hcases.
  split; [|split].
  - destruct (invoke_agent E _ (last_segment agent_arn) session_id message)
      as [e|stream]; [exact Hcases|].
    split; [exact Hcases|].
    intros bytes e. apply read_completion_needs_every_payload.
  - intros e w1 He. unfold reraised.
    rewrite encode_error_printable; [reflexivity|].
    now rewrite printable_plain_app by reflexivity.
  - intros e w1 e' w2. apply reraised_legible.
Qed.

Lemma call_a2a_agent_reraises_witness :
  fst (call_a2a_agent Cases.garbled_env
         (ONBOARDING_AGENT_ARN Cases.garbled_env) (PStr "hello")
         (PStr "session-r1") init_world)
  = inl (Exn "UnicodeDecodeError" "'utf-8' codec can't decode byte").
Proof.
  pose proof (call_a2a_agent_reraises Cases.garbled_env
                (ONBOARDING_AGENT_ARN Cases.garbled_env) (PStr "hello")
                (PStr "session-r1") (PStr "hello") init_world eq_refl)
    as [[Hrun _] _].
  rewrite Hrun. reflexivity.
Defined.

(** ** The asynchronous entry, outcome by outcome *)

(** X5.  On an event of the async shape whose agent type line 88 can
    print, when the three opening lines of [call_a2a_agent] print, the
    agent answers and every payload decodes, the handler returns 200 after
    two notifications: [progress], then [response] with the request id, the
    agent type and the session id of the event and, for its text, the
    decoded payloads in the order the stream delivered them. *)
Theorem async_success_sends_response (E : Env) (event : pyval)
  (context : lambda_context) (w : world) (head : pyval)
  (stream : agent_stream) (texts : list string) :
  async_marker_ok event = true ->
  let agent_type := async_field event "agentType" in
  let message := async_field event "message" in
  let request_id := async_field event "requestId" in
  let session_id := async_field event "sessionId" in
  let conn := async_field event "connectionId" in
  let agent_arn := agent_arn_of E agent_type in
  printable (py_str E agent_type) = true ->
  announce E agent_arn message session_id = inr head ->
  invoke_agent E
    (at_invoke E agent_arn session_id head
       (after_progress E agent_type request_id conn
          (async_field event "event") w))
    (last_segment agent_arn) session_id message = inr stream ->
  stream_error stream = None ->
  map (decode_utf8 E) (payloads (fragments stream)) = map inr texts ->
  fst (lambda_handler E event context w) = inr (status 200)
  /\ sends (events_since w (snd (lambda_handler E event context w)))
     = [(conn, progress_msg request_id);
        (conn,
         response_msg request_id agent_type (PStr (concat_texts texts))
           session_id)].
Proof.
  intros Hok. cbv zeta. intros Htype Hannounce Hinvoke Hend Hdecode.
  rewrite (lambda_handler_async E event context w Hok).
  destruct (async_body_runs E (async_field event "agentType")
              (async_field event "message") (async_field event "requestId")
              (async_field event "sessionId")
              (async_field event "connectionId")
              (async_field event "event") w Htype)
    as (w' & evs & Hrun & Hext & _ & Hsends & _).
  rewrite Hrun. cbn [fst snd]. split; [reflexivity|].
  rewrite (events_since_extends _ _ _ Hext), Hsends.
  pose proof (call_a2a_agent_cases E
                (agent_arn_of E (async_field event "agentType"))
                (async_field event "message")
                (async_field event "sessionId") head
                (after_progress E (async_field event "agentType")
                   (async_field event "requestId")
                   (async_field event "connectionId")
                   (async_field event "event") w) Hannounce) as Hcases.
  cbv zeta in Hcases. rewrite Hinvoke in Hcases.
  assert (Hread : read_completion E stream = inr (concat_texts texts)).
  { unfold read_completion.
    assert (Hcollect : collect E (fragments stream) ""
                       = inr (concat_texts texts))
      by (apply collect_decodes; exists texts; auto).
    rewrite Hcollect, Hend. reflexivity. }
  rewrite Hread in Hcases. rewrite Hcases. reflexivity.
Qed.

Lemma async_success_sends_response_witness :
  sends (events_since init_world
           (snd (lambda_handler Sample.env Sample.async_event Sample.context
                   init_world)))
  = [(PStr "c-1", progress_msg (PStr "r1"));
     (PStr "c-1",
      response_msg (PStr "r1") (PStr "onboarding") (PStr "Hi!")
        (PStr "session-r1"))].
Proof.
  apply (async_success_sends_response Sample.env Sample.async_event
           Sample.context init_world (PStr "hello")
           (Stream [Chunk (Some [x48; x69]); NoChunk; Chunk None;
                    Chunk (Some [x21])] None)
           ["Hi"%string; "!"%string]); reflexivity.
Defined.

(** X6.  A request whose [message] cannot be sliced (it is missing, so
    [None], or a number, a boolean or an object) is acknowledged and
    scheduled like any other, but the re-invocation never reaches the
    agent: the opening lines of [call_a2a_agent] raise, and the request
    ends with [progress] and then [error] carrying the text of what they
    raised.  That is the exception of [message[:100]], evaluated for the
    third line, whenever the two lines before it, which name the ARN and
    the session id, are printed. *)
Theorem unsliceable_message_never_reaches_agent (E : Env)
  (c : option client) (event : pyval) (context : lambda_context) (w : world)
  (kvs : list (string * pyval)) (e : exn) :
  gateway_event "$default" event ->
  request_body E event = inr (PDict kvs) ->
  scheduled (events_since w (snd (lambda_handler E event context w))) <> [] ->
  py_slice100 E (dict_get "message" PNone kvs) = inl e ->
  let evs := events_since w (serve E c event context w) in
  let agent_arn :=
    agent_arn_of E (dict_get "agentType" (PStr "onboarding") kvs) in
  exists raised,
    announce E agent_arn (dict_get "message" PNone kvs)
      (request_session E kvs) = inl raised
    /\ sends evs
       = [(connection_of event, request_ack kvs);
          (connection_of event, progress_msg (dict_get "id" PNone kvs));
          (connection_of event,
           error_msg (dict_get "id" PNone kvs) (exn_str raised))]
    /\ agent_calls evs = []
    /\ (printable agent_arn = true ->
        printable (py_str E (request_session E kvs)) = true ->
        raised = e).
Proof.
  intros Hgw Hbody Hscheduled Hslice. cbv zeta.
  destruct (announce_slice_raises E
              (agent_arn_of E (dict_get "agentType" (PStr "onboarding") kvs))
              (dict_get "message" PNone kvs) (request_session E kvs) e
              Hslice) as (raised & Hannounce & Hsame).
  exists raised. split; [exact Hannounce|].
  destruct (serve_scheduled E c event context w kvs Hgw Hbody Hscheduled)
    as (Hsends & Hcalls & _).
  cbv zeta in Hsends, Hcalls.
  rewrite Hsends, Hcalls, Hannounce.
  match goal with
  | |- context [call_a2a_agent E ?a ?m ?s ?w0] =>
      destruct (call_a2a_agent_stops E a m s w0 raised Hannounce)
        as (w' & evs & Hrun & _)
  end.
  rewrite Hrun. cbn [fst terminal_for]. auto.
Qed.

Lemma unsliceable_message_never_reaches_agent_witness :
  py_slice100 Sample.env (dict_get "message" PNone [])
  = inl (Exn "TypeError" "'NoneType' object is not subscriptable")
  /\ sends (events_since init_world
              (serve Sample.env None Cases.empty_event Sample.context
                 init_world))
     = [(PStr "c-1", acknowledged_msg PNone (PStr "onboarding"));
        (PStr "c-1", progress_msg PNone);
        (PStr "c-1",
         error_msg PNone "'NoneType' object is not subscriptable")]
  /\ agent_calls
       (events_since init_world
          (serve Sample.env None Cases.empty_event Sample.context
             init_world)) = [].
Proof.
  split; [reflexivity|].
  destruct (unsliceable_message_never_reaches_agent Sample.env None
              Cases.empty_event Sample.context init_world []
              (Exn "TypeError" "'NoneType' object is not subscriptable"))
    as (raised & Hannounce & Hsends & Hcalls & _).
  - split; reflexivity.
  - reflexivity.
  - vm_compute. discriminate.
  - reflexivity.
  - injection Hannounce as <-. split; [exact Hsends | exact Hcalls].
Defined.

(** The same for a session id that holds a lone surrogate: the request is
    acknowledged and scheduled, and the second line of [call_a2a_agent]
    raises before the agent is called. *)
Example unprintable_session_never_reaches_agent :
  sends (events_since init_world
           (serve Cases.escaped_env None Cases.odd_session_event
              Sample.context init_world))
  = [(PStr "c-1", acknowledged_msg (PStr "r6") (PStr "onboarding"));
     (PStr "c-1", progress_msg (PStr "r6"));
     (PStr "c-1",
      error_msg (PStr "r6")
        "'utf-8' codec can't encode character '\ud800' in position 9: surrogates not allowed")]
  /\ agent_calls
       (events_since init_world
          (serve Cases.escaped_env None Cases.odd_session_event
             Sample.context init_world)) = [].
Proof. split; reflexivity. Qed.

(** ** The agent id taken from an ARN *)

Lemma no_slash_app (a b : string) :
  no_slash (a ++ b) = no_slash a && no_slash b.
Proof.
  induction a as [|ch a IH]; simpl; [reflexivity|].
  rewrite IH. apply andb_assoc.
Qed.

Lemma split_slash_no_slash (cur s : string) :
  no_slash s = true -> split_slash cur s = [(cur ++ s)%string].
Proof.
  revert cur. induction s as [|ch s IH]; intros cur Hs; simpl in *.
  - now rewrite append_empty_r.
  - apply andb_prop in Hs. destruct Hs as [Hch Hs].
    destruct (Ascii.eqb ch "/"); [discriminate|].
    rewrite (IH _ Hs), append_assoc. reflexivity.
Qed.

Lemma split_slash_not_nil (cur s : string) : split_slash cur s <> [].
Proof.
  revert cur. induction s as [|ch s IH]; intros cur; simpl;
    [discriminate|].
  destruct (Ascii.eqb ch "/"); [discriminate|apply IH].
Qed.

Lemma last_cons_not_nil {A} (x d : A) (l : list A) :
  l <> [] -> last (x :: l) d = last l d.
Proof. destruct l; [contradiction|reflexivity]. Qed.

Lemma last_split_slash_after (cur prefix id : string) :
  no_slash id = true ->
  last (split_slash cur (prefix ++ String "/" id)) ""%string = id.
Proof.
  intros Hid. revert cur.
  induction prefix as [|ch prefix IH]; intros cur; simpl.
  - rewrite (split_slash_no_slash "" id Hid). reflexivity.
  - destruct (Ascii.eqb ch "/").
    + rewrite last_cons_not_nil by apply split_slash_not_nil. apply IH.
    + apply IH.
Qed.

Lemma last_split_slash_no_slash (cur s : string) :
  no_slash cur = true ->
  no_slash (last (split_slash cur s) ""%string) = true.
Proof.
  revert cur. induction s as [|ch s IH]; intros cur Hcur; simpl.
  - exact Hcur.
  - destruct (Ascii.eqb ch "/") eqn:Hch.
    + rewrite last_cons_not_nil by apply split_slash_not_nil.
      apply IH. reflexivity.
    + apply IH. rewrite no_slash_app, Hcur. simpl. now rewrite Hch.
Qed.

(** X7.  The agent id [call_a2a_agent] takes from an ARN,
    [agent_arn.split('/')[-1]], is what follows the last slash: for an ARN
    that ends in a slash and an id without slashes it is that id, for an
    ARN without any slash it is the whole ARN, and it never contains a
    slash. *)
Theorem agent_id_follows_last_slash :
  (forall prefix id,
     no_slash id = true -> last_segment (prefix ++ String "/" id) = id)
  /\ (forall arn, no_slash arn = true -> last_segment arn = arn)
  /\ (forall arn, no_slash (last_segment arn) = true).
Proof.
  unfold last_segment. split; [|split].
  - intros prefix id. apply last_split_slash_after.
  - intros arn Harn. rewrite (split_slash_no_slash "" arn Harn). reflexivity.
  - intros arn. apply last_split_slash_no_slash. reflexivity.
Qed.

Lemma agent_id_follows_last_slash_witness :
  last_segment ("arn:aws:bedrock:us-east-1:1:agent" ++ String "/" "ONBOARD")
  = "ONBOARD"%string
  /\ last_segment "ONBOARD" = "ONBOARD"%string.
Proof.
  destruct agent_id_follows_last_slash as (Hafter & Hwhole & _).
  split; [apply Hafter | apply Hwhole]; reflexivity.
Defined.

(** ** Calls an entry never makes *)

Section Never.

Context {T : Type}.
Variable observe : list io -> list T.
Hypothesis observe_app :
  forall a b, observe (a ++ b) = observe a ++ observe b.
Hypothesis observe_nil : observe [] = [].
Hypothesis observe_print : forall line, observe [Print line] = [].
Hypothesis observe_print_exc : forall e, observe [PrintExc e] = [].
Hypothesis observe_send : forall c m, observe [SendMessage c m] = [].
Hypothesis observe_client : forall u ok, observe [NewClient u ok] = [].
Hypothesis observe_post :
  forall c i m ok, observe [PostToConnection c i m ok] = [].

Lemma never_ret {X A} (a : A) : never observe (@ret X A a).
Proof. intros w. exists []. split; [apply extends_refl|apply observe_nil]. Qed.

Lemma never_raise {X A} (x : X) : never observe (@raise X A x).
Proof. intros w. exists []. split; [apply extends_refl|apply observe_nil]. Qed.

Lemma never_tell {X} (e : io) : observe [e] = [] -> never observe (@tell X e).
Proof.
  intros He w. exists [e]. split; [|exact He].
  apply (extends_emit w w [] e), extends_refl.
Qed.

Lemma never_print (line : string) : never observe (print line).
Proof.
  intros w. unfold print.
  destruct (encode_error line); cbn [snd].
  - exists []. split; [apply extends_refl|apply observe_nil].
  - exists [Print line]. split; [|apply observe_print].
    apply (extends_emit w w [] (Print line)), extends_refl.
Qed.

Lemma never_bind {X A B} (m : M X A) (k : A -> M X B) :
  never observe m -> (forall a, never observe (k a)) ->
  never observe (bind m k).
Proof.
  intros Hm Hk w. unfold bind.
  destruct (Hm w) as (evs1 & Hext1 & Hobs1).
  destruct (m w) as [[x|a] w1]; cbn [snd] in *; [eauto|].
  destruct (Hk a w1) as (evs2 & Hext2 & Hobs2).
  exists (evs1 ++ evs2). split.
  - eapply extends_trans; eassumption.
  - rewrite observe_app, Hobs1, Hobs2. reflexivity.
Qed.

(** What follows an expression is only run on the value it has. *)
Lemma never_bind_lift {A B} (r : exn + A) (k : A -> M exn B) :
  (forall a, r = inr a -> never observe (k a)) ->
  never observe (bind (lift r) k).
Proof.
  intros Hk w. unfold bind, lift.
  destruct r as [e|a]; cbn [snd].
  - exists []. split; [apply extends_refl|apply observe_nil].
  - apply (Hk a eq_refl).
Qed.

Lemma never_try_except {X Y A} (m : M X A) (h : X -> M Y A) :
  never observe m -> (forall x, never observe (h x)) ->
  never observe (try_except m h).
Proof.
  intros Hm Hh w. unfold try_except.
  destruct (Hm w) as (evs1 & Hext1 & Hobs1).
  destruct (m w) as [[x|a] w1]; cbn [snd] in *; [|eauto].
  destruct (Hh x w1) as (evs2 & Hext2 & Hobs2).
  exists (evs1 ++ evs2). split.
  - eapply extends_trans; eassumption.
  - rewrite observe_app, Hobs1, Hobs2. reflexivity.
Qed.

Lemma never_send_message (E : Env) (connection_id message event : pyval) :
  never observe (send_message E connection_id message event).
Proof.
  intros w.
  unfold send_message, get_apigw_client, new_client, post, tell,
    try_except, bind, ret, lift, raise.
  cbn. rewrite apigw_emit.
  assert (Hdone : forall evs, Forall (fun e => observe [e] = []) evs ->
                              observe evs = []).
  { induction 1 as [|e evs He _ IH]; [apply observe_nil|].
    change (e :: evs) with ([e] ++ evs).
    rewrite observe_app, He, IH. reflexivity. }
  destruct (apigw w) as [c|]; cbn.
  - outside; [printed|];
      eexists; (split; [chain | apply Hdone; cbn; auto 10]).
  - reading;
      [printed; eexists; (split; [chain | apply Hdone; cbn; auto 10])|].
    reading;
      [printed; eexists; (split; [chain | apply Hdone; cbn; auto 10])|].
    reading;
      [printed; eexists; (split; [chain | apply Hdone; cbn; auto 10])|].
    outside;
      [printed; eexists; (split; [chain | apply Hdone; cbn; auto 10])|].
    outside; [printed|];
      eexists; (split; [chain | apply Hdone; cbn; auto 10]).
Qed.

End Never.

Lemma never_lift {T A} (observe : list io -> list T) (r : exn + A) :
  observe [] = [] -> never observe (lift r).
Proof. intros H w. exists []. split; [apply extends_refl|exact H]. Qed.

Lemma invoke_agent_is_no_lambda_invoke (E : Env) (agent_id : string)
  (session_id message : pyval) :
  never invoke_calls (call_invoke_agent E agent_id session_id message).
Proof.
  intros w. unfold call_invoke_agent.
  destruct (invoke_agent E w agent_id session_id message); cbn [snd];
    eexists; (split; [chain | reflexivity]).
Qed.

Lemma lambda_invoke_is_no_agent_call (E : Env) (fn : string)
  (payload : pyval) :
  never agent_calls (call_lambda_invoke E fn payload).
Proof.
  intros w. unfold call_lambda_invoke.
  destruct (lambda_invoke E w fn payload); cbn [snd];
    eexists; (split; [chain | reflexivity]).
Qed.

Ltac observed_nothing :=
  solve [ apply agent_calls_app | apply invoke_calls_app
        | intros; reflexivity ].

(** Walks through a computation that makes none of the calls observed. *)
Ltac hush :=
  repeat match goal with
    | |- never _ (ret _) => apply never_ret; observed_nothing
    | |- never _ (raise _) => apply never_raise; observed_nothing
    | |- never _ (lift _) => apply never_lift; observed_nothing
    | |- never _ (tell _) => apply never_tell; observed_nothing
    | |- never _ (print _) => apply never_print; observed_nothing
    | |- never _ (send_message _ _ _ _) =>
        apply never_send_message; observed_nothing
    | |- never _ (call_invoke_agent _ _ _ _) =>
        apply invoke_agent_is_no_lambda_invoke
    | |- never _ (call_lambda_invoke _ _ _) =>
        apply lambda_invoke_is_no_agent_call
    | |- never _ (bind (lift _) _) =>
        apply never_bind_lift; [observed_nothing | intros ? ?]
    | |- never _ (bind _ _) =>
        apply never_bind; [observed_nothing | | intro]
    | |- never _ (try_except _ _) =>
        apply never_try_except; [observed_nothing | | intro]
    | |- never _ (if ?b then _ else _) => destruct b
    | |- never _ (match ?x with _ => _ end) => destruct x
    | |- never _ (let (_, _) := ?x in _) => destruct x
    end.

Section Entries.

Variable E : Env.

(** The async entry never calls [lambda_client.invoke]. *)
Lemma async_entry_never_invokes_lambda (event : pyval)
  (context : lambda_context) :
  py_contains "async_processing" event = inr true ->
  never invoke_calls (lambda_handler E event context).
Proof.
  intros Hmarker.
  unfold lambda_handler. do 4 (apply never_bind_lift;
                                [observed_nothing | intros ? _]).
  apply never_bind_lift; [observed_nothing|]. intros marked Hmarked.
  rewrite Hmarker in Hmarked. injection Hmarked as <-.
  unfold async_processing, async_body, call_a2a_agent. hush.
Qed.

(** The synchronous entry never calls [invoke_agent]. *)
Lemma sync_entry_never_calls_agent (event : pyval)
  (context : lambda_context) :
  py_contains "async_processing" event <> inr true ->
  never agent_calls (lambda_handler E event context).
Proof.
  intros Hmarker.
  unfold lambda_handler. do 4 (apply never_bind_lift;
                                [observed_nothing | intros ? _]).
  apply never_bind_lift; [observed_nothing|]. intros marked Hmarked.
  destruct marked; [contradiction|].
  unfold routes, on_exception, body_unbound, body_bound, map_raise.
  hush.
Qed.

End Entries.

(** X8.  One invocation of [lambda_handler] never both schedules and
    invokes: on an event with the marker it makes no call of
    [lambda_client.invoke], so a re-invocation schedules nothing further;
    on any other event it makes no call of [invoke_agent], so the
    synchronous entry never waits for an agent. *)
Theorem entries_never_mix_calls (E : Env) (event : pyval)
  (context : lambda_context) (w : world) :
  let evs := events_since w (snd (lambda_handler E event context w)) in
  match py_contains "async_processing" event with
  | inr true => invoke_calls evs = [] /\ scheduled evs = []
  | _ => agent_calls evs = []
  end.
Proof.
  cbv zeta.
  assert (Hsched : forall evs, invoke_calls evs = [] -> scheduled evs = []).
  { induction evs as [|e evs IH]; [reflexivity|].
    destruct e as [| | | | | |fn p []]; cbn; try discriminate; exact IH. }
  destruct (py_contains "async_processing" event) as [e|[|]] eqn:Hmarker.
  - destruct (sync_entry_never_calls_agent E event context) with (w := w)
      as (evs & Hext & Hnone); [congruence|].
    rewrite (events_since_extends _ _ _ Hext). exact Hnone.
  - destruct (async_entry_never_invokes_lambda E event context Hmarker w)
      as (evs & Hext & Hnone).
    rewrite (events_since_extends _ _ _ Hext). auto.
  - destruct (sync_entry_never_calls_agent E event context) with (w := w)
      as (evs & Hext & Hnone); [congruence|].
    rewrite (events_since_extends _ _ _ Hext). exact Hnone.
Qed.

(** ** A send with no client cached *)



(** ** What the handler returns *)

Lemma yields_ret {X A} (Q : A -> Prop) (a : A) : Q a -> yields Q (@ret X A a).
Proof. intros H w b w' [= <- _]. exact H. Qed.

Lemma yields_raise {X A} (Q : A -> Prop) (x : X) : yields Q (@raise X A x).
Proof. intros w b w' [=]. Qed.

Lemma yields_bind {X A B} (Q : B -> Prop) (m : M X A) (k : A -> M X B) :
  (forall a, yields Q (k a)) -> yields Q (bind m k).
Proof.
  intros Hk w b w'. unfold bind.
  destruct (m w) as [[x|a] w1]; [discriminate|]. apply Hk.
Qed.

Lemma yields_try_except {X Y A} (Q : A -> Prop) (m : M X A)
  (h : X -> M Y A) :
  yields Q m -> (forall x, yields Q (h x)) -> yields Q (try_except m h).
Proof.
  intros Hm Hh w b w'. unfold try_except.
  destruct (m w) as [[x|a] w1] eqn:Hrun.
  - apply Hh.
  - intros [= <- _]. eapply Hm, Hrun.
Qed.

(** X10.  Whatever the event and whatever happens outside, what
    [lambda_handler] returns, when it returns, is [{'statusCode': code}]
    with [code] one of 200, 400 and 500; on an event with the marker it is
    200. *)
Theorem handler_status_codes (E : Env) (event : pyval)
  (context : lambda_context) (w w' : world) (v : pyval) :
  lambda_handler E event context w = (inr v, w') ->
  is_status [200%Z; 400%Z; 500%Z] v
  /\ (py_contains "async_processing" event = inr true -> v = status 200).
Proof.
  assert (Hin : forall code, In code [200%Z; 400%Z; 500%Z] ->
                             is_status [200%Z; 400%Z; 500%Z] (status code))
    by (intros code H; exists code; auto).
  unfold lambda_handler, bind, lift.
  destruct (py_get event "requestContext" (PDict [])) as [e|rc];
    [discriminate|].
  destruct (py_get rc "routeKey" PNone) as [e|route_key]; [discriminate|].
  destruct (py_get rc "connectionId" PNone) as [e|connection_id];
    [discriminate|].
  destruct (py_contains "async_processing" event) as [e|[|]];
    [discriminate| |].
  - intros Hrun.
    assert (Hy : yields (fun r => r = status 200) (async_processing E event)).
    { unfold async_processing, async_body.
      repeat (apply yields_bind; intro). apply yields_ret. reflexivity. }
    rewrite (Hy w v w' Hrun). split; [apply Hin; cbn; auto | reflexivity].
  - intros Hrun. split; [|discriminate].
    assert (Hy : yields (is_status [200%Z; 400%Z; 500%Z])
                   (try_except
                      (routes E route_key connection_id event context)
                      (on_exception E route_key connection_id event))).
    { apply yields_try_except.
      - unfold routes, body_unbound, body_bound, map_raise.
        repeat first
          [ apply yields_ret; apply Hin; cbn; now auto
          | apply yields_raise
          | apply yields_bind; intro
          | apply yields_try_except; [|intro]
          | match goal with
            | |- yields _ (if ?b then _ else _) => destruct b
            end ].
      - intros [e body]. unfold on_exception.
        repeat (apply yields_bind; intro).
        apply yields_ret. apply Hin. cbn. auto. }
    exact (Hy w v w' Hrun).
Qed.

Lemma handler_status_codes_witness :
  fst (lambda_handler Sample.env Cases.garbage_event Sample.context
         init_world) = inr (status 500)
  /\ is_status [200%Z; 400%Z; 500%Z] (status 500)
  /\ fst (lambda_handler Sample.env Sample.async_event Sample.context
            init_world) = inr (status 200).
Proof.
  split; [reflexivity|]. split.
  - apply (handler_status_codes Sample.env Cases.garbage_event
             Sample.context init_world
             (snd (lambda_handler Sample.env Cases.garbage_event
                     Sample.context init_world))
             (status 500)).
    reflexivity.
  - destruct (lambda_handler Sample.env Sample.async_event Sample.context
                init_world) as [[e|v] w'] eqn:Hrun; [discriminate|].
    destruct (handler_status_codes Sample.env Sample.async_event
                Sample.context init_world w' v Hrun) as [_ Hv].
    cbn [fst]. rewrite Hv; reflexivity.
Defined.

(** ** A session id given in the request *)

(** X11.  A [sessionId] present in the body of a [$default] request is
    used as it is, whatever its value, [null] included: the derived id
    stands in for an absent key only.  It is the session id of the payload
    the handler gives to [lambda_client.invoke] (one payload when line 140
    is printed, none otherwise), and when the re-invocation ends with a
    [response], the session id of that notification. *)
Theorem given_session_id_is_kept (E : Env) (c : option client)
  (event : pyval) (context : lambda_context) (w : world)
  (kvs : list (string * pyval)) (session_id : pyval) :
  gateway_event "$default" event ->
  request_body E event = inr (PDict kvs) ->
  assoc "sessionId" kvs = Some session_id ->
  scheduled_field "sessionId"
    (events_since w (snd (lambda_handler E event context w)))
  = (if printable (request_line E kvs) then [session_id] else [])
  /\ (scheduled (events_since w (snd (lambda_handler E event context w)))
      <> [] ->
      exists terminal,
        sends (events_since w (serve E c event context w))
        = [(connection_of event, request_ack kvs);
           (connection_of event, progress_msg (dict_get "id" PNone kvs));
           (connection_of event, terminal)]
        /\ (notification_type terminal = "response"%string ->
            py_item terminal "sessionId" = session_id)).
Proof.
  intros Hgw Hbody Hsession.
  assert (Hget : request_session E kvs = session_id)
    by (unfold request_session, dict_get; now rewrite Hsession).
  split.
  - unfold scheduled_field.
    rewrite (default_request_invokes E event context w kvs Hgw Hbody).
    destruct (printable (request_line E kvs)); [|reflexivity].
    rewrite <- Hget. reflexivity.
  - intros Hscheduled.
    destruct (serve_scheduled E c event context w kvs Hgw Hbody Hscheduled)
      as (Hsends & _ & Hshape).
    cbv zeta in Hsends, Hshape.
    eexists. split; [exact Hsends|].
    destruct (fst (call_a2a_agent E _ _ _ _)) as [e|v]; cbn.
    + discriminate.
    + destruct Hshape as (text & ->). intros _. exact Hget.
Qed.

Lemma given_session_id_is_kept_witness :
  assoc "sessionId" Cases.fields_r4 = Some (PStr "mine")
  /\ scheduled_field "sessionId"
       (events_since init_world
          (snd (lambda_handler Cases.session_env Cases.session_event
                  Sample.context init_world)))
     = [PStr "mine"].
Proof.
  split; [reflexivity|].
  apply (given_session_id_is_kept Cases.session_env None Cases.session_event
           Sample.context init_world Cases.fields_r4 (PStr "mine")).
  - split; reflexivity.
  - reflexivity.
  - reflexivity.
Defined.


(** ** deploy_cfn_stack *)

Lemma calls_since_prefix (l : cfn_log) (made : list cfn_call) :
  calls_since l (made ++ l) = rev made.
Proof. unfold calls_since. now rewrite firstn_prefix. Qed.

Arguments calls_since : simpl never.

(** Reads the calls of a run off its final log. *)
Ltac read_calls :=
  repeat match goal with
    | |- context [calls_since ?l (?a :: ?b :: ?c :: ?l)] =>
        change (a :: b :: c :: l) with ([a; b; c] ++ l);
        rewrite calls_since_prefix
    | |- context [calls_since ?l (?a :: ?b :: ?l)] =>
        change (a :: b :: l) with ([a; b] ++ l);
        rewrite calls_since_prefix
    | |- context [calls_since ?l (?a :: ?l)] =>
        change (a :: l) with ([a] ++ l);
        rewrite calls_since_prefix
    end.

(** X12.  [deploy_cfn_stack] attempts at most one mutation.  When the
    client cannot be built it calls nothing else.  Otherwise it updates the
    stack when [describe_stacks] returned and creates it when
    [describe_stacks] raised, whatever it raised; and the [Capabilities] it
    sends are the list it was given when that list is not empty, and
    [CAPABILITY_IAM] with [CAPABILITY_NAMED_IAM] when it was given [None]
    or an empty list. *)
Theorem deploy_creates_unless_described (C : CfnEnv)
  (stack_name template_body : pyval) (capabilities : option (list pyval))
  (l : cfn_log) :
  let run := deploy_cfn_stack C stack_name template_body capabilities l in
  let calls := calls_since l (snd run) in
  match cloudformation_client C l with
  | Some e =>
      run = (inr (tool_failure e), CfnClient (AWS_REGION C) false :: l)
  | None =>
      mutations calls
      = [(match describe_stacks C (CfnClient (AWS_REGION C) true :: l)
                  stack_name with
          | inr _ => "update"%string
          | inl _ => "create"%string
          end, stack_name)]
      /\ capabilities_sent calls
         = [PList (effective_capabilities capabilities)]
      /\ effective_capabilities capabilities <> []
  end.
Proof.
  cbv zeta.
  unfold deploy_cfn_stack, new_cfn_client, call_describe_stacks,
    call_update_stack, call_create_stack, cfn_try, cfn_bind, cfn_ret,
    cfn_lift.
  destruct (cloudformation_client C l) as [e|]; [reflexivity|].
  assert (Hcaps : effective_capabilities capabilities <> [])
    by (destruct capabilities as [[|c cs]|]; discriminate).
  split; [|split; [|exact Hcaps]];
    destruct capabilities as [[|c cs]|]; cbn;
    destruct (describe_stacks C _ stack_name) as [e|described]; cbn;
    repeat match goal with
      | |- context [create_stack C ?l0 ?p] =>
          destruct (create_stack C l0 p) as [?|?]; cbn
      | |- context [update_stack C ?l0 ?p] =>
          destruct (update_stack C l0 p) as [?|?]; cbn
      | |- context [py_getitem ?r "StackId"] =>
          destruct (py_getitem r "StackId"); cbn
      end;
    read_calls; reflexivity.
Qed.

Lemma deploy_creates_unless_described_witness :
  mutations
    (calls_since []
       (snd (deploy_cfn_stack Stacks.denied_env (PStr "web")
               (PStr "Resources: {}") (Some []) [])))
  = [("create"%string, PStr "web")]
  /\ capabilities_sent
       (calls_since []
          (snd (deploy_cfn_stack Stacks.denied_env (PStr "web")
                  (PStr "Resources: {}") (Some []) [])))
     = [PList default_capabilities].
Proof.
  destruct (deploy_creates_unless_described Stacks.denied_env (PStr "web")
              (PStr "Resources: {}") (Some []) [])
    as (Hmutations & Hcapabilities & _).
  split; [exact Hmutations | exact Hcapabilities].
Defined.

(** X13.  [deploy_cfn_stack] never raises, and its result says what
    happened to the stack.  When the client cannot be built the result is
    that failure and nothing was changed.  Otherwise the result is decided
    by the one mutation attempted, [update_stack] when [describe_stacks]
    returned and [create_stack] when it raised: when the mutation raises,
    the result is that failure and nothing was changed; when it returns,
    the stack was changed, and the result is the success with the action
    and the [StackId] of the response, or, when the response has no
    [StackId] to read, the failure of that read.  What [describe_stacks]
    raises is never reported.  So a result with [success] true means that
    exactly the mutation [action] names returned, on the stack asked for;
    and when no mutation returned, the result is a failure. *)
Theorem deploy_result_is_honest (C : CfnEnv)
  (stack_name template_body : pyval) (capabilities : option (list pyval))
  (l : cfn_log) :
  let run := deploy_cfn_stack C stack_name template_body capabilities l in
  let calls := calls_since l (snd run) in
  let params := deploy_params stack_name template_body capabilities in
  match cloudformation_client C l with
  | Some e => fst run = inr (tool_failure e) /\ changed calls = []
  | None =>
      let l1 := CfnClient (AWS_REGION C) true :: l in
      match describe_stacks C l1 stack_name with
      | inr _ =>
          let attempt :=
            update_stack C (DescribeStacks stack_name true :: l1) params in
          fst run = inr (deploy_report stack_name "updated" attempt)
          /\ changed calls = deploy_effect stack_name "updated" attempt
      | inl _ =>
          let attempt :=
            create_stack C (DescribeStacks stack_name false :: l1) params in
          fst run = inr (deploy_report stack_name "created" attempt)
          /\ changed calls = deploy_effect stack_name "created" attempt
      end
  end
  /\ (forall action stack_id,
        fst run
        = inr (PDict [("success", PBool true); ("action", PStr action);
                      ("stack_id", stack_id); ("stack_name", stack_name)]) ->
        changed calls = [(action, stack_name)])
  /\ (changed calls = [] -> exists e, fst run = inr (tool_failure e)).
Proof.
  cbv zeta.
  unfold deploy_cfn_stack, new_cfn_client, call_describe_stacks,
    call_update_stack, call_create_stack, cfn_try, cfn_bind, cfn_ret,
    cfn_lift, deploy_params, deploy_report, deploy_effect.
  destruct (cloudformation_client C l) as [e|].
  { cbn [fst snd]. read_calls. cbn.
    repeat split; [discriminate | eauto]. }
  destruct capabilities as [[|c cs]|]; cbn;
    destruct (describe_stacks C _ stack_name) as [e|described]; cbn;
    repeat match goal with
      | |- context [create_stack C ?l0 ?p] =>
          destruct (create_stack C l0 p) as [?|response]; cbn
      | |- context [update_stack C ?l0 ?p] =>
          destruct (update_stack C l0 p) as [?|response]; cbn
      | |- context [py_getitem ?r "StackId"] =>
          destruct (py_getitem r "StackId"); cbn
      end;
    read_calls; cbn;
    repeat split;
    try discriminate;
    try (intros action stack_id [= <- _]; reflexivity);
    eauto.
Qed.

Lemma deploy_result_is_honest_witness :
  deploy_cfn_stack Stacks.denied_env (PStr "web") (PStr "Resources: {}")
    None []
  = (inr (tool_failure (Exn "ClientError" "Stack [web] already exists")),
     [CreateStack
        (deploy_params (PStr "web") (PStr "Resources: {}") None) false;
      DescribeStacks (PStr "web") false;
      CfnClient "us-east-1" true])
  /\ fst (deploy_cfn_stack Stacks.env (PStr "api") (PStr "Resources: {}")
            None [])
     = inr (PDict [("success", PBool true); ("action", PStr "created");
                   ("stack_id", PStr "arn:aws:cloudformation:stack/new/1");
                   ("stack_name", PStr "api")]).
Proof.
  split; [reflexivity|].
  destruct (deploy_result_is_honest Stacks.env (PStr "api")
              (PStr "Resources: {}") None []) as ((Hrun & _) & _).
  exact Hrun.
Defined.

(** ** get_stack_status *)

Lemma output_entry_ok (output : pyval) :
  output_ok output = true -> output_entry output = inr (entry_of output).
Proof.
  destruct output as [| | | | | |fields]; try discriminate.
  unfold output_ok, output_entry, entry_of, py_item, has_key. cbn.
  destruct (assoc "OutputKey" fields); [|discriminate].
  destruct (assoc "OutputValue" fields); [|discriminate].
  reflexivity.
Qed.

Lemma output_entry_bad (output : pyval) :
  output_ok output = false -> exists e, output_entry output = inl e.
Proof.
  destruct output as [| | | | | |fields]; try (intros _; eexists; reflexivity).
  unfold output_ok, output_entry, has_key. cbn.
  destruct (assoc "OutputKey" fields); [|intros _; eexists; reflexivity].
  destruct (assoc "OutputValue" fields); [discriminate|].
  intros _. eexists. reflexivity.
Qed.

(** The loop keeps what it has and adds one entry per output, in order. *)
Lemma collect_outputs_ok (todo outputs : list pyval) :
  forallb output_ok todo = true ->
  collect_outputs todo outputs = inr (outputs ++ map entry_of todo).
Proof.
  revert outputs. induction todo as [|output rest IH]; intros outputs Hok.
  - cbn. now rewrite List.app_nil_r.
  - cbn in Hok. apply andb_prop in Hok. destruct Hok as [Hhead Hrest].
    cbn. rewrite (output_entry_ok output Hhead), (IH _ Hrest).
    rewrite <- List.app_assoc. reflexivity.
Qed.

(** One output it cannot read and the loop gives nothing. *)
Lemma collect_outputs_bad (todo outputs : list pyval) :
  forallb output_ok todo = false ->
  exists e, collect_outputs todo outputs = inl e.
Proof.
  revert outputs. induction todo as [|output rest IH]; intros outputs Hbad;
    [discriminate|].
  cbn in Hbad. cbn.
  destruct (output_ok output) eqn:Hhead.
  - rewrite (output_entry_ok output Hhead). apply IH. exact Hbad.
  - destruct (output_entry_bad output Hhead) as (e & ->). eauto.
Qed.

(** X14.  For a stack that CloudFormation describes (an object with
    [StackStatus] and [CreationTime], whose [Outputs], if any, is a list of
    objects with [OutputKey] and [OutputValue]), [get_stack_status] returns
    its status, its status reason or [''], its creation time as [str]
    prints it, and one entry per output, in the order of [Outputs], with
    the key, the value and the description or ['']; no [Outputs] gives no
    entry. *)
Theorem get_stack_status_lists_outputs (C : CfnEnv) (stack_name : pyval)
  (l : cfn_log) (response stacks status_value created : pyval)
  (fields : list (string * pyval)) (outs : list pyval) :
  cloudformation_client C l = None ->
  describe_stacks C (CfnClient (AWS_REGION C) true :: l) stack_name
  = inr response ->
  py_getitem response "Stacks" = inr stacks ->
  py_first stacks = inr (PDict fields) ->
  assoc "StackStatus" fields = Some status_value ->
  assoc "CreationTime" fields = Some created ->
  dict_get "Outputs" (PList []) fields = PList outs ->
  forallb output_ok outs = true ->
  fst (get_stack_status C stack_name l)
  = inr (PDict [("success", PBool true);
                ("stack_name", stack_name);
                ("status", status_value);
                ("status_reason",
                 dict_get "StackStatusReason" (PStr "") fields);
                ("outputs", PList (map entry_of outs));
                ("creation_time", PStr (str_of C created))]).
Proof.
  intros Hclient Hdescribe Hstacks Hfirst Hstatus Hcreated Houts Hok.
  unfold get_stack_status, new_cfn_client, call_describe_stacks, cfn_try,
    cfn_bind, cfn_ret, cfn_lift.
  rewrite Hclient, Hdescribe, Hstacks, Hfirst. cbn [py_get].
  rewrite Houts. cbn [py_iter].
  rewrite (collect_outputs_ok outs [] Hok). cbn [app py_getitem].
  rewrite Hstatus, Hcreated. reflexivity.
Qed.

Lemma get_stack_status_lists_outputs_witness :
  fst (get_stack_status Stacks.env (PStr "web") [])
  = inr (PDict [("success", PBool true);
                ("stack_name", PStr "web");
                ("status", PStr "CREATE_COMPLETE");
                ("status_reason", PStr "");
                ("outputs",
                 PList [PDict [("key", PStr "Url");
                               ("value", PStr "https://web.example.com");
                               ("description", PStr "Site")];
                        PDict [("key", PStr "Bucket");
                               ("value", PStr "web-assets");
                               ("description", PStr "")]]);
                ("creation_time", PStr "2024-05-01 10:00:00+00:00")]).
Proof.
  apply (get_stack_status_lists_outputs Stacks.env (PStr "web") []
           (PDict [("Stacks", PList [Stacks.web_stack])])
           (PList [Stacks.web_stack]) (PStr "CREATE_COMPLETE")
           (PStr "2024-05-01 10:00:00+00:00")
           [("StackName", PStr "web");
            ("StackStatus", PStr "CREATE_COMPLETE");
            ("CreationTime", PStr "2024-05-01 10:00:00+00:00");
            ("Outputs",
             PList [PDict [("OutputKey", PStr "Url");
                           ("OutputValue", PStr "https://web.example.com");
                           ("Description", PStr "Site")];
                    PDict [("OutputKey", PStr "Bucket");
                           ("OutputValue", PStr "web-assets")]])]
           [PDict [("OutputKey", PStr "Url");
                   ("OutputValue", PStr "https://web.example.com");
                   ("Description", PStr "Site")];
            PDict [("OutputKey", PStr "Bucket");
                   ("OutputValue", PStr "web-assets")]]);
    reflexivity.
Defined.

(** X15.  [get_stack_status] answers in full or not at all, and never
    raises.  An answer with no stack in it ([Stacks] empty) comes back as
    the failure ["list index out of range"]; and when one output of the
    stack lacks its key or its value, the result is a failure that carries
    none of the other outputs, nor the status. *)
Theorem get_stack_status_all_or_nothing (C : CfnEnv) (stack_name : pyval)
  (l : cfn_log) :
  (exists v l',
     get_stack_status C stack_name l = (inr v, l')
     /\ (py_item v "success" = PBool true
         \/ exists e, v = tool_failure e))
  /\ (forall response,
        cloudformation_client C l = None ->
        describe_stacks C (CfnClient (AWS_REGION C) true :: l) stack_name
        = inr response ->
        py_getitem response "Stacks" = inr (PList []) ->
        fst (get_stack_status C stack_name l)
        = inr (tool_failure (Exn "IndexError" "list index out of range")))
  /\ (forall response stacks fields outs,
        cloudformation_client C l = None ->
        describe_stacks C (CfnClient (AWS_REGION C) true :: l) stack_name
        = inr response ->
        py_getitem response "Stacks" = inr stacks ->
        py_first stacks = inr (PDict fields) ->
        dict_get "Outputs" (PList []) fields = PList outs ->
        forallb output_ok outs = false ->
        exists e, fst (get_stack_status C stack_name l)
                  = inr (tool_failure e)).
Proof.
  split; [|split].
  - unfold get_stack_status, cfn_try.
    match goal with
    | |- context [cfn_bind ?m ?k l] => destruct (cfn_bind m k l) as [[e|v] l']
                                         eqn:Hrun
    end.
    + do 2 eexists. split; [reflexivity|]. right. eauto.
    + do 2 eexists. split; [reflexivity|]. left.
      revert Hrun.
      unfold new_cfn_client, call_describe_stacks, cfn_bind, cfn_ret,
        cfn_lift.
      repeat match goal with
        | |- context [match ?x with _ => _ end] =>
            lazymatch x with
            | context [match _ with _ => _ end] => fail
            | _ => destruct x; try discriminate
            end
        end.
      intros [= <- _]. reflexivity.
  - intros response Hclient Hdescribe Hstacks.
    unfold get_stack_status, new_cfn_client, call_describe_stacks, cfn_try,
      cfn_bind, cfn_ret, cfn_lift.
    rewrite Hclient, Hdescribe, Hstacks. reflexivity.
  - intros response stacks fields outs Hclient Hdescribe Hstacks Hfirst
      Houts Hbad.
    unfold get_stack_status, new_cfn_client, call_describe_stacks, cfn_try,
      cfn_bind, cfn_ret, cfn_lift.
    rewrite Hclient, Hdescribe, Hstacks, Hfirst. cbn [py_get].
    rewrite Houts. cbn [py_iter].
    destruct (collect_outputs_bad outs [] Hbad) as (e & ->).
    exists e. reflexivity.
Qed.

Lemma get_stack_status_all_or_nothing_witness :
  fst (get_stack_status Stacks.empty_env (PStr "web") [])
  = inr (tool_failure (Exn "IndexError" "list index out of range")).
Proof.
  destruct (get_stack_status_all_or_nothing Stacks.empty_env (PStr "web") [])
    as (_ & Hempty & _).
  apply (Hempty (PDict [("Stacks", PList [])])); reflexivity.
Defined.

(** ** request_design_from_onboarding_agent *)

Lemma first_message_skips_others (before after : list a2a_event)
  (parts : list a2a_part) :
  forallb is_other before = true ->
  first_message (before ++ A2AMessage parts :: after) = Some parts.
Proof.
  induction before as [|[ps|] before IH]; cbn; intros H;
    [reflexivity | discriminate | apply IH, H].
Qed.

Lemma first_message_none (events : list a2a_event) :
  forallb is_other events = true -> first_message events = None.
Proof.
  induction events as [|[ps|] events IH]; cbn; intros H;
    [reflexivity | discriminate | apply IH, H].
Qed.

Lemma collect_text_appends (parts : list a2a_part) (acc : string) :
  collect_text parts acc = (acc ++ concat_texts (texts_of parts))%string.
Proof.
  revert acc. induction parts as [|[text|] parts IH]; intros acc; cbn.
  - now rewrite append_empty_r.
  - rewrite IH. apply append_assoc.
  - apply IH.
Qed.

Lemma a2a_since_prefix (l : a2a_log) (made : list a2a_call) :
  a2a_since l (made ++ l) = rev made.
Proof. unfold a2a_since. now rewrite firstn_prefix. Qed.

(** X16.  When the card resolves and the client is made, the first
    [Message] the other agent yields is the answer: whatever comes before
    it that is no [Message] is passed over, whatever comes after it,
    another [Message] or the failure of the stream, is never looked at, and
    the design returned is the text of its parts that have one, in order,
    the other parts adding nothing. *)
Theorem first_message_is_the_design (A : A2AEnv) (requirements url : string)
  (l : a2a_log) (before after : list a2a_event) (parts : list a2a_part)
  (failure : option exn) :
  configured A url ->
  get_agent_card A
    (Logged "INFO" "🤝 Calling Onboarding Agent via A2A for design" :: l) url
  = None ->
  create_client A
    (GetAgentCard url true
     :: Logged "INFO" "🤝 Calling Onboarding Agent via A2A for design" :: l)
  = None ->
  design_answer A requirements (ready_to_send url l)
  = A2AStream (before ++ A2AMessage parts :: after) failure ->
  forallb is_other before = true ->
  fst (request_design_from_onboarding_agent A requirements l)
  = PDict [("success", PBool true);
           ("design_response", PStr (concat_texts (texts_of parts)))].
Proof.
  intros [Hurl Hset] Hcard Hclient Hanswer Hbefore.
  unfold request_design_from_onboarding_agent, design_answer, ready_to_send
    in *.
  rewrite Hurl. destruct url as [|ch url]; [contradiction|].
  rewrite Hcard, Hclient. cbv zeta. rewrite Hanswer. cbn [a2a_events].
  rewrite (first_message_skips_others before after parts Hbefore).
  cbn [fst]. rewrite collect_text_appends. reflexivity.
Qed.

Lemma first_message_is_the_design_witness :
  fst (request_design_from_onboarding_agent Peer.env "a static site" [])
  = PDict [("success", PBool true);
           ("design_response", PStr "Here is the design.")].
Proof.
  apply (first_message_is_the_design Peer.env "a static site"
           "http://onboarding:9000/" [] [A2AOther; A2AOther]
           [A2AMessage [Some "Anything else?"%string]]
           [Some "Here is "%string; None; Some "the design."%string]
           (Some (Exn "ReadTimeout" "timed out"))).
  - split; [reflexivity|discriminate].
  - reflexivity.
  - reflexivity.
  - reflexivity.
  - reflexivity.
Defined.

(** X17.  A request for a design that gets no answer says so, and says
    why.  With the variable unset, or set to the empty string, the tool
    calls nothing and logs nothing.  When the card cannot be fetched, or no
    client made, nothing is sent to the other agent and the error comes
    back as the failure.  When the request went out and no [Message] came,
    the failure is what ended the stream, or ["No response from Onboarding
    Agent"] when nothing did. *)
Theorem unanswered_design_request (A : A2AEnv) (requirements : string)
  (l : a2a_log) :
  let run := request_design_from_onboarding_agent A requirements l in
  let not_configured :=
    PDict [("success", PBool false);
           ("error",
            PStr "Onboarding Agent not configured. Deploy Onboarding Agent first.")] in
  (ONBOARDING_AGENT_URL A = None \/ ONBOARDING_AGENT_URL A = Some ""%string ->
   run = (not_configured, l))
  /\ (forall url e,
        configured A url ->
        get_agent_card A
          (Logged "INFO" "🤝 Calling Onboarding Agent via A2A for design"
           :: l) url = Some e
        \/ (get_agent_card A
              (Logged "INFO" "🤝 Calling Onboarding Agent via A2A for design"
               :: l) url = None
            /\ create_client A
                 (GetAgentCard url true
                  :: Logged "INFO"
                       "🤝 Calling Onboarding Agent via A2A for design"
                  :: l) = Some e) ->
        fst run = tool_failure e
        /\ a2a_sent (a2a_since l (snd run)) = [])
  /\ (forall url,
        configured A url ->
        get_agent_card A
          (Logged "INFO" "🤝 Calling Onboarding Agent via A2A for design"
           :: l) url = None ->
        create_client A
          (GetAgentCard url true
           :: Logged "INFO" "🤝 Calling Onboarding Agent via A2A for design"
           :: l) = None ->
        forallb is_other
          (a2a_events (design_answer A requirements (ready_to_send url l)))
        = true ->
        fst run
        = match
            a2a_error (design_answer A requirements (ready_to_send url l))
          with
          | Some e => tool_failure e
          | None =>
              PDict [("success", PBool false);
                     ("error", PStr "No response from Onboarding Agent")]
          end
        /\ a2a_sent (a2a_since l (snd run)) = [design_request requirements]).
Proof.
  cbv zeta. unfold request_design_from_onboarding_agent, design_answer,
    ready_to_send, design_failed.
  split; [|split].
  - intros [-> | ->]; reflexivity.
  - intros url e [Hurl Hset] Hfail. rewrite Hurl.
    destruct url as [|ch url]; [contradiction|].
    destruct Hfail as [Hcard | [Hcard Hclient]].
    + rewrite Hcard. cbn [fst snd]. split; [reflexivity|].
      match goal with
      | |- context [a2a_since l (?a :: ?b :: ?c :: l)] =>
          change (a :: b :: c :: l) with ([a; b; c] ++ l)
      end.
      rewrite a2a_since_prefix. reflexivity.
    + rewrite Hcard, Hclient. cbn [fst snd]. split; [reflexivity|].
      match goal with
      | |- context [a2a_since l (?a :: ?b :: ?c :: ?d :: l)] =>
          change (a :: b :: c :: d :: l) with ([a; b; c; d] ++ l)
      end.
      rewrite a2a_since_prefix. reflexivity.
  - intros url [Hurl Hset] Hcard Hclient Hnone. rewrite Hurl.
    destruct url as [|ch url]; [contradiction|].
    rewrite Hcard, Hclient. cbv zeta.
    rewrite (first_message_none _ Hnone).
    destruct (a2a_error _); cbn [fst snd]; (split; [reflexivity|]).
    + match goal with
      | |- context [a2a_since l (?a :: ?b :: ?c :: ?d :: ?e :: l)] =>
          change (a :: b :: c :: d :: e :: l) with ([a; b; c; d; e] ++ l)
      end.
      rewrite a2a_since_prefix. reflexivity.
    + match goal with
      | |- context [a2a_since l (?a :: ?b :: ?c :: ?d :: l)] =>
          change (a :: b :: c :: d :: l) with ([a; b; c; d] ++ l)
      end.
      rewrite a2a_since_prefix. reflexivity.
Qed.

Lemma unanswered_design_request_witness :
  request_design_from_onboarding_agent Peer.unset_env "a static site" []
  = (PDict [("success", PBool false);
            ("error",
             PStr "Onboarding Agent not configured. Deploy Onboarding Agent first.")],
     [])
  /\ fst (request_design_from_onboarding_agent Peer.unreachable_env
            "a static site" [])
     = tool_failure (Exn "ConnectError" "connection refused").
Proof.
  split.
  - apply (unanswered_design_request Peer.unset_env "a static site" []).
    right. reflexivity.
  - destruct (unanswered_design_request Peer.unreachable_env "a static site"
                []) as (_ & Hfail & _).
    apply (Hfail "http://onboarding:9000/"
             (Exn "ConnectError" "connection refused")).
    + split; [reflexivity|discriminate].
    + left. reflexivity.
Defined.
